(** * savasan_iha: tracking, target lock, mission state and maneuver control

    A shallow embedding of the control core of the UAV interception rig:
    the Kalman tracker's registration path, the hysteresis lock evaluator,
    the QR command processor and the guarded mission state machine, the
    mission priority manager, the three maneuver generators and the PID
    primitive of the camera controller.

    Conventions of the embedding.
    - A Python [float] is a real number ([R]); rounding is not modelled.
      Comparisons are the decidable ones of the reals ([Rlt_dec], ...).
    - A Python [int] is a [Z].
    - [time.time()] is an input: every function that reads the clock takes
      the value read at each call site as an argument.
    - [np.random.random()] is an input in the same way.
    - Objects are records, a method takes the object and returns the new
      object next to its result.
    - Dictionaries whose iteration order the code relies on are association
      lists in insertion order ([PyDict]); the others are [gmap]s.
    - Drawing calls on video frames (cv2) and [print] have no effect on the
      modelled state and are left out.
    - A call that can let an exception escape yields a [Py.result]; a
      numpy division by zero, which gives a vector of NaN instead of
      raising, yields [None]. *)

From Stdlib Require Import Reals Lra ZArith Lia List String Bool.
From stdpp Require Import gmap strings pretty.
Import ListNotations.

Local Open Scope R_scope.
Local Set Warnings "-register-all".

(** ** Python values and helpers *)

Module Py.

(** Values that [json.loads] can produce. *)
Inductive value : Type :=
| VNone
| VBool (b : bool)
| VInt (n : Z)
| VFloat (x : R)
| VStr (s : string)
| VList (l : list value)
| VDict (d : list (string * value)).

(** Truth value of an [Optional[float]]: [None] and [0.0] are false. *)
Definition truthy_float (o : option R) : bool :=
  match o with
  | None => false
  | Some x => if Req_dec_T x 0 then false else true
  end.

(** Truth value of an [Optional[int]]: [None] and [0] are false. *)
Definition truthy_int (o : option Z) : bool :=
  match o with
  | None => false
  | Some n => negb (n =? 0)%Z
  end.

(** Comparisons of floats as truth values. *)
Definition Rltb (x y : R) : bool := if Rlt_dec x y then true else false.
Definition Rleb (x y : R) : bool := if Rle_dec x y then true else false.
Definition Reqb (x y : R) : bool := if Req_dec_T x y then true else false.

(** [int(x)] on a float: truncation toward zero. *)
Definition to_int (x : R) : Z :=
  if Rle_dec 0 x then Int_part x else (- Int_part (- x))%Z.

(** [max(lo, min(hi, x))] *)
Definition clamp (lo hi x : R) : R := Rmax lo (Rmin hi x).

(** Sum of a list of floats. *)
Definition Rsum (l : list R) : R := fold_right Rplus 0 l.

(** [int(x * w)] for an integer [w] and the fraction [x = 1/d]: the
    exact product truncated toward zero. *)
Definition int_frac (w d : Z) : Z := Z.quot w d.

(** The exceptions the modelled code lets escape. *)
Inductive exn : Type := TypeError.

(** What a call yields: the value it returns, or the exception it
    raises. *)
Inductive result (A : Type) : Type :=
| Returns (a : A)
| Raises (e : exn).

Arguments Returns {A} a.
Arguments Raises {A} e.

(** [sub in s] on strings. *)
Fixpoint str_contains (sub s : string) : bool :=
  String.prefix sub s
  || match s with
     | EmptyString => false
     | String _ s' => str_contains sub s'
     end.

End Py.

(** Insertion-ordered dictionaries, as Python's [dict]. *)
Module PyDict.
Section Dict.
Context {K V : Type} `{EqDecision K}.

Definition t := list (K * V).

Fixpoint get (d : t) (k : K) : option V :=
  match d with
  | [] => None
  | (k', v) :: d' => if decide (k' = k) then Some v else get d' k
  end.

(** [d[k] = v]: an existing key keeps its position. *)
Fixpoint set (d : t) (k : K) (v : V) : t :=
  match d with
  | [] => [(k, v)]
  | (k', v') :: d' =>
      if decide (k' = k) then (k, v) :: d' else (k', v') :: set d' k v
  end.

(** [del d[k]] *)
Fixpoint del (d : t) (k : K) : t :=
  match d with
  | [] => []
  | (k', v') :: d' =>
      if decide (k' = k) then d' else (k', v') :: del d' k
  end.

Definition keys (d : t) : list K := map fst d.
Definition values (d : t) : list V := map snd d.
End Dict.
Arguments t : clear implicits.
End PyDict.

(** ** PID primitive (vision/targeting/camera_controller.py) *)

Module PIDController.

Record t : Type := mk {
  kp : R;
  ki : R;
  kd : R;
  min_output : R;
  max_output : R;
  previous_error : R;
  integral : R;
  last_time : option R
}.

(** [__init__] *)
Definition init (kp ki kd min_output max_output : R) : t :=
  mk kp ki kd min_output max_output 0 0 None.

(** [compute(setpoint, process_variable, current_time=None)];
    [clock] is what [time.time()] returns when [current_time] is [None]. *)
Definition compute (self : t) (setpoint process_variable : R)
    (current_time : option R) (clock : R) : t * R :=
  let current_time :=
    match current_time with None => clock | Some ct => ct end in
  match last_time self with
  | None =>
      (mk (kp self) (ki self) (kd self) (min_output self) (max_output self)
          (setpoint - process_variable) (integral self) (Some current_time),
       0)
  | Some lt =>
      let dt := current_time - lt in
      if Rle_dec dt 0 then (self, 0)
      else
        let error := setpoint - process_variable in
        let integral' := integral self + error * dt in
        let derivative :=
          if Rlt_dec 0 dt then (error - previous_error self) / dt else 0 in
        let output :=
          kp self * error + ki self * integral' + kd self * derivative in
        let output := Rmax (min_output self) (Rmin (max_output self) output) in
        (mk (kp self) (ki self) (kd self) (min_output self) (max_output self)
            error integral' (Some current_time),
         output)
  end.

(** [reset()] *)
Definition reset (self : t) : t :=
  mk (kp self) (ki self) (kd self) (min_output self) (max_output self)
     0 0 None.

End PIDController.

(** ** QR command processor (detection/qr/qr_processor.py) *)

Module QRProcessor.

Inductive QRCommand : Type :=
| KAMIKAZE | ESCAPE | LOCK | MISSION_UPDATE | STATUS_REQUEST.

#[global] Instance QRCommand_eq_dec : EqDecision QRCommand.
Proof. solve_decision. Defined.

(** [QRCommand(v)]: the member whose value is [v]; [None] stands for the
    [ValueError] that the caller turns into "no command". *)
Definition QRCommand_of_value (v : Py.value) : option QRCommand :=
  match v with
  | Py.VStr s =>
      if String.eqb s "KAMIKAZE" then Some KAMIKAZE
      else if String.eqb s "ESCAPE" then Some ESCAPE
      else if String.eqb s "LOCK" then Some LOCK
      else if String.eqb s "MISSION_UPDATE" then Some MISSION_UPDATE
      else if String.eqb s "STATUS_REQUEST" then Some STATUS_REQUEST
      else None
  | _ => None
  end.

(** The JSON object a payload decodes to, seen through the members the
    processor reads: ["command"] (absent, or any JSON value),
    ["parameters"] (absent, or a JSON object) and the remaining members. *)
Record qr_object : Type := mk_object {
  command : option Py.value;
  parameters_member : option (PyDict.t string Py.value);
  other_members : PyDict.t string Py.value
}.

(** A JSON value that is not an object: [null], a boolean, a number, a
    string or an array. *)
Inductive json_other : Type :=
| JNull
| JBool (b : bool)
| JInt (n : Z)
| JFloat (x : R)
| JStr (s : string)
| JArray (l : list Py.value).

(** Result of [json.loads(qr_data)] on a payload: the decoder raises, or
    it returns an object, or it returns another JSON value. *)
Inductive loaded : Type :=
| JSONDecodeError
| Loaded (data : qr_object)
| LoadedOther (v : json_other).

(** ['command' in data] for a value that is not an object: a substring
    test on a string, a membership test on an array; [None] stands for
    the [TypeError] raised for a value that is not iterable. *)
Definition has_command_member (v : json_other) : option bool :=
  match v with
  | JNull | JBool _ | JInt _ | JFloat _ => None
  | JStr s => Some (Py.str_contains "command" s)
  | JArray l =>
      Some (existsb (fun x => match x with
                              | Py.VStr s => String.eqb s "command"
                              | _ => false
                              end) l)
  end.

Record command_info : Type := mk_info {
  type : QRCommand;
  timestamp : R;
  raw_data : qr_object;
  parameters : PyDict.t string Py.value
}.

Record t : Type := mk {
  last_command : option QRCommand;
  last_command_time : option R;
  command_history : list command_info;
  command_cooldown : R
}.

(** [__init__] *)
Definition init : t := mk None None [] 2.

(** The cooldown test of [process_qr_data]:
    [self.last_command == command_type and self.last_command_time and
     current_time - self.last_command_time < self.command_cooldown]. *)
Definition in_cooldown (self : t) (command_type : QRCommand)
    (current_time : R) : bool :=
  match last_command self with
  | Some lc =>
      if decide (lc = command_type) then
        match last_command_time self with
        | Some lt =>
            Py.truthy_float (Some lt)
            && Py.Rltb (current_time - lt) (command_cooldown self)
        | None => false
        end
      else false
  | None => false
  end.

(** [command_history.append(info)] followed by dropping the oldest entry
    once more than 50 are kept. *)
Definition push_history (h : list command_info) (info : command_info)
  : list command_info :=
  let h' := h ++ [info] in
  if (50 <? Z.of_nat (length h'))%Z then tl h' else h'.

(** [process_qr_data(qr_data)]; [clock] is the reading of [time.time()].
    Only [json.JSONDecodeError] is caught: on a JSON value that is not an
    object, the test ['command' not in data] raises [TypeError] when the
    value is not iterable, and the subscript [data['command']] raises it
    when a string or an array passed the test. *)
Definition process_qr_data (self : t) (qr_data : loaded) (clock : R)
  : t * Py.result (option command_info) :=
  match qr_data with
  | JSONDecodeError => (self, Py.Returns None)
  | LoadedOther v =>
      match has_command_member v with
      | None => (self, Py.Raises Py.TypeError)
      | Some false => (self, Py.Returns None)
      | Some true => (self, Py.Raises Py.TypeError)
      end
  | Loaded data =>
      match command data with
      | None => (self, Py.Returns None)
      | Some v =>
          match QRCommand_of_value v with
          | None => (self, Py.Returns None)
          | Some command_type =>
              let current_time := clock in
              if in_cooldown self command_type current_time
              then (self, Py.Returns None)
              else
                let info :=
                  mk_info command_type current_time data
                    (default [] (parameters_member data)) in
                (mk (Some command_type) (Some current_time)
                    (push_history (command_history self) info)
                    (command_cooldown self),
                 Py.Returns (Some info))
          end
      end
  end.

(** [command_type.value] *)
Definition QRCommand_value (c : QRCommand) : string :=
  match c with
  | KAMIKAZE => "KAMIKAZE"
  | ESCAPE => "ESCAPE"
  | LOCK => "LOCK"
  | MISSION_UPDATE => "MISSION_UPDATE"
  | STATUS_REQUEST => "STATUS_REQUEST"
  end.

(** [create_qr_command(command_type, parameters)]: the object handed to
    [json.dumps], which a reader of the QR code loads back. *)
Definition create_qr_command (command_type : QRCommand)
    (parameters : option (PyDict.t string Py.value)) : qr_object :=
  mk_object (Some (Py.VStr (QRCommand_value command_type)))
            (Some (default [] parameters)) [].

(** The command a payload carries, if it decodes to one. *)
Definition payload_command (qr : loaded) : option QRCommand :=
  match qr with
  | JSONDecodeError => None
  | Loaded data =>
      match command data with
      | Some v => QRCommand_of_value v
      | None => None
      end
  | LoadedOther _ => None
  end.

(** A run of the processor over payloads, each with its clock reading:
    one call per payload on the same processor, with what each call
    yields. *)
Fixpoint run (self : t) (inputs : list (loaded * R))
  : t * list (Py.result (option command_info)) :=
  match inputs with
  | [] => (self, [])
  | (qr, clock) :: rest =>
      let '(self1, out) := process_qr_data self qr clock in
      let '(self2, outs) := run self1 rest in
      (self2, out :: outs)
  end.

(** [get_command_history()] *)
Definition get_command_history (self : t) : list command_info :=
  command_history self.

(** [clear_history()] *)
Definition clear_history (self : t) : t :=
  mk None None [] (command_cooldown self).

End QRProcessor.

(** ** Mission state machine (vision/mission/mission_controller.py) *)

Module MissionController.

Inductive MissionState : Type :=
| IDLE | SEARCHING | TRACKING | LOCKING | LOCKED
| KAMIKAZE | ESCAPING | EMERGENCY.

#[global] Instance MissionState_eq_dec : EqDecision MissionState.
Proof. solve_decision. Defined.

Record state_info : Type := mk_state_info {
  state : MissionState;
  state_timestamp : R;
  state_previous : option MissionState
}.

Record t : Type := mk {
  current_state : MissionState;
  previous_state : option MissionState;
  state_change_time : R;
  mission_data : gmap string Py.value;
  state_history : list state_info
}.

(** [__init__]; [clock] is the reading of [time.time()]. *)
Definition init (clock : R) : t := mk IDLE None clock ∅ [].

(** [update_state(new_state)] *)
Definition update_state (self : t) (new_state : MissionState) (clock : R) : t :=
  if decide (new_state = current_state self) then self
  else
    let previous := Some (current_state self) in
    let history := state_history self ++ [mk_state_info new_state clock previous] in
    mk new_state previous clock (mission_data self)
       (if (100 <? Z.of_nat (length history))%Z then tl history else history).

(** [self.mission_data[key] = v] *)
Definition set_data (self : t) (key : string) (v : Py.value) : t :=
  mk (current_state self) (previous_state self) (state_change_time self)
     (<[key := v]> (mission_data self)) (state_history self).

(** [parameters.get(key)]: [None] when the key is absent. *)
Definition params_get (parameters : PyDict.t string Py.value) (key : string)
  : Py.value :=
  default Py.VNone (PyDict.get parameters key).

(** [self.mission_data.update(parameters)] *)
Definition merge_data (self : t) (parameters : PyDict.t string Py.value) : t :=
  mk (current_state self) (previous_state self) (state_change_time self)
     (fold_left (fun m kv => <[fst kv := snd kv]> m) parameters
        (mission_data self))
     (state_history self).

(** [process_command(command_info)]; [clock] is the reading of
    [time.time()] inside [update_state]. *)
Definition process_command (self : t) (command_info : QRProcessor.command_info)
    (clock : R) : t * bool :=
  let command_type := QRProcessor.type command_info in
  let parameters := QRProcessor.parameters command_info in
  match command_type with
  | QRProcessor.KAMIKAZE =>
      if bool_decide (current_state self = LOCKED)
         || bool_decide (current_state self = TRACKING)
      then (set_data (update_state self KAMIKAZE clock) "kamikaze_target"
              (params_get parameters "target_id"), true)
      else (self, false)
  | QRProcessor.ESCAPE =>
      if bool_decide (current_state self <> EMERGENCY)
      then (set_data (update_state self ESCAPING clock) "escape_direction"
              (params_get parameters "direction"), true)
      else (self, false)
  | QRProcessor.LOCK =>
      if bool_decide (current_state self = TRACKING)
      then (set_data (update_state self LOCKING clock) "lock_target"
              (params_get parameters "target_id"), true)
      else (self, false)
  | QRProcessor.MISSION_UPDATE => (merge_data self parameters, true)
  | QRProcessor.STATUS_REQUEST => (self, true)
  end.

(** [reset()] *)
Definition reset (self : t) (clock : R) : t := mk IDLE None clock ∅ [].

(** The guard table of the state machine, as the specification words it:
    KAMIKAZE from LOCKED or TRACKING, ESCAPE from any state but EMERGENCY,
    LOCK from TRACKING only, MISSION_UPDATE and STATUS_REQUEST from any. *)
Definition spec_guard (c : QRProcessor.QRCommand) (s : MissionState) : bool :=
  match c with
  | QRProcessor.KAMIKAZE =>
      match s with LOCKED | TRACKING => true | _ => false end
  | QRProcessor.ESCAPE =>
      match s with EMERGENCY => false | _ => true end
  | QRProcessor.LOCK =>
      match s with TRACKING => true | _ => false end
  | QRProcessor.MISSION_UPDATE => true
  | QRProcessor.STATUS_REQUEST => true
  end.

End MissionController.

(** ** QR handling in the main loop (main.py, [UAVSystem.run]) *)

Module UAVSystem.

(** One iteration of
    [for qr_detection in qr_detections:
       command_info = self.qr_processor.process_qr_data(qr_detection['data'])
       if command_info: self.mission_controller.process_command(command_info)];
    [t_qr] and [t_state] are the clock readings of the two components.
    An exception of the processor is not caught here. *)
Definition handle_qr_detection
    (st : QRProcessor.t * MissionController.t)
    (qr : QRProcessor.loaded) (t_qr t_state : R)
  : Py.result (QRProcessor.t * MissionController.t) :=
  let '(qp, mc) := st in
  match QRProcessor.process_qr_data qp qr t_qr with
  | (qp', Py.Returns None) => Py.Returns (qp', mc)
  | (qp', Py.Returns (Some info)) =>
      Py.Returns
        (qp', fst (MissionController.process_command mc info t_state))
  | (_, Py.Raises e) => Py.Raises e
  end.

(** The whole loop: it ends at the first exception. *)
Fixpoint process_qr_detections
    (st : QRProcessor.t * MissionController.t)
    (qr_detections : list (QRProcessor.loaded * R * R))
  : Py.result (QRProcessor.t * MissionController.t) :=
  match qr_detections with
  | [] => Py.Returns st
  | d :: rest =>
      match handle_qr_detection st (fst (fst d)) (snd (fst d)) (snd d) with
      | Py.Returns st' => process_qr_detections st' rest
      | Py.Raises e => Py.Raises e
      end
  end.

End UAVSystem.

(** ** Tracks handed from the tracker to the lock evaluator *)

Module Track.

(** [bbox = [x1, y1, x2, y2]], read as [bbox[0]] .. [bbox[3]]. *)
Record BBox : Type := mk_bbox { b0 : R; b1 : R; b2 : R; b3 : R }.

(** An entry of the [tracked_objects] dictionary. *)
Record tracked_object : Type := mk_object {
  centroid : R * R;
  bbox : BBox;
  confidence : R
}.

(** [tracked_objects]: track id to entry, in insertion order. *)
Definition tracked_objects : Type := PyDict.t Z tracked_object.

End Track.

(** ** Target lock evaluator (vision/targeting/target_lock.py) *)

Module TargetLockSystem.

Record rect : Type := mk_rect { x1 : Z; y1 : Z; x2 : Z; y2 : Z }.

Record uav_info : Type := mk_uav {
  uav_id : string;
  first_seen : R;
  total_tracked_frames : Z;
  total_lock_time : R
}.

Record t : Type := mk {
  frame_width : Z;
  frame_height : Z;
  required_lock_time : R;
  total_lock_window : R;
  lock_box_coverage : R;
  lock_tolerance : R;
  camera_view : rect;
  target_hit_area : rect;
  lock_zone : rect;
  current_target_id : option Z;
  lock_start_time : option R;
  window_start_time : option R;
  is_locked : bool;
  lock_duration : R;
  lock_duration_elapsed : R;
  last_locked_target : option Z;
  server_time : R;
  lock_hysteresis : Z;
  uav_counter : Z;
  tracked_uavs : gmap Z uav_info
}.

(** [_setup_competition_zones]: the three nested rectangles. *)
Definition setup_camera_view (w h : Z) : rect := mk_rect 0 0 w h.

Definition setup_target_hit_area (w h : Z) : rect :=
  let margin_x := Py.int_frac w 4 in     (* int(0.25 * frame_width) *)
  let margin_y := Py.int_frac h 10 in    (* int(0.10 * frame_height) *)
  mk_rect margin_x margin_y (w - margin_x) (h - margin_y).

Definition setup_lock_zone (w h : Z) : rect :=
  let area := setup_target_hit_area w h in
  let lock_margin_x := Py.int_frac w 20 in   (* int(0.05 * frame_width) *)
  let lock_margin_y := Py.int_frac h 20 in   (* int(0.05 * frame_height) *)
  mk_rect (x1 area + lock_margin_x) (y1 area + lock_margin_y)
          (x2 area - lock_margin_x) (y2 area - lock_margin_y).

(** [__init__(frame_width, frame_height, required_lock_time,
              total_lock_window, lock_box_coverage)] *)
Definition init (frame_width frame_height : Z)
    (required_lock_time total_lock_window lock_box_coverage : R) : t :=
  mk frame_width frame_height required_lock_time total_lock_window
     lock_box_coverage (20 / 100)
     (setup_camera_view frame_width frame_height)
     (setup_target_hit_area frame_width frame_height)
     (setup_lock_zone frame_width frame_height)
     None None None false 0 0 None 0 0%Z 0%Z ∅.

(** The constructor with its default arguments. *)
Definition default : t := init 1280 720 5 5 (70 / 100).

(** [is_point_in_lock_zone(point)] *)
Definition is_point_in_lock_zone (self : t) (point : R * R) : bool :=
  let '(x, y) := point in
  Py.Rltb (IZR (x1 (lock_zone self))) x && Py.Rltb x (IZR (x2 (lock_zone self)))
  && Py.Rltb (IZR (y1 (lock_zone self))) y
  && Py.Rltb y (IZR (y2 (lock_zone self))).

(** [is_target_in_area(bbox)] *)
Definition is_target_in_area (self : t) (bbox : Track.BBox) : bool :=
  let area_x1 := IZR (x1 (target_hit_area self))
                 - IZR (frame_width self) * lock_tolerance self in
  let area_y1 := IZR (y1 (target_hit_area self))
                 - IZR (frame_height self) * lock_tolerance self in
  let area_x2 := IZR (x2 (target_hit_area self))
                 + IZR (frame_width self) * lock_tolerance self in
  let area_y2 := IZR (y2 (target_hit_area self))
                 + IZR (frame_height self) * lock_tolerance self in
  negb (Py.Rltb (Track.b2 bbox) area_x1 || Py.Rltb area_x2 (Track.b0 bbox)
        || Py.Rltb (Track.b3 bbox) area_y1 || Py.Rltb area_y2 (Track.b1 bbox)).

(** Field updates used by [update]. *)
Definition with_hysteresis (self : t) (h : Z) : t :=
  mk (frame_width self) (frame_height self) (required_lock_time self)
     (total_lock_window self) (lock_box_coverage self) (lock_tolerance self)
     (camera_view self) (target_hit_area self) (lock_zone self)
     (current_target_id self) (lock_start_time self) (window_start_time self)
     (is_locked self) (lock_duration self) (lock_duration_elapsed self)
     (last_locked_target self) (server_time self) h (uav_counter self)
     (tracked_uavs self).

Definition with_uavs (self : t) (counter : Z) (uavs : gmap Z uav_info) : t :=
  mk (frame_width self) (frame_height self) (required_lock_time self)
     (total_lock_window self) (lock_box_coverage self) (lock_tolerance self)
     (camera_view self) (target_hit_area self) (lock_zone self)
     (current_target_id self) (lock_start_time self) (window_start_time self)
     (is_locked self) (lock_duration self) (lock_duration_elapsed self)
     (last_locked_target self) (server_time self) (lock_hysteresis self)
     counter uavs.

Definition with_lock (self : t) (target : option Z) (start window : option R)
    (locked : bool) (duration elapsed : R) : t :=
  mk (frame_width self) (frame_height self) (required_lock_time self)
     (total_lock_window self) (lock_box_coverage self) (lock_tolerance self)
     (camera_view self) (target_hit_area self) (lock_zone self)
     target start window locked duration elapsed
     (last_locked_target self) (server_time self) (lock_hysteresis self)
     (uav_counter self) (tracked_uavs self).

(** [reset_lock()] *)
Definition reset_lock (self : t) : t :=
  with_lock self None None None false 0 0.

(** [f"{n:03d}"] *)
Definition format_03d (n : Z) : string :=
  let pad (w : nat) (s : string) : string :=
    String.concat "" (replicate (w - String.length s) "0"%string) +:+ s in
  if (n <? 0)%Z then "-" +:+ pad 2%nat (pretty (- n)%Z) else pad 3%nat (pretty n).

(** "Assign or get UAV ID" and the frame count of [update]:
    a track id not seen before gets the next label; [clock] is the reading
    of [time.time()] stored as [first_seen]. *)
Definition observe_uav (self : t) (obj_id : Z) (clock : R) : t :=
  let self1 :=
    match tracked_uavs self !! obj_id with
    | Some _ => self
    | None =>
        let counter := (uav_counter self + 1)%Z in
        with_uavs self counter
          (<[obj_id := mk_uav ("UAV_" +:+ format_03d counter) clock 0%Z 0]>
             (tracked_uavs self))
    end in
  with_uavs self1 (uav_counter self1)
    (alter (fun u => mk_uav (uav_id u) (first_seen u)
                       (total_tracked_frames u + 1)%Z (total_lock_time u))
       obj_id (tracked_uavs self1)).

Record lock_status : Type := mk_status {
  status_is_locked : bool;
  status_target_id : option Z;
  status_uav_id : option string;
  status_lock_duration : R;
  status_window_start_time : option R;
  status_server_time : R;
  status_lock_zone : rect;
  status_target_hit_area : rect;
  status_last_locked_target : option Z;
  status_total_tracked_uavs : nat
}.

(** [_get_lock_status()] *)
Definition _get_lock_status (self : t) : lock_status :=
  let current_uav_id :=
    if Py.truthy_int (current_target_id self) then
      match current_target_id self with
      | Some id =>
          match tracked_uavs self !! id with
          | Some u => Some (uav_id u)
          | None => None
          end
      | None => None
      end
    else None in
  mk_status (is_locked self) (current_target_id self) current_uav_id
    (lock_duration_elapsed self) (window_start_time self) (server_time self)
    (lock_zone self) (target_hit_area self) (last_locked_target self)
    (size (tracked_uavs self)).

(** The branch of [update] taken when the centroid is in the lock zone. *)
Definition lock_step (self : t) (obj_id : Z) (t_start t_now : R) : t :=
  let self1 := with_hysteresis self (Z.min (lock_hysteresis self + 1) 5) in
  if (2 <=? lock_hysteresis self1)%Z then
    let self2 :=
      if negb (Py.truthy_float (lock_start_time self1)) then
        with_lock self1 (Some obj_id) (Some t_start) (window_start_time self1)
          (is_locked self1) (lock_duration self1) (lock_duration_elapsed self1)
      else self1 in
    let duration :=
      t_now - match lock_start_time self2 with Some s => s | None => 0 end in
    let locked := Py.Rleb (required_lock_time self2) duration in
    let self3 :=
      with_lock self2 (current_target_id self2) (lock_start_time self2)
        (window_start_time self2) locked duration duration in
    if locked then
      with_uavs self3 (uav_counter self3)
        (alter (fun u => mk_uav (uav_id u) (first_seen u)
                           (total_tracked_frames u) duration)
           obj_id (tracked_uavs self3))
    else self3
  else self1.

(** The branch of [update] taken otherwise, and on an empty track set. *)
Definition decay_step (self : t) : t :=
  let self1 := with_hysteresis self (Z.max (lock_hysteresis self - 1) (-3)) in
  if (lock_hysteresis self1 <=? -3)%Z then reset_lock self1 else self1.

(** [update(tracked_objects, frame)] without the drawing; [t_seen],
    [t_start] and [t_now] are the readings of [time.time()] for
    [first_seen], [lock_start_time] and [lock_duration]. *)
Definition update (self : t) (tracked_objects : Track.tracked_objects)
    (t_seen t_start t_now : R) : t * lock_status :=
  match tracked_objects with
  | [] =>
      let self1 := decay_step self in
      (self1, _get_lock_status self1)
  | (obj_id, obj) :: _ =>
      let self1 := observe_uav self obj_id t_seen in
      let in_lock_zone := is_point_in_lock_zone self1 (Track.centroid obj) in
      let self2 :=
        if in_lock_zone then lock_step self1 obj_id t_start t_now
        else decay_step self1 in
      (self2, _get_lock_status self2)
  end.

(** One video frame as the evaluator sees it. *)
Record frame : Type := mk_frame {
  tracks : Track.tracked_objects;
  t_seen : R;
  t_start : R;
  t_now : R
}.

Definition step (self : t) (f : frame) : t :=
  fst (update self (tracks f) (t_seen f) (t_start f) (t_now f)).

(** A frame with a single tracked object whose centroid is inside the
    lock zone. *)
Definition single_in_zone (self : t) (f : frame) : Prop :=
  exists (id : Z) (obj : Track.tracked_object),
    tracks f = [(id, obj)] /\
    is_point_in_lock_zone self (Track.centroid obj) = true.

(** The evaluator after a sequence of frames. *)
Definition run (self : t) (frames : list frame) : t :=
  fold_left step frames self.

(** A frame of the default 1280x720 evaluator showing track [id] at the
    frame centre, with all clock readings equal to [clock]. *)
Definition centre_frame (id : Z) (clock : R) : frame :=
  mk_frame [(id, Track.mk_object (640, 360)
                   (Track.mk_bbox 600 320 680 400) (9 / 10))]
           clock clock clock.

(** A frame showing track [id] at the top left corner of the picture. *)
Definition corner_frame (id : Z) (clock : R) : frame :=
  mk_frame [(id, Track.mk_object (10, 10)
                   (Track.mk_bbox 0 0 20 20) (9 / 10))]
           clock clock clock.

(** [is_point_in_target_area(point)] *)
Definition is_point_in_target_area (self : t) (point : R * R) : bool :=
  let '(x, y) := point in
  let tolerance_x := IZR (frame_width self) * (1 / 100) in
  let tolerance_y := IZR (frame_height self) * (1 / 100) in
  Py.Rleb (IZR (x1 (target_hit_area self)) - tolerance_x) x
  && Py.Rleb x (IZR (x2 (target_hit_area self)) + tolerance_x)
  && Py.Rleb (IZR (y1 (target_hit_area self)) - tolerance_y) y
  && Py.Rleb y (IZR (y2 (target_hit_area self)) + tolerance_y).

(** The overlap of a bounding box with a rectangle, as both overlap
    tests compute it: [None] when [x2 <= x1 or y2 <= y1]. *)
Definition overlap (bbox : Track.BBox) (box : rect) : option R :=
  let x1 := Rmax (Track.b0 bbox) (IZR (x1 box)) in
  let y1 := Rmax (Track.b1 bbox) (IZR (y1 box)) in
  let x2 := Rmin (Track.b2 bbox) (IZR (x2 box)) in
  let y2 := Rmin (Track.b3 bbox) (IZR (y2 box)) in
  if Py.Rleb x2 x1 || Py.Rleb y2 y1 then None
  else Some ((x2 - x1) * (y2 - y1)).

Definition bbox_area (bbox : Track.BBox) : R :=
  (Track.b2 bbox - Track.b0 bbox) * (Track.b3 bbox - Track.b1 bbox).

Definition rect_area (box : rect) : R :=
  (IZR (x2 box) - IZR (x1 box)) * (IZR (y2 box) - IZR (y1 box)).

(** [is_bbox_in_target_area(bbox)]; [None] stands for a division by
    zero. *)
Definition is_bbox_in_target_area (self : t) (bbox : Track.BBox)
    : option bool :=
  match overlap bbox (target_hit_area self) with
  | None => Some false
  | Some overlap_area =>
      let bbox_area := bbox_area bbox in
      let target_area := rect_area (target_hit_area self) in
      if Py.Reqb bbox_area 0 then None
      else
        let bbox_overlap_ratio := overlap_area / bbox_area in
        if Py.Reqb target_area 0 then None
        else
          let target_overlap_ratio := overlap_area / target_area in
          Some (Py.Rleb (3 / 10) bbox_overlap_ratio
                || Py.Rleb (1 / 100) target_overlap_ratio)
  end.

(** [_calculate_coverage(target_bbox, lock_box)] *)
Definition _calculate_coverage (target_bbox : Track.BBox) (lock_box : rect)
    : R :=
  match overlap target_bbox lock_box with
  | None => 0
  | Some intersection_area =>
      let target_area := bbox_area target_bbox in
      if Py.Rltb 0 target_area then intersection_area / target_area else 0
  end.

(** Whether the first tracked object of a frame is inside the lock zone
    (false for a frame without tracked objects). *)
Definition in_zone_frame (self : t) (f : frame) : bool :=
  match tracks f with
  | [] => false
  | (_, obj) :: _ => is_point_in_lock_zone self (Track.centroid obj)
  end.

(** Whether the first tracked object of a frame carries track id [id]. *)
Definition first_track_is (id : Z) (f : frame) : bool :=
  match tracks f with
  | [] => false
  | (i, _) :: _ => bool_decide (i = id)
  end.

(** What every update keeps true of the evaluator. *)
Definition consistent (self : t) : Prop :=
  (-3 <= lock_hysteresis self <= 5)%Z /\
  lock_duration_elapsed self = lock_duration self /\
  window_start_time self = None /\
  last_locked_target self = None /\
  (is_Some (lock_start_time self) <-> is_Some (current_target_id self)) /\
  (is_locked self = true -> is_Some (lock_start_time self)) /\
  (lock_hysteresis self = (-3)%Z ->
   lock_start_time self = None /\ is_locked self = false) /\
  uav_counter self = Z.of_nat (size (tracked_uavs self)) /\
  (forall id : Z,
     current_target_id self = Some id -> is_Some (tracked_uavs self !! id)).

End TargetLockSystem.

(** ** Mission records (vision/mission/mission_types.py) *)

Module MissionTypes.

Inductive MissionPriority : Type := CRITICAL | HIGH | MEDIUM | LOW.

(** [priority.value]: the members are numbered by [auto()] in the order
    they are written. *)
Definition priority_value (p : MissionPriority) : Z :=
  match p with CRITICAL => 1 | HIGH => 2 | MEDIUM => 3 | LOW => 4 end.

Inductive MissionType : Type :=
| SCAN | TRACK | LOCK | KAMIKAZE | ESCAPE | RETURN_HOME.

Definition get_default_priority (ty : MissionType) : MissionPriority :=
  match ty with
  | SCAN => LOW
  | TRACK => MEDIUM
  | LOCK => HIGH
  | KAMIKAZE => HIGH
  | ESCAPE => CRITICAL
  | RETURN_HOME => MEDIUM
  end.

Inductive MissionStatus : Type :=
| PENDING | ACTIVE | COMPLETED | FAILED | INTERRUPTED.

#[global] Instance MissionStatus_eq_dec : EqDecision MissionStatus.
Proof. solve_decision. Defined.

Record MissionData : Type := mk_data {
  mission_id : string;
  mission_type : MissionType;
  priority : MissionPriority;
  status : MissionStatus;
  start_time : R;
  completion_time : option R;
  target_id : option string;
  parameters : PyDict.t string Py.value
}.

(** [MissionData.update_status(new_status)] *)
Definition update_status (m : MissionData) (new_status : MissionStatus)
    (clock : R) : MissionData :=
  mk_data (mission_id m) (mission_type m) (priority m) new_status
    (start_time m)
    (if bool_decide (new_status = COMPLETED)
        || bool_decide (new_status = FAILED)
        || bool_decide (new_status = INTERRUPTED)
     then Some clock else completion_time m)
    (target_id m) (parameters m).

Record MissionResult : Type := mk_result {
  success : bool;
  message : string;
  data : PyDict.t string Py.value
}.

End MissionTypes.

(** ** Mission priority manager (vision/mission/mission_manager.py) *)

Module MissionManager.
Import MissionTypes.

(** Mission records are shared objects: the active dictionary, the
    history list and the current-mission pointer hold references into
    [heap], the store of every record created so far. *)
Abbreviation ref := nat.

Record t : Type := mk {
  heap : list MissionData;
  active_missions : PyDict.t string ref;
  mission_history : list ref;
  current_mission : option ref
}.

(** [__init__] *)
Definition init : t := mk [] [] [] None.

(** [create_mission(mission_type, target_id, priority, parameters)];
    [uuid] is the value of [str(uuid.uuid4())]. *)
Definition create_mission (self : t) (mission_type : MissionType)
    (target_id : option string) (priority : option MissionPriority)
    (parameters : option (PyDict.t string Py.value))
    (uuid : string) (clock : R) : t * ref :=
  let mission_id := uuid in
  let priority :=
    match priority with
    | None => get_default_priority mission_type
    | Some p => p
    end in
  let mission :=
    mk_data mission_id mission_type priority PENDING clock None target_id
      (default [] parameters) in
  let r := length (heap self) in
  (mk (heap self ++ [mission]) (PyDict.set (active_missions self) mission_id r)
      (mission_history self) (current_mission self),
   r).

(** [self.current_mission and self.current_mission.mission_id == mission_id] *)
Definition current_is (self : t) (mission_id : string) : bool :=
  match current_mission self with
  | None => false
  | Some c =>
      match heap self !! c with
      | Some m => bool_decide (MissionTypes.mission_id m = mission_id)
      | None => false
      end
  end.

(** [update_mission_status(mission_id, new_status, result)] *)
Definition update_mission_status (self : t) (mission_id : string)
    (new_status : MissionStatus) (result : option MissionResult)
    (clock : R) : t :=
  match PyDict.get (active_missions self) mission_id with
  | None => self
  | Some mission =>
      let self1 :=
        mk (alter (fun m => update_status m new_status clock) mission
              (heap self))
           (active_missions self) (mission_history self)
           (current_mission self) in
      if bool_decide (new_status = COMPLETED)
         || bool_decide (new_status = FAILED)
      then
        mk (heap self1)
           (PyDict.del (active_missions self1) mission_id)
           (mission_history self1 ++ [mission])
           (if current_is self1 mission_id then None
            else current_mission self1)
      else self1
  end.

(** [max(l, key=key)]: the first element with the greatest key. *)
Fixpoint max_by {A : Type} (key : A -> Z) (best : A) (l : list A) : A :=
  match l with
  | [] => best
  | x :: l' => max_by key (if (key best <? key x)%Z then x else best) l'
  end.

(** [get_highest_priority_mission()] *)
Definition get_highest_priority_mission (self : t) : option ref :=
  let pending_missions :=
    List.filter
      (fun r => match heap self !! r with
                | Some m => bool_decide (status m = PENDING)
                | None => false
                end)
      (PyDict.values (active_missions self)) in
  match pending_missions with
  | [] => None
  | r :: rest =>
      Some (max_by (fun r => match heap self !! r with
                             | Some m => priority_value (priority m)
                             | None => 0%Z
                             end) r rest)
  end.

(** [interrupt_current_mission(reason)] *)
Definition interrupt_current_mission (self : t) (reason : string)
    (clock : R) : t :=
  match current_mission self with
  | None => self
  | Some c =>
      match heap self !! c with
      | None => self
      | Some m =>
          let self1 :=
            update_mission_status self (mission_id m) INTERRUPTED
              (Some (mk_result false reason [])) clock in
          mk (heap self1) (active_missions self1) (mission_history self1) None
      end
  end.

(** [mission.update_status(ACTIVE)] on a shared record, then
    [self.current_mission = mission]. *)
Definition activate (self : t) (r : ref) (clock : R) : t :=
  mk (alter (fun m => update_status m ACTIVE clock) r (heap self))
     (active_missions self) (mission_history self) (Some r).

(** [update()] *)
Definition update (self : t) (clock : R) : t * option ref :=
  let self' :=
    match get_highest_priority_mission self with
    | None => self
    | Some hp =>
        match current_mission self with
        | None => activate self hp clock
        | Some c =>
            let value (r : ref) :=
              match heap self !! r with
              | Some m => priority_value (priority m)
              | None => 0%Z
              end in
            if (value c <? value hp)%Z then
              activate
                (interrupt_current_mission self
                   "Interrupted by higher priority mission" clock)
                hp clock
            else self
        end
    end in
  (self', current_mission self').

(** The priority value and the status of the record behind a reference
    (0 and "not that status" for a reference to nothing). *)
Definition value_of (self : t) (r : ref) : Z :=
  match heap self !! r with
  | Some m => priority_value (priority m)
  | None => 0%Z
  end.

Definition has_status (self : t) (st : MissionStatus) (r : ref) : bool :=
  match heap self !! r with
  | Some m => bool_decide (status m = st)
  | None => false
  end.

Record stats : Type := mk_stats {
  total_missions : Z;
  stats_active_missions : Z;
  completed_missions : Z;
  failed_missions : Z;
  interrupted_missions : Z;
  success_rate : R
}.

(** [get_mission_stats()] *)
Definition get_mission_stats (self : t) : stats :=
  let total_missions :=
    (Z.of_nat (length (mission_history self))
     + Z.of_nat (length (active_missions self)))%Z in
  let count (st : MissionStatus) :=
    Z.of_nat (length (List.filter (has_status self st) (mission_history self))) in
  let completed_missions := count COMPLETED in
  mk_stats total_missions (Z.of_nat (length (active_missions self)))
    completed_missions (count FAILED) (count INTERRUPTED)
    (IZR completed_missions / IZR (Z.max 1 total_missions) * 100).

(** A manager holding one SCAN mission with id ["m1"], created at 10 s
    and made current by [update] at 11 s. *)
Definition one_current_mission : t :=
  let '(m1, _) := create_mission init SCAN None None None "m1" 10 in
  fst (update m1 11).

(** A manager holding two pending missions, each with the default
    priority of its type: a SCAN mission ["a"] created at 10 s and an
    ESCAPE mission ["b"] created at 11 s. *)
Definition two_pending : t :=
  let '(m1, _) := create_mission init SCAN None None None "a" 10 in
  fst (create_mission m1 ESCAPE None None None "b" 11).

End MissionManager.

(** ** Kalman tracker (detection/tracking/kalman_tracker.py) *)

Module KalmanTracker.

(** A detection as the detector adapter emits it. *)
Record detection : Type := mk_detection {
  det_bbox : Track.BBox;
  det_confidence : R
}.

Section Filter.

(** The filter of [cv2.KalmanFilter] is an external collaborator: its
    state type, the filter [_create_kalman_filter()] returns, and
    [kf.predict()], which advances the filter and returns the predicted
    position. *)
Context {KF : Type}.
Variable _create_kalman_filter : KF.
Variable predict : KF -> KF * (R * R).

Record t : Type := mk {
  next_object_id : Z;
  objects : PyDict.t Z ((R * R) * KF);
  disappeared : PyDict.t Z Z;
  max_disappeared : Z;
  max_distance : R;
  min_confidence : R
}.

(** The branch of [update] that matches detections with existing tracks
    (distance matrix and greedy assignment) is not needed below and is
    kept as a parameter. *)
Variable associate : t -> list Track.tracked_object -> t * Track.tracked_objects.

(** [__init__(max_disappeared, max_distance)] *)
Definition init (max_disappeared : Z) (max_distance : R) : t :=
  mk 0 [] [] max_disappeared max_distance (1 / 10).

(** [register(centroid)] *)
Definition register (self : t) (centroid : R * R) : t :=
  let kf := _create_kalman_filter in
  mk (next_object_id self + 1)
     (PyDict.set (objects self) (next_object_id self) (centroid, kf))
     (PyDict.set (disappeared self) (next_object_id self) 0%Z)
     (max_disappeared self) (max_distance self) (min_confidence self).

(** [deregister(object_id)] *)
Definition deregister (self : t) (object_id : Z) : t :=
  mk (next_object_id self)
     (PyDict.del (objects self) object_id)
     (PyDict.del (disappeared self) object_id)
     (max_disappeared self) (max_distance self) (min_confidence self).

(** The entry [update] builds for a detection. *)
Definition detection_entry (det : detection) : Track.tracked_object :=
  let bbox := det_bbox det in
  Track.mk_object
    ((Track.b0 bbox + Track.b2 bbox) / 2, (Track.b1 bbox + Track.b3 bbox) / 2)
    bbox (det_confidence det).

(** Body of the loop over [list(self.disappeared.keys())]. *)
Definition mark_disappeared (self : t) (object_id : Z) : t :=
  let count := (default 0%Z (PyDict.get (disappeared self) object_id) + 1)%Z in
  let self1 :=
    mk (next_object_id self) (objects self)
       (PyDict.set (disappeared self) object_id count)
       (max_disappeared self) (max_distance self) (min_confidence self) in
  if (max_disappeared self <? count)%Z then deregister self1 object_id
  else self1.

(** The loop over [self.objects.items()] of the no-detection branch:
    every remaining filter is advanced and its prediction reported. *)
Fixpoint predict_all (objs : PyDict.t Z ((R * R) * KF))
  : PyDict.t Z ((R * R) * KF) * Track.tracked_objects :=
  match objs with
  | [] => ([], [])
  | (obj_id, (centroid, kf)) :: rest =>
      let '(kf', predicted_centroid) := predict kf in
      let '(rest', tracked) := predict_all rest in
      ((obj_id, (centroid, kf')) :: rest',
       (obj_id,
        Track.mk_object predicted_centroid
          (Track.mk_bbox (fst predicted_centroid - 50)
             (snd predicted_centroid - 50)
             (fst predicted_centroid + 50)
             (snd predicted_centroid + 50))
          (1 / 2)) :: tracked)
  end.

(** The loop [for i, det in enumerate(detection_list)] of the branch
    taken when no track exists: [register] and [tracked_objects[i] = ...]. *)
Fixpoint register_all (self : t) (tracked : Track.tracked_objects)
    (i : Z) (detection_list : list Track.tracked_object)
  : t * Track.tracked_objects :=
  match detection_list with
  | [] => (self, tracked)
  | det :: rest =>
      register_all (register self (Track.centroid det))
        (PyDict.set tracked i det) (i + 1) rest
  end.

(** [update(detections)] *)
Definition update (self : t) (detections : list detection)
  : t * Track.tracked_objects :=
  let detection_list := map detection_entry detections in
  match detection_list with
  | [] =>
      let self1 :=
        fold_left mark_disappeared (PyDict.keys (disappeared self)) self in
      let '(objects', tracked) := predict_all (objects self1) in
      (mk (next_object_id self1) objects' (disappeared self1)
          (max_disappeared self1) (max_distance self1) (min_confidence self1),
       tracked)
  | _ :: _ =>
      match objects self with
      | [] => register_all self [] 0 detection_list
      | _ :: _ => associate self detection_list
      end
  end.

(** [n] successive calls of [update] without detections. *)
Fixpoint updates_empty (n : nat) (self : t) : t :=
  match n with
  | O => self
  | S n' => updates_empty n' (fst (update self []))
  end.

(** The two dictionaries hold the same track ids in the same order, each
    id once, and no count is negative. *)
Definition well_formed (self : t) : Prop :=
  PyDict.keys (objects self) = PyDict.keys (disappeared self) /\
  NoDup (PyDict.keys (disappeared self)) /\
  Forall (fun c => (0 <= c)%Z) (PyDict.values (disappeared self)).

End Filter.

(** The counts one frame without detections leaves: each count is
    incremented and the entries that exceed [max] are gone. *)
Definition aged (max : Z) (d : PyDict.t Z Z) : PyDict.t Z Z :=
  List.filter (fun p => (snd p <=? max)%Z)
    (map (fun p => (fst p, (snd p + 1)%Z)) d).

(** The entries of [objs] at the positions where [aged] keeps a count. *)
Fixpoint kept {V : Type} (max : Z) (d : PyDict.t Z Z) (objs : PyDict.t Z V)
  : PyDict.t Z V :=
  match d, objs with
  | (_, c) :: d', o :: objs' =>
      if (max <? c + 1)%Z then kept max d' objs' else o :: kept max d' objs'
  | _, _ => []
  end.

(** A tracker with a trivial filter, used to run [update] on concrete
    detections that never reach the matching branch. *)
Definition unit_predict (kf : unit) : unit * (R * R) := (kf, (0, 0)).
Definition no_associate (self : @t unit) (dl : list Track.tracked_object)
  : @t unit * Track.tracked_objects := (self, []).
Definition unit_update : @t unit -> list detection -> @t unit * Track.tracked_objects :=
  update tt unit_predict no_associate.

(** A tracker that keeps a lost track for two frames, after it has seen
    one detection: its only track, id 0, has count 0. *)
Definition one_track : @t unit :=
  fst (unit_update (init 2 100)
         [mk_detection (Track.mk_bbox 0 0 10 10) (9 / 10)]).

(** A tracker that drops a track after one missed frame, after it has
    seen one detection and then an empty frame: its only track, id 0, has
    been created and destroyed. *)
Definition after_one_lost_track : @t unit :=
  let t1 := fst (unit_update (init 0 100)
                   [mk_detection (Track.mk_bbox 0 0 10 10) (9 / 10)]) in
  fst (unit_update t1 []).

End KalmanTracker.

(** ** Three-component vectors (numpy arrays of length 3) *)

Module Vec3.

Record t : Type := mk { x : R; y : R; z : R }.

Definition zeros : t := mk 0 0 0.
Definition add (a b : t) : t := mk (x a + x b) (y a + y b) (z a + z b).
Definition sub (a b : t) : t := mk (x a - x b) (y a - y b) (z a - z b).
Definition neg (a : t) : t := mk (- x a) (- y a) (- z a).
Definition scale (k : R) (a : t) : t := mk (k * x a) (k * y a) (k * z a).
Definition set_z (a : t) (v : R) : t := mk (x a) (y a) v.

(** [np.linalg.norm(a)] *)
Definition norm (a : t) : R := sqrt (x a * x a + y a * y a + z a * z a).

(** [np.linalg.norm(a[:2])] *)
Definition norm_xy (a : t) : R := sqrt (x a * x a + y a * y a).

(** [a / d] under a guard that makes [d] positive. *)
Definition div (a : t) (d : R) : t := mk (x a / d) (y a / d) (z a / d).

(** [a / d] without a guard: dividing by zero gives no finite vector. *)
Definition div_unguarded (a : t) (d : R) : option t :=
  if Req_dec_T d 0 then None else Some (div a d).

(** [np.any(a)] *)
Definition any (a : t) : bool :=
  negb (Py.Reqb (x a) 0 && Py.Reqb (y a) 0 && Py.Reqb (z a) 0).

(** [np.dot(a, b)] *)
Definition dot (a b : t) : R := x a * x b + y a * y b + z a * z b.

End Vec3.

(** ** Escape maneuver (vision/mission/escape_controller.py) *)

Module EscapeController.

Record t : Type := mk {
  min_altitude : R;
  max_altitude : R;
  escape_speed : R;
  safe_distance : R;
  is_escaping : bool;
  escape_start_time : option R;
  escape_trajectory : list (Z * Z);
  last_perp : option R     (* the attribute is absent until first set *)
}.

(** [__init__(min_altitude, max_altitude, escape_speed, safe_distance)] *)
Definition init (min_altitude max_altitude escape_speed safe_distance : R) : t :=
  mk min_altitude max_altitude escape_speed safe_distance false None [] None.

Definition default : t := init 50 100 2 30.

Definition with_last_perp (self : t) (p : R) : t :=
  mk (min_altitude self) (max_altitude self) (escape_speed self)
     (safe_distance self) (is_escaping self) (escape_start_time self)
     (escape_trajectory self) (Some p).

(** [calculate_escape_vector(our_position, enemy_position)]; [r1] and
    [r2] are the two draws of [np.random.random()], [clock] the reading
    of [time.time()].  The result is [None] when the final normalization
    divides by zero. *)
Definition calculate_escape_vector (self : t)
    (our_position enemy_position : Vec3.t) (r1 r2 clock : R)
  : t * option Vec3.t :=
  let direction := Vec3.sub our_position enemy_position in
  let distance := Vec3.norm direction in
  if Py.Rltb 0 distance then
    let direction := Vec3.div direction distance in
    let perp := Vec3.mk (- Vec3.y direction) (Vec3.x direction) 0 in
    let self1 :=
      match last_perp self with
      | Some p =>
          if Py.Rltb r1 (1 / 10)
          then with_last_perp self (if Py.Rltb r2 (1 / 2) then 1 else -1)
          else self
      | None => with_last_perp self (if Py.Rltb r2 (1 / 2) then 1 else -1)
      end in
    let lp := match last_perp self1 with Some p => p | None => 0 end in
    let direction :=
      Vec3.add (Vec3.scale (6 / 10) direction)
               (Vec3.scale (4 / 10) (Vec3.scale lp perp)) in
    let direction :=
      if Py.Rltb (Vec3.z our_position) (min_altitude self1) then
        Vec3.set_z direction (4 / 10)
      else if Py.Rltb (max_altitude self1) (Vec3.z our_position) then
        Vec3.set_z direction (- (4 / 10))
      else Vec3.set_z direction (2 / 10 * sin (clock * 2)) in
    match Vec3.div_unguarded direction (Vec3.norm direction) with
    | Some direction =>
        (self1, Some (Vec3.scale (escape_speed self1 * (15 / 10)) direction))
    | None => (self1, None)
    end
  else (self, Some Vec3.zeros).

(** [enemy_data]: a dictionary whose entries are 3-vectors; the
    controller reads the keys ["position"], ["our_position"] and
    ["direction"]. *)
Definition enemy_data : Type := PyDict.t string Vec3.t.

(** [enemy_data.get(key, [0, 0, 0])] *)
Definition get_vector (enemy_data : enemy_data) (key : string) : Vec3.t :=
  match PyDict.get enemy_data key with
  | Some v => v
  | None => Vec3.zeros
  end.

(** [detect_enemy_lock(enemy_data)].  When a norm in the denominator is
    zero the quotient is not a number and the comparison of the angle is
    false. *)
Definition detect_enemy_lock (self : t) (enemy_data : enemy_data) : bool :=
  match enemy_data with
  | [] => false
  | _ :: _ =>
      let enemy_pos := get_vector enemy_data "position" in
      let our_pos := get_vector enemy_data "our_position" in
      let distance := Vec3.norm (Vec3.sub enemy_pos our_pos) in
      let enemy_direction := PyDict.get enemy_data "direction" in
      let is_in_range := Py.Rltb distance (safe_distance self * 2) in
      let is_above := Py.Rltb (Vec3.z our_pos) (Vec3.z enemy_pos) in
      let is_facing_us :=
        match enemy_direction with
        | Some enemy_direction =>
            let to_us := Vec3.sub our_pos enemy_pos in
            let denominator :=
              Vec3.norm enemy_direction * Vec3.norm to_us in
            if Py.Reqb denominator 0 then false
            else
              let angle :=
                acos (Vec3.dot enemy_direction to_us / denominator) in
              Py.Rltb (Rabs angle) (PI / 3)
        | None => true
        end in
      (is_in_range && is_above) || (is_in_range && is_facing_us)
  end.

Record commands : Type := mk_commands {
  escape : bool;
  vector : option Vec3.t;
  message : string
}.

Definition with_escape (self : t) (escaping : bool) (start : option R)
    (trajectory : list (Z * Z)) : t :=
  mk (min_altitude self) (max_altitude self) (escape_speed self)
     (safe_distance self) escaping start trajectory (last_perp self).

(** [update(enemy_data, our_position, our_velocity, frame)] without the
    drawing; [t_start] is the reading of [time.time()] stored as
    [escape_start_time], the other inputs are those of
    [calculate_escape_vector]. *)
Definition update (self : t) (enemy_data : enemy_data)
    (our_position our_velocity : Vec3.t) (t_start r1 r2 clock : R)
  : t * commands :=
  let our_pos := our_position in
  let enemy_pos := get_vector enemy_data "position" in
  let enemy_lock := detect_enemy_lock self enemy_data in
  if enemy_lock then
    let self1 :=
      if negb (is_escaping self) then with_escape self true (Some t_start) []
      else self in
    let '(self2, escape_vector) :=
      calculate_escape_vector self1 our_pos enemy_pos r1 r2 clock in
    let trajectory :=
      escape_trajectory self2
      ++ [(Py.to_int (Vec3.x our_position), Py.to_int (Vec3.y our_position))] in
    let trajectory :=
      if (50 <? length trajectory)%nat then tl trajectory else trajectory in
    (with_escape self2 (is_escaping self2) (escape_start_time self2) trajectory,
     mk_commands true escape_vector "Executing escape maneuver")
  else
    (with_escape self false None [],
     mk_commands false (Some Vec3.zeros) "Monitoring").

(** [reset()] *)
Definition reset (self : t) : t := with_escape self false None [].

(** The controller after a sequence of updates. *)
Record step_input : Type := mk_input {
  in_enemy : enemy_data;
  in_position : Vec3.t;
  in_velocity : Vec3.t;
  in_t_start : R;
  in_r1 : R;
  in_r2 : R;
  in_clock : R
}.

Definition step (self : t) (i : step_input) : t :=
  fst (update self (in_enemy i) (in_position i) (in_velocity i)
         (in_t_start i) (in_r1 i) (in_r2 i) (in_clock i)).

Definition run (self : t) (inputs : list step_input) : t :=
  fold_left step inputs self.

End EscapeController.

(** ** Kamikaze maneuver (vision/mission/kamikaze_controller.py) *)

Module KamikazeController.

Record t : Type := mk {
  min_altitude : R;
  dive_angle : R;
  approach_speed : R;
  qr_size : R;
  qr_read_successful : bool;
  _last_distance : option R   (* the attribute is absent until [update] sets it *)
}.

(** [__init__(min_altitude, dive_angle, approach_speed, qr_size)] *)
Definition init (min_altitude dive_angle approach_speed qr_size : R) : t :=
  mk min_altitude dive_angle approach_speed qr_size false None.

Definition default : t := init 20 45 1 (25 / 10).

(** [np.radians(a)] *)
Definition radians (a : R) : R := a * PI / 180.

(** [calculate_dive_path(our_position, target_position)]; [None] when the
    final normalization divides by zero, where numpy returns a vector of
    NaN. *)
Definition calculate_dive_path (self : t)
    (our_position target_position : Vec3.t) : option Vec3.t :=
  let direction := Vec3.sub target_position our_position in
  let distance := Vec3.norm direction in
  if Py.Rltb 0 distance then
    let direction := Vec3.div direction distance in
    let dive_angle := radians (dive_angle self) in
    let movement_vector :=
      Vec3.mk (Vec3.x direction) (Vec3.y direction) (- sin dive_angle) in
    Vec3.div_unguarded movement_vector (Vec3.norm movement_vector)
  else Some Vec3.zeros.

(** [calculate_ascent_vector(our_position)] *)
Definition calculate_ascent_vector (our_position : Vec3.t) : Vec3.t :=
  Vec3.mk 0 0 1.

(** What [qr_detector.detectAndDecode(frame)] does on a frame: it returns
    the decoded text and whether corner points were found, or raises. *)
Inductive detection : Type :=
| Decoded (decoded_data : string) (points : bool)
| Raised.

Definition with_qr_read (self : t) (b : bool) : t :=
  mk (min_altitude self) (dive_angle self) (approach_speed self)
     (qr_size self) b (_last_distance self).

Definition with_last_distance (self : t) (d : R) : t :=
  mk (min_altitude self) (dive_angle self) (approach_speed self)
     (qr_size self) (qr_read_successful self) (Some d).

(** [read_qr_code(frame)] *)
Definition read_qr_code (self : t) (frame : detection) : t * option string :=
  let close :=
    match _last_distance self with      (* hasattr(self, '_last_distance') *)
    | Some d => Py.Rltb d 20
    | None => false
    end in
  if close then (with_qr_read self true, Some "SIMULATED_QR_CODE"%string)
  else
    match frame with
    | Decoded decoded_data points =>
        if negb (String.eqb decoded_data "") && points
        then (with_qr_read self true, Some decoded_data)
        else (self, None)
    | Raised => (self, None)
    end.

Record commands : Type := mk_commands {
  attack : bool;
  vector : option Vec3.t;
  distance : R;
  qr_data : option string;
  message : string
}.

(** [update(target_data, our_position, our_velocity, frame)] without the
    drawing; [target_pos] is [target_data['position']], and the vector is
    [None] when the dive path is a vector of NaN. *)
Definition update (self : t) (target_pos our_position our_velocity : Vec3.t)
    (frame : option detection) : t * commands :=
  let self0 :=
    with_last_distance self (Vec3.norm (Vec3.sub target_pos our_position)) in
  let '(self1, qr_data) :=
    match frame with
    | Some f => read_qr_code self0 f
    | None => (self0, None)
    end in
  let '(direction, message) :=
    if qr_read_successful self1 then
      if Py.Rleb (min_altitude self1) (Vec3.z our_position)
      then (Some Vec3.zeros, "Reached safe altitude"%string)
      else (Some (calculate_ascent_vector our_position),
            "Ascending after QR read"%string)
    else if Py.Rleb (Vec3.z our_position) 0
    then (Some Vec3.zeros, "Reached ground level"%string)
    else (calculate_dive_path self1 our_position target_pos,
          "Approaching target"%string) in
  (self1,
   mk_commands true
     (option_map (Vec3.scale (approach_speed self1)) direction)
     (Vec3.norm (Vec3.sub target_pos our_position)) qr_data message).

(** [reset()]: the attribute [_last_distance] is not among the fields it
    clears. *)
Definition reset (self : t) : t := with_qr_read self false.

(** A controller whose dive angle is 0 degrees. *)
Definition level : t := init 20 0 1 (25 / 10).

End KamikazeController.

(** ** No-fly zones (vision/safety/no_fly_zone_controller.py) *)

Module NoFlyZoneController.

Inductive ZoneType : Type := AIR_DEFENSE | SIGNAL_JAMMING.

Record NoFlyZone : Type := mk_zone {
  zone_id : string;
  zone_type : ZoneType;
  center : Vec3.t;
  radius : R;
  activation_time : R;
  is_active : bool;
  total_violation_time : R;
  last_violation_check : option R
}.

Record t : Type := mk {
  zones : PyDict.t string NoFlyZone;
  penalty_points_per_second : R;
  max_violation_time : R;
  safety_margin : R;
  total_penalty_points : R;
  current_violations : gset string
}.

(** [__init__(penalty_points_per_second, max_violation_time, safety_margin)] *)
Definition init (penalty_points_per_second max_violation_time safety_margin : R)
  : t :=
  mk [] penalty_points_per_second max_violation_time safety_margin 0 ∅.

Definition default : t := init 5 30 3.

Definition with_zones (self : t) (zs : PyDict.t string NoFlyZone) : t :=
  mk zs (penalty_points_per_second self) (max_violation_time self)
     (safety_margin self) (total_penalty_points self)
     (current_violations self).

(** [add_zone(zone_id, zone_type, center, radius)]: the zone starts
    inactive. *)
Definition add_zone (self : t) (zone_id : string) (zone_type : ZoneType)
    (center : Vec3.t) (radius : R) (clock : R) : t :=
  with_zones self
    (PyDict.set (zones self) zone_id
       (mk_zone zone_id zone_type center radius clock false 0 None)).

Definition set_active (z : NoFlyZone) (a : bool) (activation : R) : NoFlyZone :=
  mk_zone (zone_id z) (zone_type z) (center z) (radius z) activation a
    (total_violation_time z) (last_violation_check z).

(** [activate_zone(zone_id)] *)
Definition activate_zone (self : t) (zone_id : string) (clock : R) : t :=
  match PyDict.get (zones self) zone_id with
  | Some z => with_zones self (PyDict.set (zones self) zone_id (set_active z true clock))
  | None => self
  end.

(** [deactivate_zone(zone_id)] *)
Definition deactivate_zone (self : t) (zone_id : string) : t :=
  match PyDict.get (zones self) zone_id with
  | Some z =>
      with_zones self
        (PyDict.set (zones self) zone_id (set_active z false (activation_time z)))
  | None => self
  end.

(** The planar distance [is_point_in_zone] computes. *)
Definition distance_to (point : Vec3.t) (zone : NoFlyZone) : R :=
  sqrt ((Vec3.x point - Vec3.x (center zone)) ^ 2
        + (Vec3.y point - Vec3.y (center zone)) ^ 2).

(** [is_point_in_zone(point, zone)] *)
Definition is_point_in_zone (point : Vec3.t) (zone : NoFlyZone) : bool :=
  Py.Rleb (distance_to point zone) (radius zone).

(** The loop of [calculate_avoidance_vector] over [self.zones.items()],
    threading the repulsion, the total influence and the violated ids. *)
Fixpoint repulsion (margin : R) (current_pos : Vec3.t)
    (zs : PyDict.t string NoFlyZone)
    (acc : Vec3.t * R * list string) : Vec3.t * R * list string :=
  match zs with
  | [] => acc
  | (zone_id, zone) :: rest =>
      let '(avoidance_vector, total_influence, violated_zones) := acc in
      if negb (is_active zone) then repulsion margin current_pos rest acc
      else
        let to_center := Vec3.set_z (Vec3.sub (center zone) current_pos) 0 in
        let distance := Vec3.norm_xy to_center in
        let extended_range := radius zone + margin in
        if Py.Rleb distance extended_range then
          let '(avoidance_vector, total_influence) :=
            if Py.Rltb 0 distance then
              let direction :=
                Vec3.set_z
                  (Vec3.div (Vec3.neg to_center) (Vec3.norm to_center)) 0 in
              let strength := 1 - distance / extended_range in
              (Vec3.add avoidance_vector (Vec3.scale strength direction),
               total_influence + strength)
            else (avoidance_vector, total_influence) in
          let violated_zones :=
            if Py.Rleb distance (radius zone)
            then violated_zones ++ [zone_id] else violated_zones in
          repulsion margin current_pos rest
            (avoidance_vector, total_influence, violated_zones)
        else repulsion margin current_pos rest acc
  end.

(** [calculate_avoidance_vector(current_pos, current_vel, target_pos)] *)
Definition calculate_avoidance_vector (self : t)
    (current_pos current_vel : Vec3.t) (target_pos : option Vec3.t)
  : Vec3.t * list string :=
  let '(avoidance_vector, total_influence, violated_zones) :=
    repulsion (safety_margin self) current_pos (zones self)
      (Vec3.zeros, 0, []) in
  let avoidance_vector :=
    if Py.Rltb 0 total_influence
    then Vec3.div avoidance_vector total_influence
    else avoidance_vector in
  let avoidance_vector :=
    match target_pos with
    | Some target_pos =>
        if Vec3.any avoidance_vector then
          let to_target := Vec3.set_z (Vec3.sub target_pos current_pos) 0 in
          let distance_to_target := Vec3.norm_xy to_target in
          if Py.Rltb 0 distance_to_target then
            let target_direction := Vec3.div to_target (Vec3.norm to_target) in
            Vec3.add (Vec3.scale (1 / 2) avoidance_vector)
                     (Vec3.scale (1 / 2) target_direction)
          else avoidance_vector
        else avoidance_vector
    | None => avoidance_vector
    end in
  let magnitude := Vec3.norm avoidance_vector in
  let avoidance_vector :=
    if Py.Rltb 0 magnitude then Vec3.div avoidance_vector magnitude
    else avoidance_vector in
  (avoidance_vector, violated_zones).

(** Body of the loop of [update] for one zone: the zone after the check,
    the time it adds to the violation total (when it adds any), and
    whether the zone is violated. *)
Definition check_zone (current_pos : Vec3.t) (current_time : R)
    (zone : NoFlyZone) : NoFlyZone * option R * bool :=
  if negb (is_active zone) then (zone, None, false)
  else if is_point_in_zone current_pos zone then
    match last_violation_check zone with
    | None =>
        (mk_zone (zone_id zone) (zone_type zone) (center zone) (radius zone)
           (activation_time zone) (is_active zone)
           (total_violation_time zone) (Some current_time),
         None, true)
    | Some last =>
        let time_delta := current_time - last in
        (mk_zone (zone_id zone) (zone_type zone) (center zone) (radius zone)
           (activation_time zone) (is_active zone)
           (total_violation_time zone + time_delta) (Some current_time),
         Some time_delta, true)
    end
  else
    (mk_zone (zone_id zone) (zone_type zone) (center zone) (radius zone)
       (activation_time zone) (is_active zone)
       (total_violation_time zone) None,
     None, false).

(** The zone one check leaves behind. *)
Definition checked (pos : Vec3.t) (now : R) (z : NoFlyZone) : NoFlyZone :=
  fst (fst (check_zone pos now z)).

(** The loop of [update] over [self.zones.items()], threading the total
    penalty and the set of violated ids. *)
Fixpoint check_zones (rate : R) (current_pos : Vec3.t) (current_time : R)
    (zs : PyDict.t string NoFlyZone) (penalty : R) (violations : gset string)
  : PyDict.t string NoFlyZone * R * gset string :=
  match zs with
  | [] => ([], penalty, violations)
  | (id, zone) :: rest =>
      let '(zone', added, violated) :=
        check_zone current_pos current_time zone in
      let penalty :=
        match added with
        | Some time_delta => penalty + time_delta * rate
        | None => penalty
        end in
      let violations := if violated then {[id]} ∪ violations else violations in
      let '(rest', penalty, violations) :=
        check_zones rate current_pos current_time rest penalty violations in
      ((id, zone') :: rest', penalty, violations)
  end.

(** [max(values, default=0.0)] *)
Definition max_default (values : list R) : R :=
  match values with
  | [] => 0
  | v :: rest => fold_left Rmax rest v
  end.

Record status : Type := mk_status {
  in_violation : bool;
  violated_zones : gset string;
  status_total_penalty_points : R;
  status_max_violation_time : R;
  emergency_landing_required : bool
}.

(** [update(current_pos)]; [clock] is the reading of [time.time()]. *)
Definition update (self : t) (current_pos : Vec3.t) (clock : R) : t * status :=
  let current_time := clock in
  let '(zones', penalty, new_violations) :=
    check_zones (penalty_points_per_second self) current_pos current_time
      (zones self) (total_penalty_points self) ∅ in
  let self' :=
    mk zones' (penalty_points_per_second self) (max_violation_time self)
       (safety_margin self) penalty new_violations in
  let max_violation :=
    max_default (map total_violation_time (PyDict.values zones')) in
  (self',
   mk_status (bool_decide (new_violations <> ∅)) new_violations penalty
     max_violation (Py.Rleb (max_violation_time self) max_violation)).

(** The penalty time one [update] adds for a zone. *)
Definition accrued (current_pos : Vec3.t) (current_time : R)
    (zone : NoFlyZone) : R :=
  if is_active zone && is_point_in_zone current_pos zone then
    match last_violation_check zone with
    | Some last => current_time - last
    | None => 0
    end
  else 0.

(** The position is strictly inside the zone's radius. *)
Definition strictly_inside (point : Vec3.t) (zone : NoFlyZone) : Prop :=
  distance_to point zone < radius zone.

(** The default controller with one zone of radius 50 around the origin,
    as [add_zone] leaves it (inactive) and after [activate_zone]. *)
Definition with_inactive_zone : t :=
  add_zone default "AD1" AIR_DEFENSE Vec3.zeros 50 0.
Definition with_active_zone : t :=
  activate_zone with_inactive_zone "AD1" 1.

(** A position 10 units inside that zone. *)
Definition ten_inside : Vec3.t := Vec3.mk 40 0 0.

End NoFlyZoneController.

(** ** Camera controller (vision/targeting/camera_controller.py) *)

Module CameraController.

Record zone : Type := mk_zone { zx1 : R; zy1 : R; zx2 : R; zy2 : R }.

Record history_entry : Type := mk_entry {
  entry_time : R;
  entry_position : R * R;
  entry_pan : R;
  entry_tilt : R;
  entry_in_zone : bool
}.

Record t : Type := mk {
  frame_width : Z;
  frame_height : Z;
  target_zone_margin : R;
  max_pan_rate : R;
  max_tilt_rate : R;
  debug_mode : bool;
  center_x : R;
  center_y : R;
  target_zone : zone;
  pan_pid : PIDController.t;
  tilt_pid : PIDController.t;
  is_tracking : bool;
  last_target_position : option (R * R);
  current_pan_angle : R;
  current_tilt_angle : R;
  tracking_history : list history_entry;
  last_update_time : option R
}.

(** [__init__(frame_width, frame_height, target_zone_margin,
              max_pan_rate, max_tilt_rate, debug_mode)] *)
Definition init (frame_width frame_height : Z)
    (target_zone_margin max_pan_rate max_tilt_rate : R) (debug_mode : bool) : t :=
  let center_x := IZR frame_width / 2 in
  let center_y := IZR frame_height / 2 in
  let margin_x := IZR frame_width * target_zone_margin in
  let margin_y := IZR frame_height * target_zone_margin in
  mk frame_width frame_height target_zone_margin max_pan_rate max_tilt_rate
     debug_mode center_x center_y
     (mk_zone (center_x - margin_x) (center_y - margin_y)
              (center_x + margin_x) (center_y + margin_y))
     (PIDController.init (5 / 100) (1 / 100) (2 / 100)
        (- max_pan_rate) max_pan_rate)
     (PIDController.init (4 / 100) (8 / 1000) (15 / 1000)
        (- max_tilt_rate) max_tilt_rate)
     false None 0 0 [] None.

Definition default : t := init 1280 720 (1 / 10) 30 20 true.

(** [is_target_in_zone(target_position)] *)
Definition is_target_in_zone (self : t) (target_position : R * R) : bool :=
  let '(x, y) := target_position in
  Py.Rleb (zx1 (target_zone self)) x && Py.Rleb x (zx2 (target_zone self))
  && Py.Rleb (zy1 (target_zone self)) y && Py.Rleb y (zy2 (target_zone self)).

(** The dictionary of camera commands; [pan_angle] and [tilt_angle] are
    present only when the rates were computed, [tracking] only when
    [update] added it. *)
Record commands : Type := mk_commands {
  pan : R;
  tilt : R;
  pan_angle : option R;
  tilt_angle : option R;
  in_zone : bool;
  tracking : option bool
}.

(** [tracking_history.append(entry)], then the oldest entry is dropped
    once more than 100 are kept. *)
Definition push_history (h : list history_entry) (e : history_entry)
  : list history_entry :=
  let h' := h ++ [e] in
  if (100 <? Z.of_nat (length h'))%Z then tl h' else h'.

(** [calculate_camera_movement(target_position, current_time=None)];
    [clock] is what [time.time()] returns when [current_time] is [None]. *)
Definition calculate_camera_movement (self : t) (target_position : R * R)
    (current_time : option R) (clock : R) : t * commands :=
  let current_time :=
    match current_time with None => clock | Some ct => ct end in
  match last_update_time self with
  | None =>
      (mk (frame_width self) (frame_height self) (target_zone_margin self)
          (max_pan_rate self) (max_tilt_rate self) (debug_mode self)
          (center_x self) (center_y self) (target_zone self)
          (pan_pid self) (tilt_pid self) (is_tracking self)
          (Some target_position) (current_pan_angle self)
          (current_tilt_angle self) (tracking_history self)
          (Some current_time),
       mk_commands 0 0 None None false None)
  | Some last_update =>
      let in_zone := is_target_in_zone self target_position in
      if in_zone && is_tracking self then
        (self, mk_commands 0 0 None None true None)
      else
        let '(pan_pid', pan_rate) :=
          PIDController.compute (pan_pid self) (center_x self)
            (fst target_position) (Some current_time) current_time in
        let '(tilt_pid', tilt_rate) :=
          PIDController.compute (tilt_pid self) (center_y self)
            (snd target_position) (Some current_time) current_time in
        let dt := current_time - last_update in
        let pan_change := pan_rate * dt in
        let tilt_change := tilt_rate * dt in
        let pan_angle := current_pan_angle self + pan_change in
        let tilt_angle := current_tilt_angle self + tilt_change in
        (mk (frame_width self) (frame_height self) (target_zone_margin self)
            (max_pan_rate self) (max_tilt_rate self) (debug_mode self)
            (center_x self) (center_y self) (target_zone self)
            pan_pid' tilt_pid' true (Some target_position)
            pan_angle tilt_angle
            (push_history (tracking_history self)
               (mk_entry current_time target_position pan_angle tilt_angle
                  in_zone))
            (Some current_time),
         mk_commands pan_rate tilt_rate (Some pan_angle) (Some tilt_angle)
           in_zone None)
  end.

(** The target dictionary [update] reads: its ['centroid'] and ['bbox']
    members, each possibly absent. *)
Record target_data : Type := mk_target {
  td_centroid : option (R * R);
  td_bbox : option Track.BBox
}.

Definition with_tracking (c : commands) (b : bool) : commands :=
  mk_commands (pan c) (tilt c) (pan_angle c) (tilt_angle c) (in_zone c) (Some b).

(** [update(target_data, frame)] without the drawing; [clock] is the
    reading of [time.time()] in [calculate_camera_movement]. *)
Definition update (self : t) (target_data : target_data) (clock : R)
  : t * commands :=
  let target_position :=
    match td_centroid target_data with
    | Some c => Some c
    | None =>
        match td_bbox target_data with
        | Some bbox =>
            Some ((Track.b0 bbox + Track.b2 bbox) / 2,
                  (Track.b1 bbox + Track.b3 bbox) / 2)
        | None => None
        end
    end in
  match target_position with
  | None =>
      (mk (frame_width self) (frame_height self) (target_zone_margin self)
          (max_pan_rate self) (max_tilt_rate self) (debug_mode self)
          (center_x self) (center_y self) (target_zone self)
          (pan_pid self) (tilt_pid self) false
          (last_target_position self) (current_pan_angle self)
          (current_tilt_angle self) (tracking_history self)
          (last_update_time self),
       mk_commands 0 0 None None false (Some false))
  | Some target_position =>
      let '(self', camera_commands) :=
        calculate_camera_movement self target_position None clock in
      (self', with_tracking camera_commands (is_tracking self'))
  end.

(** [reset()] *)
Definition reset (self : t) : t :=
  mk (frame_width self) (frame_height self) (target_zone_margin self)
     (max_pan_rate self) (max_tilt_rate self) (debug_mode self)
     (center_x self) (center_y self) (target_zone self)
     (PIDController.reset (pan_pid self)) (PIDController.reset (tilt_pid self))
     false None 0 0 [] None.

(** The output limits of the two PID loops are the two slew rates. *)
Definition rates_tied (self : t) : Prop :=
  PIDController.min_output (pan_pid self) = - max_pan_rate self /\
  PIDController.max_output (pan_pid self) = max_pan_rate self /\
  PIDController.min_output (tilt_pid self) = - max_tilt_rate self /\
  PIDController.max_output (tilt_pid self) = max_tilt_rate self.

End CameraController.

(** ** Servo controller (hardware/servo_controller.py) *)

Module ServoController.

Record t : Type := mk {
  pan_pin : Z;
  tilt_pin : Z;
  pan_min : Z;
  pan_max : Z;
  tilt_min : Z;
  tilt_max : Z;
  pan_angle_min : R;
  pan_angle_max : R;
  tilt_angle_min : R;
  tilt_angle_max : R;
  update_rate : R;
  simulation_mode : bool;
  current_pan : R;
  current_tilt : R;
  target_pan : R;
  target_tilt : R;
  is_running : bool
}.

(** [__init__] in simulation mode (no GPIO access). *)
Definition init (pan_pin tilt_pin pan_min pan_max tilt_min tilt_max : Z)
    (pan_angle_min pan_angle_max tilt_angle_min tilt_angle_max update_rate : R)
  : t :=
  mk pan_pin tilt_pin pan_min pan_max tilt_min tilt_max
     pan_angle_min pan_angle_max tilt_angle_min tilt_angle_max update_rate
     true 0 0 0 0 false.

Definition default : t := init 12 13 500 2500 500 2500 (-90) 90 (-45) 45 50.

(** [_angle_to_pulse(angle, pulse_min, pulse_max, angle_min, angle_max)];
    [None] is the [ZeroDivisionError] of an empty angle range. *)
Definition _angle_to_pulse (angle : R) (pulse_min pulse_max : Z)
    (angle_min angle_max : R) : option Z :=
  let angle := Py.clamp angle_min angle_max angle in
  if Req_dec_T (angle_max - angle_min) 0 then None
  else
    let normalized := (angle - angle_min) / (angle_max - angle_min) in
    Some (Py.to_int (IZR pulse_min + normalized * IZR (pulse_max - pulse_min))).

Definition with_angles (self : t) (cp ct tp tt : R) : t :=
  mk (pan_pin self) (tilt_pin self) (pan_min self) (pan_max self)
     (tilt_min self) (tilt_max self) (pan_angle_min self) (pan_angle_max self)
     (tilt_angle_min self) (tilt_angle_max self) (update_rate self)
     (simulation_mode self) cp ct tp tt (is_running self).

(** One pass of the loop of [_update_servos]: the servo state after the
    smoothing and clamping, and the two pulse widths written (none when
    [_angle_to_pulse] fails). *)
Definition tick (self : t) : t * option (Z * Z) :=
  let pan_diff := target_pan self - current_pan self in
  let tilt_diff := target_tilt self - current_tilt self in
  let smoothing := 3 / 10 in
  let cp := current_pan self + pan_diff * smoothing in
  let ct := current_tilt self + tilt_diff * smoothing in
  let cp := Py.clamp (pan_angle_min self) (pan_angle_max self) cp in
  let ct := Py.clamp (tilt_angle_min self) (tilt_angle_max self) ct in
  let self' := with_angles self cp ct (target_pan self) (target_tilt self) in
  match _angle_to_pulse cp (pan_min self) (pan_max self)
          (pan_angle_min self) (pan_angle_max self),
        _angle_to_pulse ct (tilt_min self) (tilt_max self)
          (tilt_angle_min self) (tilt_angle_max self) with
  | Some pan_pulse, Some tilt_pulse => (self', Some (pan_pulse, tilt_pulse))
  | _, _ => (self', None)
  end.

(** The servo state after [n] passes of the loop with the targets held. *)
Fixpoint ticks (n : nat) (self : t) : t :=
  match n with
  | O => self
  | S n' => ticks n' (fst (tick self))
  end.

(** [set_angles(pan, tilt)] *)
Definition set_angles (self : t) (pan tilt : R) : t :=
  with_angles self (current_pan self) (current_tilt self)
    (Py.clamp (pan_angle_min self) (pan_angle_max self) pan)
    (Py.clamp (tilt_angle_min self) (tilt_angle_max self) tilt).

(** [update_from_tracking(tracking_commands)]; the two arguments are the
    ['pan'] and ['tilt'] members of the dictionary, when present. *)
Definition update_from_tracking (self : t) (pan tilt : option R) : t :=
  match pan, tilt with
  | Some p, Some q => set_angles self p q
  | _, _ => self
  end.

(** Both angle ranges are well formed. *)
Definition ranges_ok (self : t) : Prop :=
  pan_angle_min self <= pan_angle_max self /\
  tilt_angle_min self <= tilt_angle_max self.

(** Current and target angles lie in their ranges. *)
Definition angles_in_range (self : t) : Prop :=
  pan_angle_min self <= current_pan self <= pan_angle_max self /\
  tilt_angle_min self <= current_tilt self <= tilt_angle_max self /\
  pan_angle_min self <= target_pan self <= pan_angle_max self /\
  tilt_angle_min self <= target_tilt self <= tilt_angle_max self.

End ServoController.

(** ** Statements worded by the specification *)

Module Spec.
Import QRProcessor.

(** The claim as the specification words it: a payload whose command type
    equals that of any earlier accepted command, arriving within 2.0 s of
    that acceptance, yields no command. *)
Definition cooldown_covers_every_earlier_acceptance : Prop :=
  forall (inputs : list (loaded * R)) (i j : nat)
         (qi qj : loaded) (ti tj : R) (info : command_info),
    (i < j)%nat ->
    inputs !! i = Some (qi, ti) ->
    inputs !! j = Some (qj, tj) ->
    snd (run init inputs) !! i = Some (Py.Returns (Some info)) ->
    payload_command qj = Some (type info) ->
    tj - ti < 2 ->
    snd (run init inputs) !! j = Some (Py.Returns None).

Definition kamikaze_payload : loaded :=
  Loaded (create_qr_command KAMIKAZE None).
Definition escape_payload : loaded :=
  Loaded (create_qr_command ESCAPE None).

(** The accrual claim as the specification words it, for any zone:
    while the position is strictly inside the radius, the second of two
    consecutive updates adds the time elapsed since the first to the
    zone's violation total. *)
Definition every_zone_accrues_while_inside : Prop :=
  forall (c : NoFlyZoneController.t) (id : string)
         (z : NoFlyZoneController.NoFlyZone) (pos : Vec3.t) (t1 t2 : R),
    PyDict.get (NoFlyZoneController.zones c) id = Some z ->
    NoFlyZoneController.strictly_inside pos z ->
    let c1 := fst (NoFlyZoneController.update c pos t1) in
    let c2 := fst (NoFlyZoneController.update c1 pos t2) in
    exists z1 z2,
      PyDict.get (NoFlyZoneController.zones c1) id = Some z1 /\
      PyDict.get (NoFlyZoneController.zones c2) id = Some z2 /\
      NoFlyZoneController.total_violation_time z2
        = NoFlyZoneController.total_violation_time z1 + (t2 - t1).

End Spec.

(* ===== THEOREMS ===== *)

(** ** Comparisons and truth values *)

Lemma Rltb_true (x y : R) : x < y -> Py.Rltb x y = true.
Proof. intros H. unfold Py.Rltb. destruct (Rlt_dec x y); [reflexivity | contradiction]. Qed.

Lemma Rltb_false (x y : R) : ~ x < y -> Py.Rltb x y = false.
Proof. intros H. unfold Py.Rltb. destruct (Rlt_dec x y); [contradiction | reflexivity]. Qed.

Lemma Rleb_true (x y : R) : x <= y -> Py.Rleb x y = true.
Proof. intros H. unfold Py.Rleb. destruct (Rle_dec x y); [reflexivity | contradiction]. Qed.

Lemma Rleb_false (x y : R) : ~ x <= y -> Py.Rleb x y = false.
Proof. intros H. unfold Py.Rleb. destruct (Rle_dec x y); [contradiction | reflexivity]. Qed.

Lemma Rltb_spec (x y : R) : Py.Rltb x y = true <-> x < y.
Proof.
  unfold Py.Rltb. destruct (Rlt_dec x y); split; auto; discriminate.
Qed.

Lemma Rleb_spec (x y : R) : Py.Rleb x y = true <-> x <= y.
Proof.
  unfold Py.Rleb. destruct (Rle_dec x y); split; auto; discriminate.
Qed.

Lemma truthy_float_nonzero (x : R) : x <> 0 -> Py.truthy_float (Some x) = true.
Proof.
  intros H. unfold Py.truthy_float.
  destruct (Req_dec_T x 0); [contradiction | reflexivity].
Qed.

Lemma truthy_float_zero : Py.truthy_float (Some 0) = false.
Proof.
  unfold Py.truthy_float.
  destruct (Req_dec_T 0 0) as [_ | H]; [reflexivity | contradiction H; reflexivity].
Qed.

(** ** C8: PID first call and non-positive time step *)

(** C8. The first [compute] after construction or after [reset] returns 0
    and only records the time baseline (and the current error); a
    [compute] whose time step since the recorded baseline is not positive
    returns 0 and leaves the whole controller, so integral, previous error
    and last time, as it was; and so does, after any call, a [compute]
    whose time is not later than the time of that previous call. *)
Theorem C8_pid_first_call_and_nonpositive_dt :
  (forall kp ki kd lo hi sp pv ct clock,
      snd (PIDController.compute (PIDController.init kp ki kd lo hi)
             sp pv ct clock) = 0) /\
  (forall c sp pv ct clock,
      snd (PIDController.compute (PIDController.reset c) sp pv ct clock) = 0) /\
  (forall c sp pv ct clock,
      PIDController.last_time c = None ->
      let now := match ct with None => clock | Some x => x end in
      let c' := fst (PIDController.compute c sp pv ct clock) in
      snd (PIDController.compute c sp pv ct clock) = 0 /\
      PIDController.last_time c' = Some now /\
      PIDController.integral c' = PIDController.integral c) /\
  (forall c sp pv ct clock lt,
      PIDController.last_time c = Some lt ->
      (match ct with None => clock | Some x => x end) - lt <= 0 ->
      PIDController.compute c sp pv ct clock = (c, 0)) /\
  (forall c sp pv previous sp' pv' t,
      let c1 := fst (PIDController.compute c sp pv (Some previous) 0) in
      t - previous <= 0 ->
      PIDController.compute c1 sp' pv' (Some t) 0 = (c1, 0)).
Proof.
  split; [| split; [| split; [| split]]].
  - intros. unfold PIDController.compute. simpl.
    destruct ct; reflexivity.
  - intros. unfold PIDController.compute. simpl.
    destruct ct; reflexivity.
  - intros c sp pv ct clock H. unfold PIDController.compute.
    rewrite H. simpl. auto.
  - intros c sp pv ct clock lt Hlt Hdt. unfold PIDController.compute.
    rewrite Hlt. destruct (Rle_dec _ _) as [_ | Hn];
      [reflexivity | contradiction].
  - intros c sp pv previous sp' pv' t c1 Hdt.
    assert (Hbase : exists lt, PIDController.last_time c1 = Some lt
                               /\ previous <= lt).
    { unfold c1, PIDController.compute.
      destruct (PIDController.last_time c) as [lt |] eqn:E.
      - destruct (Rle_dec (previous - lt) 0) as [Hle | Hgt]; simpl.
        + exists lt. split; [exact E | lra].
        + exists previous. split; [reflexivity | lra].
      - simpl. exists previous. split; [reflexivity | lra]. }
    destruct Hbase as (lt & Hlt & Hle).
    unfold PIDController.compute at 1. rewrite Hlt.
    destruct (Rle_dec (t - lt) 0) as [_ | Hn]; [reflexivity |].
    exfalso. apply Hn. lra.
Qed.

Lemma C8_witness :
  let c := PIDController.mk 1 0 0 (-30) 30 2 0 (Some 10) in
  PIDController.last_time c = Some 10 /\
  10 - 10 <= 0 /\
  PIDController.compute c 5 3 (Some 10) 0 = (c, 0).
Proof.
  intros c. split; [reflexivity |]. split; [lra |].
  apply (proj1 (proj2 (proj2 (proj2 C8_pid_first_call_and_nonpositive_dt)))
           c 5 3 (Some 10) 0 10).
  - reflexivity.
  - simpl. lra.
Defined.

(** ** C1: guards of the mission state machine *)

(** C1. For every controller state and every command, [process_command]
    reports exactly whether the guard of the command holds in the current
    state; when the guard is unmet the controller is returned unchanged and
    the result is failure.  In particular LOCK in SEARCHING is rejected
    with no change, and LOCK in TRACKING moves to LOCKING (remembering
    TRACKING as previous state) and reports success. *)
Theorem C1_process_command_guard :
  forall (mc : MissionController.t) (ci : QRProcessor.command_info) (clock : R),
    snd (MissionController.process_command mc ci clock)
      = MissionController.spec_guard (QRProcessor.type ci)
          (MissionController.current_state mc) /\
    (MissionController.spec_guard (QRProcessor.type ci)
       (MissionController.current_state mc) = false ->
     MissionController.process_command mc ci clock = (mc, false)) /\
    (QRProcessor.type ci = QRProcessor.LOCK ->
     MissionController.current_state mc = MissionController.SEARCHING ->
     MissionController.process_command mc ci clock = (mc, false)) /\
    (QRProcessor.type ci = QRProcessor.LOCK ->
     MissionController.current_state mc = MissionController.TRACKING ->
     snd (MissionController.process_command mc ci clock) = true /\
     MissionController.current_state
       (fst (MissionController.process_command mc ci clock))
       = MissionController.LOCKING /\
     MissionController.previous_state
       (fst (MissionController.process_command mc ci clock))
       = Some MissionController.TRACKING).
Proof.
  intros mc ci clock.
  unfold MissionController.process_command.
  destruct mc as [cs ps sct md sh], ci as [ty ts rd pa]; simpl.
  repeat split.
  - destruct ty, cs; reflexivity.
  - destruct ty, cs; simpl; intros H; try discriminate H; reflexivity.
  - intros -> ->. reflexivity.
  - subst. reflexivity.
  - subst. reflexivity.
  - subst. reflexivity.
Qed.

Lemma C1_witness :
  let mc := MissionController.mk MissionController.SEARCHING
              (Some MissionController.IDLE) 1 ∅ [] in
  let ci := QRProcessor.mk_info QRProcessor.LOCK 2
              (QRProcessor.create_qr_command QRProcessor.LOCK None) [] in
  MissionController.spec_guard QRProcessor.LOCK MissionController.SEARCHING
    = false /\
  MissionController.process_command mc ci 3 = (mc, false).
Proof.
  intros mc ci. split; [reflexivity |].
  apply (proj1 (proj2 (C1_process_command_guard mc ci 3))).
  reflexivity.
Defined.

(** ** C6: command cooldown *)

Section Cooldown.
Import QRProcessor.

Lemma QRCommand_of_value_value (c : QRCommand) :
  QRCommand_of_value (Py.VStr (QRCommand_value c)) = Some c.
Proof. destruct c; reflexivity. Qed.

(** A call that accepts no command, because it returns none or because
    it raises, leaves the processor as it was. *)
Lemma process_qr_data_not_accepted (p : t) (qr : loaded) (clock : R) :
  (forall info, snd (process_qr_data p qr clock) <> Py.Returns (Some info)) ->
  fst (process_qr_data p qr clock) = p.
Proof.
  unfold process_qr_data.
  destruct qr as [| data | v]; [reflexivity | |].
  - destruct (command data) as [v |]; [| reflexivity].
    destruct (QRCommand_of_value v) as [c |]; [| reflexivity].
    destruct (in_cooldown p c clock); [reflexivity |].
    simpl. intros H. contradiction (H _ eq_refl).
  - destruct (has_command_member v) as [[|] |]; reflexivity.
Qed.

(** A payload that yields no command leaves the processor as it was. *)
Lemma process_qr_data_dropped (p : t) (qr : loaded) (clock : R) :
  snd (process_qr_data p qr clock) = Py.Returns None ->
  fst (process_qr_data p qr clock) = p.
Proof.
  intros H. apply process_qr_data_not_accepted.
  intros info. rewrite H. discriminate.
Qed.

(** An accepted command becomes the last command, stamped with the clock. *)
Lemma process_qr_data_accepted (p : t) (qr : loaded) (clock : R)
    (info : command_info) :
  snd (process_qr_data p qr clock) = Py.Returns (Some info) ->
  let p' := fst (process_qr_data p qr clock) in
  last_command p' = Some (type info) /\
  last_command_time p' = Some clock /\
  command_cooldown p' = command_cooldown p /\
  payload_command qr = Some (type info) /\
  timestamp info = clock.
Proof.
  unfold process_qr_data, payload_command.
  destruct qr as [| data | w];
    [discriminate | | destruct (has_command_member w) as [[|] |]; discriminate].
  destruct (command data) as [v |]; [| discriminate].
  destruct (QRCommand_of_value v) as [c |]; [| discriminate].
  destruct (in_cooldown p c clock); [discriminate |].
  simpl. intros [= <-]. simpl. auto.
Qed.

(** A stretch of payloads that all yield no command changes nothing. *)
Lemma run_all_dropped (inputs : list (loaded * R)) (p : t) :
  Forall (fun o => o = Py.Returns None) (snd (run p inputs)) ->
  fst (run p inputs) = p.
Proof.
  revert p. induction inputs as [| [qr clock] rest IH]; intros p H.
  - reflexivity.
  - simpl in *.
    destruct (process_qr_data p qr clock) as [p1 out] eqn:E1.
    destruct (run p1 rest) as [p2 outs] eqn:E2.
    simpl in *. inversion H as [| ? ? Hout Houts]; subst.
    pose proof (process_qr_data_dropped p qr clock) as Hd.
    rewrite E1 in Hd. simpl in Hd. rewrite Hd in E2 by reflexivity.
    specialize (IH p). rewrite E2 in IH. simpl in IH. auto.
Qed.

(** The cooldown test against the recorded last command. *)
Lemma in_cooldown_last (p : t) (c : QRCommand) (t0 now : R) :
  last_command p = Some c ->
  last_command_time p = Some t0 ->
  t0 <> 0 ->
  now - t0 < command_cooldown p ->
  in_cooldown p c now = true.
Proof.
  intros Hc Ht Hnz Hlt. unfold in_cooldown. rewrite Hc, Ht.
  rewrite decide_True by reflexivity.
  rewrite truthy_float_nonzero by assumption.
  rewrite Rltb_true by assumption. reflexivity.
Qed.

End Cooldown.

(** KAMIKAZE at 100 s, ESCAPE at 100.25 s, KAMIKAZE at 100.5 s: the
    second KAMIKAZE arrives 0.5 s after the first was accepted and is
    accepted again, because only the last accepted command is remembered. *)
Lemma C6_counterexample :
  let inputs := [(Spec.kamikaze_payload, 100);
                 (Spec.escape_payload, 100 + 1/4);
                 (Spec.kamikaze_payload, 100 + 1/2)] in
  (exists i1 i2 i3,
      snd (QRProcessor.run QRProcessor.init inputs)
        = [Py.Returns (Some i1); Py.Returns (Some i2);
           Py.Returns (Some i3)] /\
      QRProcessor.type i1 = QRProcessor.KAMIKAZE /\
      QRProcessor.type i2 = QRProcessor.ESCAPE /\
      QRProcessor.type i3 = QRProcessor.KAMIKAZE /\
      QRProcessor.timestamp i3 - QRProcessor.timestamp i1 < 2) /\
  ~ Spec.cooldown_covers_every_earlier_acceptance.
Proof.
  intros inputs.
  assert (Hrun : exists i1 i2 i3,
             snd (QRProcessor.run QRProcessor.init inputs)
               = [Py.Returns (Some i1); Py.Returns (Some i2);
                  Py.Returns (Some i3)] /\
             QRProcessor.type i1 = QRProcessor.KAMIKAZE /\
             QRProcessor.type i2 = QRProcessor.ESCAPE /\
             QRProcessor.type i3 = QRProcessor.KAMIKAZE /\
             QRProcessor.timestamp i3 - QRProcessor.timestamp i1 < 2).
  { unfold inputs, QRProcessor.run, QRProcessor.process_qr_data,
      QRProcessor.in_cooldown; simpl.
    eexists _, _, _. repeat split; simpl. lra. }
  split; [exact Hrun |].
  intros H.
  destruct Hrun as (i1 & i2 & i3 & Hrun & Hty & _).
  specialize (H inputs 0%nat 2%nat Spec.kamikaze_payload Spec.kamikaze_payload
                100 (100 + 1/2) i1).
  rewrite Hrun in H. simpl in H.
  assert (Hd : Some (Py.Returns (Some i3))
               = Some (Py.Returns (None : option QRProcessor.command_info))).
  { apply H; auto; try lia; try lra. rewrite Hty. reflexivity. }
  discriminate Hd.
Qed.

(** C6 (amended). A payload whose command type equals that of the most
    recently accepted command, arriving within the cooldown of that
    acceptance, yields no command and leaves the processor unchanged; the
    main loop then never calls the state machine, so the controller is
    unchanged whatever its state.  Consequently two identical KAMIKAZE
    payloads 0.5 s apart, processed by a fresh processor while the
    controller is in TRACKING or LOCKED, make exactly one transition: the
    first moves to KAMIKAZE, the second changes nothing. *)
Theorem C6_cooldown_drops_repeat_of_last_accepted :
  (forall (p : QRProcessor.t) (x : QRProcessor.loaded) (tx : R)
          (info : QRProcessor.command_info)
          (mid : list (QRProcessor.loaded * R))
          (y : QRProcessor.loaded) (ty : R),
      snd (QRProcessor.process_qr_data p x tx) = Py.Returns (Some info) ->
      tx <> 0 ->
      let p1 := fst (QRProcessor.process_qr_data p x tx) in
      Forall (fun o => o = Py.Returns None) (snd (QRProcessor.run p1 mid)) ->
      let p2 := fst (QRProcessor.run p1 mid) in
      QRProcessor.payload_command y = Some (QRProcessor.type info) ->
      ty - tx < QRProcessor.command_cooldown p ->
      QRProcessor.process_qr_data p2 y ty = (p2, Py.Returns None) /\
      forall (mc : MissionController.t) (t_state : R),
        UAVSystem.handle_qr_detection (p2, mc) y ty t_state
        = Py.Returns (p2, mc)) /\
  (forall (mc : MissionController.t) (params : option (PyDict.t string Py.value))
          (t t1 t2 : R),
      t <> 0 ->
      MissionController.current_state mc = MissionController.TRACKING \/
      MissionController.current_state mc = MissionController.LOCKED ->
      let k := QRProcessor.Loaded
                 (QRProcessor.create_qr_command QRProcessor.KAMIKAZE params) in
      exists st1 : QRProcessor.t * MissionController.t,
        UAVSystem.handle_qr_detection (QRProcessor.init, mc) k t t1
        = Py.Returns st1 /\
        MissionController.current_state (snd st1)
        = MissionController.KAMIKAZE /\
        MissionController.previous_state (snd st1)
        = Some (MissionController.current_state mc) /\
        UAVSystem.handle_qr_detection st1 k (t + 1/2) t2 = Py.Returns st1 /\
        UAVSystem.process_qr_detections (QRProcessor.init, mc)
          [(k, t, t1); (k, t + 1/2, t2)] = Py.Returns st1).
Proof.
  split.
  - intros p x tx info mid y ty Hacc Hnz p1 Hmid p2 Hy Hlt.
    destruct (process_qr_data_accepted p x tx info Hacc)
      as (Hlc & Hlt0 & Hcd & _ & _).
    fold p1 in Hlc, Hlt0, Hcd.
    assert (Hp2 : p2 = p1) by (apply run_all_dropped; exact Hmid).
    assert (Hdrop : QRProcessor.process_qr_data p2 y ty
                    = (p2, Py.Returns None)).
    { rewrite Hp2. unfold QRProcessor.payload_command in Hy.
      unfold QRProcessor.process_qr_data.
      destruct y as [| data | w]; [discriminate | | discriminate].
      destruct (QRProcessor.command data) as [v |]; [| discriminate].
      rewrite Hy.
      rewrite (in_cooldown_last p1 (QRProcessor.type info) tx ty); auto.
      rewrite Hcd. exact Hlt. }
    split; [exact Hdrop |].
    intros mc t_state. unfold UAVSystem.handle_qr_detection.
    rewrite Hdrop. reflexivity.
  - intros mc params t t1 t2 Hnz Hst k.
    set (info := QRProcessor.mk_info QRProcessor.KAMIKAZE t
                   (QRProcessor.create_qr_command QRProcessor.KAMIKAZE params)
                   (default [] (Some (default [] params)))).
    set (qp1 := QRProcessor.mk (Some QRProcessor.KAMIKAZE) (Some t)
                  (QRProcessor.push_history [] info) 2).
    set (st1 := (qp1, fst (MissionController.process_command mc info t1))).
    assert (H1 : UAVSystem.handle_qr_detection (QRProcessor.init, mc) k t t1
                 = Py.Returns st1) by reflexivity.
    assert (Hcool : QRProcessor.in_cooldown qp1 QRProcessor.KAMIKAZE (t + 1/2)
                    = true).
    { apply (in_cooldown_last _ _ t); try reflexivity; auto.
      simpl. lra. }
    assert (H2 : UAVSystem.handle_qr_detection st1 k (t + 1/2) t2
                 = Py.Returns st1).
    { unfold st1, k, UAVSystem.handle_qr_detection,
        QRProcessor.process_qr_data.
      cbn [QRProcessor.command QRProcessor.create_qr_command
           QRProcessor.QRCommand_of_value QRProcessor.QRCommand_value
           String.eqb Ascii.eqb Bool.eqb].
      rewrite Hcool. reflexivity. }
    exists st1. split; [exact H1 |].
    assert (Hstate : MissionController.current_state (snd st1)
                     = MissionController.KAMIKAZE /\
                     MissionController.previous_state (snd st1)
                     = Some (MissionController.current_state mc)).
    { unfold st1, info. cbn [snd].
      unfold MissionController.process_command.
      destruct mc as [cs ps sct md sh]; simpl in *.
      destruct Hst as [-> | ->]; simpl; auto. }
    destruct Hstate as [Hs1 Hs2].
    split; [exact Hs1 |]. split; [exact Hs2 |]. split; [exact H2 |].
    cbn [UAVSystem.process_qr_detections fst snd].
    rewrite H1, H2. reflexivity.
Qed.

Lemma C6_witness :
  let p := QRProcessor.init in
  let p1 := fst (QRProcessor.process_qr_data p Spec.kamikaze_payload 100) in
  QRProcessor.process_qr_data p1 Spec.kamikaze_payload (100 + 1/2)
  = (p1, Py.Returns None).
Proof.
  intros p p1.
  refine (proj1 (proj1 C6_cooldown_drops_repeat_of_last_accepted
            p Spec.kamikaze_payload 100
            (QRProcessor.mk_info QRProcessor.KAMIKAZE 100
               (QRProcessor.create_qr_command QRProcessor.KAMIKAZE None) [])
            [] Spec.kamikaze_payload (100 + 1/2) _ _ _ _ _)).
  - reflexivity.
  - lra.
  - constructor.
  - reflexivity.
  - simpl. lra.
Defined.

(** ** Target lock evaluator: shared facts *)

Section LockFacts.
Import TargetLockSystem.

Lemma is_point_in_lock_zone_spec (s : t) (x y : R) :
  is_point_in_lock_zone s (x, y) = true <->
  IZR (x1 (lock_zone s)) < x < IZR (x2 (lock_zone s)) /\
  IZR (y1 (lock_zone s)) < y < IZR (y2 (lock_zone s)).
Proof.
  unfold is_point_in_lock_zone.
  rewrite !andb_true_iff, !Rltb_spec. tauto.
Qed.

(** Identity assignment touches the identity mapping and counter only. *)
Lemma observe_uav_with_uavs (s : t) (id : Z) (clock : R) :
  observe_uav s id clock
  = with_uavs s (uav_counter (observe_uav s id clock))
      (tracked_uavs (observe_uav s id clock)).
Proof.
  unfold observe_uav. destruct (tracked_uavs s !! id); reflexivity.
Qed.

Lemma observe_uav_known (s : t) (id : Z) (clock : R) :
  is_Some (tracked_uavs (observe_uav s id clock) !! id).
Proof.
  unfold observe_uav.
  destruct (tracked_uavs s !! id) as [u |] eqn:E; simpl.
  - rewrite lookup_alter_eq, E. eauto.
  - rewrite lookup_alter_eq, lookup_insert_eq. eauto.
Qed.

Lemma observe_uav_fields (s : t) (id : Z) (clock : R) :
  lock_hysteresis (observe_uav s id clock) = lock_hysteresis s /\
  lock_start_time (observe_uav s id clock) = lock_start_time s.
Proof. rewrite observe_uav_with_uavs. split; reflexivity. Qed.

Lemma is_point_in_lock_zone_observe (s : t) (id : Z) (clock : R) (p : R * R) :
  is_point_in_lock_zone (observe_uav s id clock) p = is_point_in_lock_zone s p.
Proof. rewrite observe_uav_with_uavs. reflexivity. Qed.

(** In-zone step below the threshold: only the counter moves. *)
Lemma lock_step_below (s : t) (id : Z) (ts tn : R) :
  (lock_hysteresis s + 1 < 2)%Z ->
  lock_step s id ts tn = with_hysteresis s (lock_hysteresis s + 1).
Proof.
  intros H. unfold lock_step. simpl.
  replace (Z.min (lock_hysteresis s + 1) 5) with (lock_hysteresis s + 1)%Z by lia.
  destruct (Z.leb_spec 2 (lock_hysteresis s + 1)); [lia | reflexivity].
Qed.

(** In-zone step at or above the threshold with no start recorded: the
    start is taken now and the track becomes the current target. *)
Lemma lock_step_start (s : t) (id : Z) (ts tn : R) :
  (2 <= lock_hysteresis s + 1)%Z ->
  Py.truthy_float (lock_start_time s) = false ->
  let s' := lock_step s id ts tn in
  lock_hysteresis s' = Z.min (lock_hysteresis s + 1) 5 /\
  lock_start_time s' = Some ts /\
  current_target_id s' = Some id /\
  is_locked s' = Py.Rleb (required_lock_time s) (tn - ts) /\
  lock_zone s' = lock_zone s /\
  required_lock_time s' = required_lock_time s /\
  dom (tracked_uavs s') = dom (tracked_uavs s).
Proof.
  intros H Hf. unfold lock_step. simpl.
  destruct (Z.leb_spec 2 (Z.min (lock_hysteresis s + 1) 5)); [| lia].
  rewrite Hf. simpl.
  destruct (Py.Rleb (required_lock_time s) (tn - ts)) eqn:E; simpl;
    rewrite ?E; repeat split; try reflexivity.
  apply dom_alter_L.
Qed.

(** In-zone step at or above the threshold with a start recorded: the
    start and the target stay, the lock flag follows the elapsed time. *)
Lemma lock_step_continue (s : t) (id : Z) (ts tn t0 : R) :
  (2 <= lock_hysteresis s + 1)%Z ->
  lock_start_time s = Some t0 ->
  t0 <> 0 ->
  let s' := lock_step s id ts tn in
  lock_hysteresis s' = Z.min (lock_hysteresis s + 1) 5 /\
  lock_start_time s' = Some t0 /\
  current_target_id s' = current_target_id s /\
  is_locked s' = Py.Rleb (required_lock_time s) (tn - t0) /\
  lock_zone s' = lock_zone s /\
  required_lock_time s' = required_lock_time s.
Proof.
  intros H Hs Hnz. unfold lock_step. simpl.
  destruct (Z.leb_spec 2 (Z.min (lock_hysteresis s + 1) 5)); [| lia].
  rewrite Hs, truthy_float_nonzero by assumption. simpl. rewrite Hs.
  destruct (Py.Rleb (required_lock_time s) (tn - t0)) eqn:E; simpl;
    rewrite ?E; repeat split; reflexivity.
Qed.

(** One frame with a single in-zone object, seen through [step]. *)
Lemma step_single_in_zone (s : t) (f : frame) (id : Z)
    (obj : Track.tracked_object) :
  tracks f = [(id, obj)] ->
  is_point_in_lock_zone s (Track.centroid obj) = true ->
  step s f = lock_step (observe_uav s id (t_seen f)) id (t_start f) (t_now f).
Proof.
  intros Ht Hz. unfold step, update. rewrite Ht. simpl.
  rewrite is_point_in_lock_zone_observe, Hz. reflexivity.
Qed.

End LockFacts.

(** ** C3: lock timing *)

Section LockTiming.
Import TargetLockSystem.

Variable s0 : t.
Variable n0 : nat.
Hypothesis start_unset : lock_start_time s0 = None.
Hypothesis not_locked : is_locked s0 = false.
Hypothesis counter : lock_hysteresis s0 = (1 - Z.of_nat n0)%Z.

Lemma run_snoc (s : t) (l : list frame) (f : frame) :
  run s (l ++ [f]) = step (run s l) f.
Proof. unfold run. rewrite fold_left_app. reflexivity. Qed.

(** Up to and including [n0] in-zone frames the counter is below 2:
    no start is recorded and the lock flag stays down. *)
Lemma run_in_zone_before (frames : list frame) :
  Forall (single_in_zone s0) frames ->
  (length frames <= n0)%nat ->
  let s := run s0 frames in
  lock_hysteresis s = (lock_hysteresis s0 + Z.of_nat (length frames))%Z /\
  lock_start_time s = None /\
  is_locked s = false /\
  lock_zone s = lock_zone s0 /\
  required_lock_time s = required_lock_time s0.
Proof.
  induction frames as [| f l IH] using rev_ind; intros Hall Hlen; simpl.
  - repeat split; auto. lia.
  - rewrite length_app in *. simpl in Hlen.
    apply Forall_app in Hall as [Hl Hf].
    apply Forall_inv in Hf. destruct Hf as (id & obj & Htr & Hz).
    destruct (IH Hl ltac:(lia)) as (Hh & Hs & Hk & Hzone & Hreq).
    rewrite run_snoc.
    rewrite (step_single_in_zone _ f id obj Htr)
      by (unfold is_point_in_lock_zone in *; rewrite Hzone; exact Hz).
    rewrite observe_uav_with_uavs.
    rewrite lock_step_below by (simpl; lia).
    simpl. repeat split; auto. lia.
Qed.

(** From frame [n0] on, the start is the reading taken at frame [n0] and
    the lock flag compares the time elapsed since then with the
    requirement. *)
Lemma run_in_zone_after (f0 : frame) (l : list frame) (f : frame) :
  Forall (single_in_zone s0) (l ++ [f]) ->
  (l ++ [f]) !! n0 = Some f0 ->
  t_start f0 <> 0 ->
  let s := run s0 (l ++ [f]) in
  lock_hysteresis s
    = Z.min (lock_hysteresis s0 + Z.of_nat (length (l ++ [f]))) 5 /\
  lock_start_time s = Some (t_start f0) /\
  is_locked s = Py.Rleb (required_lock_time s0) (t_now f - t_start f0) /\
  lock_zone s = lock_zone s0 /\
  required_lock_time s = required_lock_time s0.
Proof.
  revert f. induction l as [| f' l IH] using rev_ind; intros f Hall Hn0 Hnz.
  - (* the first frame is frame [n0] *)
    destruct n0 as [| n]; [| discriminate Hn0].
    simpl in Hn0. injection Hn0 as <-.
    apply Forall_inv in Hall. destruct Hall as (id & obj & Htr & Hz).
    simpl. unfold run. simpl.
    rewrite (step_single_in_zone _ f id obj Htr Hz).
    rewrite observe_uav_with_uavs.
    edestruct (lock_step_start
                 (with_uavs s0 (uav_counter (observe_uav s0 id (t_seen f)))
                    (tracked_uavs (observe_uav s0 id (t_seen f))))
                 id (t_start f) (t_now f))
      as (Hh & Hs & _ & Hk & Hzone & Hreq & _).
    { simpl. lia. }
    { simpl. rewrite start_unset. reflexivity. }
    simpl in *. rewrite Hh, Hs, Hk, Hzone, Hreq. repeat split; auto.
  - pose proof Hall as Hall'.
    apply Forall_app in Hall as [Hl Hf].
    apply Forall_inv in Hf. destruct Hf as (id & obj & Htr & Hz).
    rewrite run_snoc.
    rewrite !length_app; simpl.
    destruct (decide (n0 = length (l ++ [f']))) as [Heq | Hne].
    + (* frame [f] is frame [n0] *)
      rewrite Heq, list_lookup_middle in Hn0 by reflexivity.
      injection Hn0 as <-.
      destruct (run_in_zone_before (l ++ [f']) Hl ltac:(lia))
        as (Hh & Hs & Hk & Hzone & Hreq).
      rewrite (step_single_in_zone _ f id obj Htr)
        by (unfold is_point_in_lock_zone in *; rewrite Hzone; exact Hz).
      rewrite observe_uav_with_uavs.
      edestruct (lock_step_start
                 (with_uavs (run s0 (l ++ [f']))
                    (uav_counter (observe_uav (run s0 (l ++ [f'])) id (t_seen f)))
                    (tracked_uavs (observe_uav (run s0 (l ++ [f'])) id (t_seen f))))
                 id (t_start f) (t_now f))
        as (Hh' & Hs' & _ & Hk' & Hzone' & Hreq' & _).
      { simpl. rewrite Hh, counter, Heq. lia. }
      { simpl. rewrite Hs. reflexivity. }
      simpl in *. rewrite Hh', Hs', Hk', Hzone', Hreq', Hh, Hreq, Hzone.
      rewrite length_app in *. simpl in *.
      repeat split; auto. f_equal. lia.
    + (* frame [n0] came earlier *)
      assert (Hlt : (n0 < length (l ++ [f']))%nat).
      { apply lookup_lt_Some in Hn0. rewrite !length_app in *. simpl in *. lia. }
      rewrite lookup_app_l in Hn0 by exact Hlt.
      destruct (IH f' Hl Hn0 Hnz) as (Hh & Hs & Hk & Hzone & Hreq).
      rewrite (step_single_in_zone _ f id obj Htr)
        by (unfold is_point_in_lock_zone in *; rewrite Hzone; exact Hz).
      rewrite observe_uav_with_uavs.
      edestruct (lock_step_continue
                 (with_uavs (run s0 (l ++ [f']))
                    (uav_counter (observe_uav (run s0 (l ++ [f'])) id (t_seen f)))
                    (tracked_uavs (observe_uav (run s0 (l ++ [f'])) id (t_seen f))))
                 id (t_start f) (t_now f) (t_start f0))
        as (Hh' & Hs' & _ & Hk' & Hzone' & Hreq').
      { simpl. rewrite Hh, counter. rewrite length_app in *. simpl in *. lia. }
      { simpl. exact Hs. }
      { exact Hnz. }
      simpl in *. rewrite Hh', Hs', Hk', Hzone', Hreq', Hh, Hreq, Hzone.
      rewrite length_app in *. simpl in *.
      repeat split; auto. lia.
Qed.

End LockTiming.

(** C3. Take an evaluator with no lock start recorded, the lock flag down
    and the hysteresis counter [n0] in-zone frames short of 2 (a freshly
    constructed one has [n0 = 1]).  Feed it frames that each hold a single
    tracked object with its centroid inside the lock zone.  Then, for the
    update number [k] (counted from 0): the counter is [min (h0+k+1) 5],
    so it first reaches 2 at update [n0]; the lock start is unset before
    update [n0] and from then on is the clock reading taken at update
    [n0]; and [is_locked] is true after update [k] exactly when [k] is not
    before [n0] and the time elapsed since that start has reached
    [required_lock_time].  The clock reading taken as start is assumed
    not to be 0.0. *)
Theorem C3_lock_timing :
  forall (s0 : TargetLockSystem.t) (n0 : nat)
         (frames : list TargetLockSystem.frame)
         (f0 : TargetLockSystem.frame),
    TargetLockSystem.lock_start_time s0 = None ->
    TargetLockSystem.is_locked s0 = false ->
    TargetLockSystem.lock_hysteresis s0 = (1 - Z.of_nat n0)%Z ->
    Forall (TargetLockSystem.single_in_zone s0) frames ->
    frames !! n0 = Some f0 ->
    TargetLockSystem.t_start f0 <> 0 ->
    forall (k : nat) (fk : TargetLockSystem.frame),
      frames !! k = Some fk ->
      let sk := TargetLockSystem.run s0 (take (S k) frames) in
      TargetLockSystem.lock_hysteresis sk
        = Z.min (TargetLockSystem.lock_hysteresis s0 + Z.of_nat (S k)) 5 /\
      TargetLockSystem.lock_start_time sk
        = (if (k <? n0)%nat then None
           else Some (TargetLockSystem.t_start f0)) /\
      (TargetLockSystem.is_locked sk = true <->
       (n0 <= k)%nat /\
       TargetLockSystem.required_lock_time s0
         <= TargetLockSystem.t_now fk - TargetLockSystem.t_start f0).
Proof.
  intros s0 n0 frames f0 Hs Hl Hh Hall Hn0 Hnz k fk Hk sk.
  assert (Htake : take (S k) frames = take k frames ++ [fk])
    by (apply take_S_r; exact Hk).
  assert (Hall' : Forall (TargetLockSystem.single_in_zone s0)
                    (take (S k) frames))
    by (apply Forall_take; exact Hall).
  assert (Hlen : length (take (S k) frames) = S k).
  { rewrite length_take. apply lookup_lt_Some in Hk. lia. }
  destruct (Nat.ltb_spec k n0) as [Hlt | Hge].
  - destruct (run_in_zone_before s0 n0 Hs Hl Hh (take (S k) frames) Hall')
      as (Hh' & Hs' & Hk' & _); [lia |].
    fold sk in Hh', Hs', Hk'. rewrite Hlen in Hh'.
    split; [rewrite Hh', Hh; lia |].
    split; [exact Hs' |].
    split.
    + rewrite Hk'. discriminate.
    + intros [? _]. lia.
  - assert (Hn0' : (take k frames ++ [fk]) !! n0 = Some f0).
    { rewrite <- Htake, lookup_take_lt by lia. exact Hn0. }
    rewrite Htake in Hall'.
    destruct (run_in_zone_after s0 n0 Hs Hl Hh f0 (take k frames) fk
                Hall' Hn0' Hnz) as (Hh' & Hs' & Hk' & _).
    rewrite <- Htake in Hh', Hs', Hk'. fold sk in Hh', Hs', Hk'.
    rewrite Hlen in Hh'.
    split; [exact Hh' |].
    split; [exact Hs' |].
    rewrite Hk', Rleb_spec. split; [intros Hreq; split; [lia | exact Hreq] |].
    intros [_ Hreq]. exact Hreq.
Qed.

(** The lock zone of the default 1280x720 evaluator. *)
Lemma default_lock_zone :
  TargetLockSystem.lock_zone TargetLockSystem.default
  = TargetLockSystem.mk_rect 384 108 896 612.
Proof. reflexivity. Qed.

Lemma centre_in_default_zone (s : TargetLockSystem.t) :
  TargetLockSystem.lock_zone s
    = TargetLockSystem.lock_zone TargetLockSystem.default ->
  TargetLockSystem.is_point_in_lock_zone s (640, 360) = true.
Proof.
  intros H. apply is_point_in_lock_zone_spec.
  rewrite H, default_lock_zone.
  cbv [TargetLockSystem.x1 TargetLockSystem.x2
       TargetLockSystem.y1 TargetLockSystem.y2]. lra.
Qed.

Lemma centre_frame_in_zone (id : Z) (clock : R) :
  TargetLockSystem.single_in_zone TargetLockSystem.default
    (TargetLockSystem.centre_frame id clock).
Proof.
  eexists _, _. split; [reflexivity |].
  apply centre_in_default_zone. reflexivity.
Qed.

Lemma C3_witness :
  let frames := [TargetLockSystem.centre_frame 1 100;
                 TargetLockSystem.centre_frame 1 (100 + 1 / 30);
                 TargetLockSystem.centre_frame 1 106] in
  let s := TargetLockSystem.run TargetLockSystem.default frames in
  TargetLockSystem.lock_hysteresis s = 3%Z /\
  TargetLockSystem.lock_start_time s = Some (100 + 1 / 30) /\
  (TargetLockSystem.is_locked s = true <->
   (1 <= 2)%nat /\ 5 <= 106 - (100 + 1 / 30)).
Proof.
  intros frames s.
  apply (C3_lock_timing TargetLockSystem.default 1 frames
           (TargetLockSystem.centre_frame 1 (100 + 1 / 30))
           eq_refl eq_refl eq_refl
           ltac:(repeat constructor; apply centre_frame_in_zone)
           eq_refl
           ltac:(cbv [TargetLockSystem.centre_frame TargetLockSystem.t_start];
                 intros H; lra)
           2%nat (TargetLockSystem.centre_frame 1 106) eq_refl).
Defined.

(** ** C4: the floor of the hysteresis counter resets the lock *)

(** C4. When an update on an empty track set, or on a frame whose tracked
    object is outside the lock zone, leaves the hysteresis counter at its
    floor -3, the evaluator is exactly [reset_lock] applied to the state
    reached after identity assignment with the counter at -3: lock start,
    window start, lock duration (both copies), lock flag and current
    target are cleared; [reset_lock] itself never changes the identity
    mapping or the UAV counter. *)
Theorem C4_floor_resets_lock :
  forall (s : TargetLockSystem.t) (tracks : Track.tracked_objects)
         (ts tst tn : R),
    (tracks = [] \/
     exists id obj rest,
       tracks = (id, obj) :: rest /\
       TargetLockSystem.is_point_in_lock_zone s (Track.centroid obj) = false) ->
    let s' := fst (TargetLockSystem.update s tracks ts tst tn) in
    let seen := match tracks with
                | [] => s
                | (id, _) :: _ => TargetLockSystem.observe_uav s id ts
                end in
    TargetLockSystem.lock_hysteresis s' = (-3)%Z ->
    s' = TargetLockSystem.reset_lock
           (TargetLockSystem.with_hysteresis seen (-3)) /\
    (TargetLockSystem.lock_start_time s' = None /\
     TargetLockSystem.window_start_time s' = None /\
     TargetLockSystem.lock_duration s' = 0 /\
     TargetLockSystem.lock_duration_elapsed s' = 0 /\
     TargetLockSystem.is_locked s' = false /\
     TargetLockSystem.current_target_id s' = None) /\
    (TargetLockSystem.tracked_uavs s' = TargetLockSystem.tracked_uavs seen /\
     TargetLockSystem.uav_counter s' = TargetLockSystem.uav_counter seen) /\
    (forall x : TargetLockSystem.t,
        TargetLockSystem.tracked_uavs (TargetLockSystem.reset_lock x)
          = TargetLockSystem.tracked_uavs x /\
        TargetLockSystem.uav_counter (TargetLockSystem.reset_lock x)
          = TargetLockSystem.uav_counter x).
Proof.
  intros s tracks ts tst tn Hcase s' seen Hfloor.
  assert (Hs' : s' = TargetLockSystem.decay_step seen).
  { unfold s', seen, TargetLockSystem.update.
    destruct Hcase as [-> | (id & obj & rest & -> & Hz)]; [reflexivity |].
    simpl. rewrite is_point_in_lock_zone_observe, Hz. reflexivity. }
  assert (Hreset : s' = TargetLockSystem.reset_lock
                          (TargetLockSystem.with_hysteresis seen (-3))).
  { rewrite Hs' in *. unfold TargetLockSystem.decay_step in *. simpl in *.
    destruct (Z.leb_spec
                (Z.max (TargetLockSystem.lock_hysteresis seen - 1) (-3)) (-3))
      as [Hle | Hgt].
    - replace (Z.max (TargetLockSystem.lock_hysteresis seen - 1) (-3))
        with (-3)%Z by lia. reflexivity.
    - simpl in Hfloor. lia. }
  split; [exact Hreset |].
  rewrite Hreset. simpl. auto 10.
Qed.

Lemma C4_witness :
  let s := TargetLockSystem.with_hysteresis TargetLockSystem.default (-2) in
  let s' := fst (TargetLockSystem.update s [] 7 7 7) in
  TargetLockSystem.lock_hysteresis s' = (-3)%Z /\
  TargetLockSystem.lock_start_time s' = None /\
  TargetLockSystem.is_locked s' = false /\
  TargetLockSystem.current_target_id s' = None /\
  TargetLockSystem.tracked_uavs s' = TargetLockSystem.tracked_uavs s.
Proof.
  intros s s'.
  destruct (C4_floor_resets_lock s [] 7 7 7 (or_introl eq_refl) eq_refl)
    as (_ & (H1 & _ & _ & _ & H2 & H3) & (H4 & _) & _).
  repeat split; assumption.
Defined.

(** ** C10: the UAV label of the lock status *)

(** C10. In the lock status, a current target id of 0 is reported with
    UAV label [None] whatever the identity mapping holds for track 0,
    because the id is tested for truth; a nonzero current target id that
    the mapping knows is reported with its label.  The first case arises:
    when the update that starts the lock timer sees track 0 in the lock
    zone, the status names target 0, the mapping holds an identity for
    track 0, and the label is [None]. *)
Theorem C10_uav_label_of_lock_status :
  (forall s : TargetLockSystem.t,
      TargetLockSystem.current_target_id s = Some 0%Z ->
      TargetLockSystem.status_uav_id (TargetLockSystem._get_lock_status s)
        = None) /\
  (forall (s : TargetLockSystem.t) (id : Z) (u : TargetLockSystem.uav_info),
      TargetLockSystem.current_target_id s = Some id ->
      id <> 0%Z ->
      TargetLockSystem.tracked_uavs s !! id = Some u ->
      TargetLockSystem.status_uav_id (TargetLockSystem._get_lock_status s)
        = Some (TargetLockSystem.uav_id u)) /\
  (forall (s : TargetLockSystem.t) (obj : Track.tracked_object)
          (rest : Track.tracked_objects) (ts tst tn : R),
      TargetLockSystem.lock_hysteresis s = 1%Z ->
      TargetLockSystem.lock_start_time s = None ->
      TargetLockSystem.is_point_in_lock_zone s (Track.centroid obj) = true ->
      let r := TargetLockSystem.update s ((0%Z, obj) :: rest) ts tst tn in
      TargetLockSystem.status_target_id (snd r) = Some 0%Z /\
      is_Some (TargetLockSystem.tracked_uavs (fst r) !! 0%Z) /\
      TargetLockSystem.status_uav_id (snd r) = None).
Proof.
  split; [| split].
  - intros s H. unfold TargetLockSystem._get_lock_status. simpl.
    rewrite H. reflexivity.
  - intros s id u Hid Hnz Hu. unfold TargetLockSystem._get_lock_status. simpl.
    rewrite Hid. simpl.
    destruct (Z.eqb_spec id 0) as [-> | _]; [contradiction |].
    simpl. rewrite Hu. reflexivity.
  - intros s obj rest ts tst tn Hh Hs Hz r.
    unfold r, TargetLockSystem.update.
    rewrite is_point_in_lock_zone_observe, Hz. cbn [fst snd].
    pose proof (observe_uav_known s 0 ts) as Hknown.
    destruct (observe_uav_fields s 0 ts) as (Hoh & Hos).
    set (o := TargetLockSystem.observe_uav s 0 ts) in *.
    destruct (lock_step_start o 0 tst tn) as (_ & _ & Hcur & _ & _ & _ & Hdom).
    { rewrite Hoh, Hh. lia. }
    { rewrite Hos, Hs. reflexivity. }
    split; [exact Hcur |].
    split.
    + apply elem_of_dom. rewrite Hdom. apply elem_of_dom. exact Hknown.
    + unfold TargetLockSystem._get_lock_status.
      cbn [TargetLockSystem.status_uav_id].
      rewrite Hcur. reflexivity.
Qed.

Lemma C10_witness :
  let s := TargetLockSystem.run TargetLockSystem.default
             [TargetLockSystem.centre_frame 0 100] in
  let r := TargetLockSystem.update s
             (TargetLockSystem.tracks (TargetLockSystem.centre_frame 0 101))
             101 101 101 in
  TargetLockSystem.status_target_id (snd r) = Some 0%Z /\
  is_Some (TargetLockSystem.tracked_uavs (fst r) !! 0%Z) /\
  TargetLockSystem.status_uav_id (snd r) = None.
Proof.
  intros s r.
  destruct (run_in_zone_before TargetLockSystem.default 1 eq_refl eq_refl
              eq_refl [TargetLockSystem.centre_frame 0 100]
              ltac:(repeat constructor; apply centre_frame_in_zone)
              ltac:(simpl; lia))
    as (Hh & Hs & _ & Hzone & _).
  apply (proj2 (proj2 C10_uav_label_of_lock_status) s).
  - exact Hh.
  - exact Hs.
  - apply centre_in_default_zone. exact Hzone.
Defined.

(** ** C2: terminal statuses in the mission manager *)

Section ManagerFacts.
Import MissionTypes MissionManager.

Lemma PyDict_get_del_eq {V : Type} (d : PyDict.t string V) (k : string) :
  NoDup (PyDict.keys d) -> PyDict.get (PyDict.del d k) k = None.
Proof.
  induction d as [| [k' v] d IH]; intros Hnd; simpl; [reflexivity |].
  apply NoDup_cons in Hnd as [Hk' Hnd].
  destruct (decide (k' = k)) as [-> | Hne].
  - clear IH. induction d as [| [k'' v''] d IH]; simpl; [reflexivity |].
    simpl in Hk'. apply not_elem_of_cons in Hk' as [Hne Hk'].
    apply NoDup_cons in Hnd as [_ Hnd].
    rewrite decide_False by congruence. auto.
  - simpl. rewrite decide_False by exact Hne. auto.
Qed.

(** Changing the status of a record does not change which mission the
    current pointer names. *)
Lemma current_is_alter (m : t) (id : string) (r : ref)
    (st : MissionStatus) (clock : R) :
  current_is
    (mk (alter (fun x => update_status x st clock) r (heap m))
        (active_missions m) (mission_history m) (current_mission m)) id
  = current_is m id.
Proof.
  unfold current_is. simpl.
  destruct (current_mission m) as [c |]; [| reflexivity].
  destruct (decide (r = c)) as [-> | Hne].
  - rewrite list_lookup_alter_eq.
    destruct (heap m !! c); reflexivity.
  - rewrite list_lookup_alter_ne by exact Hne. reflexivity.
Qed.

(** COMPLETED and FAILED archive the mission: it leaves the active
    dictionary, its reference is appended to the history, and the current
    pointer is cleared when it names that mission. *)
Lemma update_mission_status_archives (m : t) (id : string) (r : ref)
    (st : MissionStatus) (res : option MissionResult) (clock : R) :
  PyDict.get (active_missions m) id = Some r ->
  NoDup (PyDict.keys (active_missions m)) ->
  st = COMPLETED \/ st = FAILED ->
  let m' := update_mission_status m id st res clock in
  PyDict.get (active_missions m') id = None /\
  mission_history m' = mission_history m ++ [r] /\
  current_mission m'
    = (if current_is m id then None else current_mission m).
Proof.
  intros Hget Hnd Hst. unfold update_mission_status. rewrite Hget.
  assert (Hb : bool_decide (st = COMPLETED) || bool_decide (st = FAILED) = true)
    by (destruct Hst; subst; reflexivity).
  rewrite Hb. cbn [active_missions mission_history current_mission heap].
  split; [apply PyDict_get_del_eq; exact Hnd |].
  split; [reflexivity |].
  rewrite current_is_alter. reflexivity.
Qed.

(** INTERRUPTED only rewrites the record: the mission stays in the active
    dictionary, the history does not grow and the current pointer stays. *)
Lemma update_mission_status_interrupted (m : t) (id : string) (r : ref)
    (res : option MissionResult) (clock : R) :
  PyDict.get (active_missions m) id = Some r ->
  let m' := update_mission_status m id INTERRUPTED res clock in
  active_missions m' = active_missions m /\
  mission_history m' = mission_history m /\
  current_mission m' = current_mission m /\
  heap m' = alter (fun x => update_status x INTERRUPTED clock) r (heap m).
Proof.
  intros Hget. unfold update_mission_status. rewrite Hget.
  simpl. auto.
Qed.

End ManagerFacts.

(** C2 (the code departs from the claim).  On a manager whose single
    mission ["m1"] is active and current, COMPLETED and FAILED archive the
    mission and clear the current pointer, but INTERRUPTED leaves the
    mission in the active dictionary, leaves the history empty and leaves
    the current pointer on it; only the record's status changes. *)
Theorem C2_interrupted_is_not_archived :
  let m := MissionManager.one_current_mission in
  let done := MissionManager.update_mission_status m "m1"
                MissionTypes.COMPLETED None 12 in
  let failed := MissionManager.update_mission_status m "m1"
                  MissionTypes.FAILED None 12 in
  let stopped := MissionManager.update_mission_status m "m1"
                   MissionTypes.INTERRUPTED None 12 in
  (PyDict.get (MissionManager.active_missions m) "m1" = Some 0%nat /\
   MissionManager.current_mission m = Some 0%nat /\
   MissionManager.mission_history m = []) /\
  (PyDict.get (MissionManager.active_missions done) "m1" = None /\
   MissionManager.mission_history done = [0%nat] /\
   MissionManager.current_mission done = None) /\
  (PyDict.get (MissionManager.active_missions failed) "m1" = None /\
   MissionManager.mission_history failed = [0%nat] /\
   MissionManager.current_mission failed = None) /\
  (PyDict.get (MissionManager.active_missions stopped) "m1" = Some 0%nat /\
   MissionManager.mission_history stopped = [] /\
   MissionManager.current_mission stopped = Some 0%nat /\
   MissionTypes.status <$> MissionManager.heap stopped !! 0%nat
     = Some MissionTypes.INTERRUPTED).
Proof.
  cbv zeta.
  assert (Hm : PyDict.get
                 (MissionManager.active_missions
                    MissionManager.one_current_mission) "m1" = Some 0%nat
               /\ MissionManager.current_mission
                    MissionManager.one_current_mission = Some 0%nat
               /\ MissionManager.mission_history
                    MissionManager.one_current_mission = []
               /\ NoDup (PyDict.keys (MissionManager.active_missions
                                        MissionManager.one_current_mission))
               /\ MissionManager.current_is
                    MissionManager.one_current_mission "m1" = true).
  { repeat split; try reflexivity. repeat constructor. set_solver. }
  destruct Hm as (Hget & Hcur & Hhist & Hnd & Hcis).
  split; [auto |].
  split.
  { destruct (update_mission_status_archives
                MissionManager.one_current_mission "m1" 0%nat
                MissionTypes.COMPLETED None 12 Hget Hnd (or_introl eq_refl))
      as (H1 & H2 & H3).
    rewrite Hhist in H2. rewrite Hcis in H3. auto. }
  split.
  { destruct (update_mission_status_archives
                MissionManager.one_current_mission "m1" 0%nat
                MissionTypes.FAILED None 12 Hget Hnd (or_intror eq_refl))
      as (H1 & H2 & H3).
    rewrite Hhist in H2. rewrite Hcis in H3. auto. }
  destruct (update_mission_status_interrupted
              MissionManager.one_current_mission "m1" 0%nat None 12 Hget)
    as (H1 & H2 & H3 & H4).
  rewrite H1, H2, H3, H4, Hget, Hcur, Hhist.
  repeat split; reflexivity.
Qed.

(** ** C5: registration of detections when no track exists *)

Section TrackerFacts.
Import KalmanTracker.
Context {KF : Type}.
Variable kf0 : KF.
Variable predict : KF -> KF * (R * R).
Variable associate :
  @t KF -> list Track.tracked_object -> @t KF * Track.tracked_objects.

Lemma PyDict_set_fresh {V : Type} (d : PyDict.t Z V) (k : Z) (v : V) :
  k ∉ PyDict.keys d -> PyDict.set d k v = d ++ [(k, v)].
Proof.
  induction d as [| [k' v'] d IH]; intros Hk; simpl; [reflexivity |].
  simpl in Hk. apply not_elem_of_cons in Hk as [Hne Hk].
  rewrite decide_False by congruence. rewrite IH by exact Hk. reflexivity.
Qed.

Lemma keys_app {V : Type} (d1 d2 : PyDict.t Z V) :
  PyDict.keys (d1 ++ d2) = PyDict.keys d1 ++ PyDict.keys d2.
Proof. unfold PyDict.keys. apply map_app. Qed.

(** What the registration loop does: entry number [j] is returned under
    the key [i + j] and registered under the id [next_object_id + j]. *)
Lemma register_all_spec (dl : list Track.tracked_object) :
  forall (self : @t KF) (tracked : Track.tracked_objects) (i : Z),
    (forall k, k ∈ PyDict.keys tracked -> (k < i)%Z) ->
    (forall k, k ∈ PyDict.keys (objects self) -> (k < next_object_id self)%Z) ->
    let r := register_all kf0 self tracked i dl in
    snd r = tracked ++ imap (fun j d => ((i + Z.of_nat j)%Z, d)) dl /\
    objects (fst r)
      = objects self
        ++ imap (fun j d => ((next_object_id self + Z.of_nat j)%Z,
                             (Track.centroid d, kf0))) dl /\
    next_object_id (fst r) = (next_object_id self + Z.of_nat (length dl))%Z.
Proof.
  induction dl as [| d dl IH]; intros self tracked i Htr Hobj; simpl.
  - rewrite !app_nil_r. repeat split; lia.
  - assert (Hfresh_t : i ∉ PyDict.keys tracked)
      by (intros Hin; apply Htr in Hin; lia).
    assert (Hfresh_o : next_object_id self ∉ PyDict.keys (objects self))
      by (intros Hin; apply Hobj in Hin; lia).
    edestruct (IH (register kf0 self (Track.centroid d))
                 (PyDict.set tracked i d) (i + 1)%Z) as (H1 & H2 & H3).
    { intros k. rewrite PyDict_set_fresh, keys_app by exact Hfresh_t.
      rewrite elem_of_app. simpl. rewrite list_elem_of_singleton.
      intros [Hin | ->]; [apply Htr in Hin |]; lia. }
    { intros k. simpl.
      rewrite PyDict_set_fresh, keys_app by exact Hfresh_o.
      rewrite elem_of_app. simpl. rewrite list_elem_of_singleton.
      intros [Hin | ->]; [apply Hobj in Hin |]; lia. }
    rewrite H1, H2, H3. simpl.
    rewrite !PyDict_set_fresh by assumption.
    rewrite <- !app_assoc. simpl.
    rewrite !Z.add_0_r.
    repeat split; try lia.
    + do 2 f_equal. apply imap_ext. intros j x _. simpl. f_equal. lia.
    + do 2 f_equal. apply imap_ext. intros j x _. simpl. f_equal. lia.
Qed.

(** [update] with detections and no track: every detection is registered
    under the next sequential ids, but returned under its position in the
    detection list. *)
Lemma update_no_tracks (self : @t KF) (detections : list detection) :
  objects self = [] ->
  detections <> [] ->
  let r := update kf0 predict associate self detections in
  snd r = imap (fun j d => (Z.of_nat j, detection_entry d)) detections /\
  objects (fst r)
    = imap (fun j d => ((next_object_id self + Z.of_nat j)%Z,
                        (Track.centroid (detection_entry d), kf0)))
        detections.
Proof.
  intros Hobj Hne. unfold update. rewrite Hobj.
  destruct detections as [| d ds]; [contradiction |].
  cbn [map].
  edestruct (register_all_spec (detection_entry d :: map detection_entry ds)
               self [] 0%Z) as (H1 & H2 & _).
  { intros k Hk. inversion Hk. }
  { rewrite Hobj. intros k Hk. inversion Hk. }
  rewrite H1, H2, Hobj. cbn [app].
  change (detection_entry d :: map detection_entry ds)
    with (detection_entry <$> (d :: ds)).
  rewrite !imap_fmap. split; reflexivity.
Qed.

End TrackerFacts.

(** C5 (the code departs from the claim).  A tracker whose only track,
    id 0, was created and destroyed has no tracks and next id 1.  Updated
    with one detection, it registers the detection as track 1 and returns
    the detection's box and confidence verbatim, but under the key 0, not
    under the id 1 of the track it created. *)
Theorem C5_new_tracks_returned_under_list_position :
  let tr := KalmanTracker.after_one_lost_track in
  let det := KalmanTracker.mk_detection (Track.mk_bbox 100 100 140 120) (8 / 10) in
  let r := KalmanTracker.unit_update tr [det] in
  KalmanTracker.objects tr = [] /\
  KalmanTracker.next_object_id tr = 1%Z /\
  PyDict.keys (KalmanTracker.objects (fst r)) = [1%Z] /\
  PyDict.keys (snd r) = [0%Z] /\
  PyDict.get (snd r) 1%Z = None /\
  (Track.bbox <$> PyDict.get (snd r) 0%Z) = Some (KalmanTracker.det_bbox det) /\
  (Track.confidence <$> PyDict.get (snd r) 0%Z)
    = Some (KalmanTracker.det_confidence det).
Proof.
  cbv zeta.
  assert (Htr : KalmanTracker.objects KalmanTracker.after_one_lost_track = []
                /\ KalmanTracker.next_object_id
                     KalmanTracker.after_one_lost_track = 1%Z)
    by (split; reflexivity).
  destruct Htr as (Hobj & Hnext).
  destruct (update_no_tracks tt KalmanTracker.unit_predict
              KalmanTracker.no_associate KalmanTracker.after_one_lost_track
              [KalmanTracker.mk_detection (Track.mk_bbox 100 100 140 120)
                 (8 / 10)] Hobj ltac:(discriminate)) as (H1 & H2).
  unfold KalmanTracker.unit_update. rewrite H1, H2, Hnext.
  repeat split; try assumption; reflexivity.
Qed.

(** ** Zero-length vectors under the guarded normalizations *)

Section VectorFacts.

Lemma norm_zeros : Vec3.norm Vec3.zeros = 0.
Proof.
  unfold Vec3.norm, Vec3.zeros; simpl.
  replace (0 * 0 + 0 * 0 + 0 * 0) with 0 by ring. apply sqrt_0.
Qed.

Lemma sub_self (p : Vec3.t) : Vec3.sub p p = Vec3.zeros.
Proof.
  unfold Vec3.sub, Vec3.zeros. f_equal; ring.
Qed.

Lemma div_zeros (d : R) : Vec3.div Vec3.zeros d = Vec3.zeros.
Proof.
  unfold Vec3.div, Vec3.zeros; simpl. f_equal; unfold Rdiv; ring.
Qed.

Lemma any_zeros : Vec3.any Vec3.zeros = false.
Proof.
  unfold Vec3.any, Vec3.zeros, Py.Reqb; simpl.
  destruct (Req_dec_T 0 0) as [_ | H]; [reflexivity | contradiction H; reflexivity].
Qed.

Lemma not_positive_zero : Py.Rltb 0 0 = false.
Proof. apply Rltb_false. lra. Qed.

Lemma add_scale_zero (a b : Vec3.t) : Vec3.add a (Vec3.scale 0 b) = a.
Proof.
  destruct a as [ax ay az]. unfold Vec3.add, Vec3.scale; simpl.
  f_equal; ring.
Qed.

(** Every zone pushes with a strength that is not negative, so the total
    influence never decreases along the loop, and when it has not grown
    the accumulated repulsion has not changed either. *)
Lemma repulsion_influence (margin : R) (pos : Vec3.t)
    (zs : PyDict.t string NoFlyZoneController.NoFlyZone) :
  forall (av : Vec3.t) (ti : R) (vz : list string),
    let r := NoFlyZoneController.repulsion margin pos zs (av, ti, vz) in
    ti <= snd (fst r) /\ (snd (fst r) = ti -> fst (fst r) = av).
Proof.
  induction zs as [| [id zone] rest IH]; intros av ti vz; simpl.
  - split; [lra | reflexivity].
  - destruct (negb (NoFlyZoneController.is_active zone)); [apply IH |].
    set (to_center := Vec3.set_z
                        (Vec3.sub (NoFlyZoneController.center zone) pos) 0).
    set (distance := Vec3.norm_xy to_center).
    set (ext := NoFlyZoneController.radius zone + margin).
    destruct (Py.Rleb distance ext) eqn:Hext; [| apply IH].
    apply Rleb_spec in Hext.
    destruct (Py.Rltb 0 distance) eqn:Hpos.
    + apply Rltb_spec in Hpos.
      assert (Hs : 0 <= 1 - distance / ext).
      { assert (distance / ext <= 1); [| lra].
        unfold Rdiv. apply (Rmult_le_reg_r ext); [lra |].
        rewrite Rmult_assoc, Rinv_l by lra. lra. }
      set (s := 1 - distance / ext) in *.
      match goal with
      | |- context [NoFlyZoneController.repulsion margin pos rest (?a, ?b, ?c)] =>
          destruct (IH a b c) as [Hle Heq]
      end.
      split; [lra |].
      intros Hti. assert (Hs0 : s = 0) by lra.
      rewrite Heq by lra. rewrite Hs0. apply add_scale_zero.
    + match goal with
      | |- context [NoFlyZoneController.repulsion margin pos rest (?a, ?b, ?c)] =>
          destruct (IH a b c) as [Hle Heq]
      end.
      split; assumption.
Qed.

End VectorFacts.

(** The guarded normalizations.  Where the first vector a generator
    normalizes has zero length, no division is taken and the zero vector
    is returned: the escape vector when own position equals the threat
    position (the controller is left unchanged), the dive path when own
    position equals the target position, and the avoidance vector when
    the repulsion accumulated over the zones is the zero vector, with or
    without a target. *)
Lemma guarded_normalizations_return_zeros :
  (forall (self : EscapeController.t) (p : Vec3.t) (r1 r2 clock : R),
      EscapeController.calculate_escape_vector self p p r1 r2 clock
      = (self, Some Vec3.zeros)) /\
  (forall (self : KamikazeController.t) (p : Vec3.t),
      KamikazeController.calculate_dive_path self p p = Some Vec3.zeros) /\
  (forall (self : NoFlyZoneController.t) (pos vel : Vec3.t)
          (target : option Vec3.t),
      let acc := NoFlyZoneController.repulsion
                   (NoFlyZoneController.safety_margin self) pos
                   (NoFlyZoneController.zones self) (Vec3.zeros, 0, []) in
      fst (fst acc) = Vec3.zeros \/ snd (fst acc) = 0 ->
      fst (NoFlyZoneController.calculate_avoidance_vector self pos vel target)
        = Vec3.zeros).
Proof.
  split; [| split].
  - intros self p r1 r2 clock.
    unfold EscapeController.calculate_escape_vector.
    rewrite sub_self, norm_zeros, not_positive_zero. reflexivity.
  - intros self p.
    unfold KamikazeController.calculate_dive_path.
    rewrite sub_self, norm_zeros, not_positive_zero. reflexivity.
  - intros self pos vel target acc H.
    assert (Hav : fst (fst acc) = Vec3.zeros).
    { destruct H as [H | H]; [exact H |].
      apply (repulsion_influence _ _ _ Vec3.zeros 0 []). exact H. }
    clear H. unfold NoFlyZoneController.calculate_avoidance_vector.
    fold acc. destruct acc as [[av ti] vz].
    simpl in Hav. subst av.
    assert (Hdiv : (if Py.Rltb 0 ti then Vec3.div Vec3.zeros ti
                    else Vec3.zeros) = Vec3.zeros)
      by (destruct (Py.Rltb 0 ti); [apply div_zeros | reflexivity]).
    rewrite Hdiv.
    assert (Hblend :
              match target with
              | Some target_pos =>
                  if Vec3.any Vec3.zeros then
                    let to_target :=
                      Vec3.set_z (Vec3.sub target_pos pos) 0 in
                    let distance_to_target := Vec3.norm_xy to_target in
                    if Py.Rltb 0 distance_to_target then
                      let target_direction :=
                        Vec3.div to_target (Vec3.norm to_target) in
                      Vec3.add (Vec3.scale (1 / 2) Vec3.zeros)
                        (Vec3.scale (1 / 2) target_direction)
                    else Vec3.zeros
                  else Vec3.zeros
              | None => Vec3.zeros
              end = Vec3.zeros)
      by (destruct target; [rewrite any_zeros |]; reflexivity).
    cbv zeta in Hblend. cbv zeta. rewrite Hblend.
    rewrite norm_zeros, not_positive_zero. reflexivity.
Qed.


(** ** C9: violation accounting of the no-fly zones *)

Section ZoneFacts.
Import NoFlyZoneController.

Lemma PyDict_get_map {V W : Type} (f : V -> W) (d : PyDict.t string V)
    (k : string) :
  PyDict.get (map (fun kv => (fst kv, f (snd kv))) d) k = f <$> PyDict.get d k.
Proof.
  induction d as [| [k' v] d IH]; simpl; [reflexivity |].
  destruct (decide (k' = k)); [reflexivity | exact IH].
Qed.

Lemma check_zones_zones (rate : R) (pos : Vec3.t) (now : R)
    (zs : PyDict.t string NoFlyZone) :
  forall (pen : R) (viol : gset string),
    fst (fst (check_zones rate pos now zs pen viol))
    = map (fun kv => (fst kv, checked pos now (snd kv))) zs.
Proof.
  induction zs as [| [id z] rest IH]; intros pen viol; simpl; [reflexivity |].
  unfold checked at 1.
  destruct (check_zone pos now z) as [[z' added] violated]. simpl.
  match goal with
  | |- context [check_zones rate pos now rest ?p ?v] =>
      specialize (IH p v); destruct (check_zones rate pos now rest p v)
        as [[rest' pen'] viol']
  end.
  simpl in *. rewrite IH. reflexivity.
Qed.

Lemma check_zone_added (pos : Vec3.t) (now : R) (z : NoFlyZone) :
  match snd (fst (check_zone pos now z)) with
  | Some d => accrued pos now z = d
  | None => accrued pos now z = 0
  end.
Proof.
  unfold check_zone, accrued.
  destruct (is_active z); simpl; [| reflexivity].
  destruct (is_point_in_zone pos z); simpl; [| reflexivity].
  destruct (last_violation_check z); reflexivity.
Qed.

Lemma check_zones_penalty (rate : R) (pos : Vec3.t) (now : R)
    (zs : PyDict.t string NoFlyZone) :
  forall (pen : R) (viol : gset string),
    snd (fst (check_zones rate pos now zs pen viol))
    = pen + Py.Rsum (map (fun kv => accrued pos now (snd kv) * rate) zs).
Proof.
  induction zs as [| [id z] rest IH]; intros pen viol; simpl.
  - unfold Py.Rsum; simpl. ring.
  - pose proof (check_zone_added pos now z) as Hadd.
    destruct (check_zone pos now z) as [[z' added] violated]. simpl in Hadd.
    match goal with
    | |- context [check_zones rate pos now rest ?p ?v] =>
        specialize (IH p v); destruct (check_zones rate pos now rest p v)
          as [[rest' pen'] viol']
    end.
    simpl in *. rewrite IH. unfold Py.Rsum; simpl.
    destruct added as [d |]; rewrite Hadd; ring.
Qed.

(** One [update] seen from a zone id. *)
Lemma update_zone (c : t) (pos : Vec3.t) (now : R) (id : string) :
  PyDict.get (zones (fst (update c pos now))) id
  = checked pos now <$> PyDict.get (zones c) id.
Proof.
  unfold update.
  pose proof (check_zones_zones (penalty_points_per_second c) pos now
                (zones c) (total_penalty_points c) ∅) as Hz.
  destruct (check_zones _ _ _ _ _ _) as [[zones' pen] viol].
  simpl in *. rewrite Hz. apply PyDict_get_map.
Qed.

(** One [update] seen from the running penalty. *)
Lemma update_penalty (c : t) (pos : Vec3.t) (now : R) :
  total_penalty_points (fst (update c pos now))
  = total_penalty_points c
    + Py.Rsum (map (fun kv => accrued pos now (snd kv)
                              * penalty_points_per_second c) (zones c)) /\
  status_total_penalty_points (snd (update c pos now))
  = total_penalty_points (fst (update c pos now)) /\
  penalty_points_per_second (fst (update c pos now))
  = penalty_points_per_second c.
Proof.
  unfold update.
  pose proof (check_zones_penalty (penalty_points_per_second c) pos now
                (zones c) (total_penalty_points c) ∅) as Hp.
  destruct (check_zones _ _ _ _ _ _) as [[zones' pen] viol].
  simpl in *. auto.
Qed.

Lemma update_zones (c : t) (pos : Vec3.t) (now : R) :
  zones (fst (update c pos now))
  = map (fun kv => (fst kv, checked pos now (snd kv))) (zones c).
Proof.
  unfold update.
  pose proof (check_zones_zones (penalty_points_per_second c) pos now
                (zones c) (total_penalty_points c) ∅) as Hz.
  destruct (check_zones _ _ _ _ _ _) as [[zones' pen] viol].
  simpl in *. exact Hz.
Qed.

Lemma strictly_inside_in_zone (pos : Vec3.t) (z : NoFlyZone) :
  strictly_inside pos z -> is_point_in_zone pos z = true.
Proof.
  unfold strictly_inside, is_point_in_zone. intros H.
  apply Rleb_true. lra.
Qed.

(** A check never moves a zone, resizes it or switches it. *)
Lemma checked_static (pos : Vec3.t) (now : R) (z : NoFlyZone) :
  center (checked pos now z) = center z /\
  radius (checked pos now z) = radius z /\
  is_active (checked pos now z) = is_active z.
Proof.
  unfold checked, check_zone.
  destruct (is_active z) eqn:Ha; simpl; [| auto].
  destruct (is_point_in_zone pos z); simpl;
    [destruct (last_violation_check z) |]; simpl; auto.
Qed.

Lemma checked_geometry (pos pos' : Vec3.t) (now : R) (z : NoFlyZone) :
  is_point_in_zone pos' (checked pos now z) = is_point_in_zone pos' z /\
  (strictly_inside pos' (checked pos now z) <-> strictly_inside pos' z).
Proof.
  destruct (checked_static pos now z) as (Hc & Hr & _).
  unfold is_point_in_zone, strictly_inside, distance_to.
  rewrite Hc, Hr. split; [reflexivity | tauto].
Qed.

Lemma checked_inactive (pos : Vec3.t) (now : R) (z : NoFlyZone) :
  is_active z = false -> checked pos now z = z.
Proof. intros H. unfold checked, check_zone. rewrite H. reflexivity. Qed.

Lemma checked_inside (pos : Vec3.t) (now : R) (z : NoFlyZone) :
  is_active z = true ->
  is_point_in_zone pos z = true ->
  last_violation_check (checked pos now z) = Some now /\
  total_violation_time (checked pos now z)
  = match last_violation_check z with
    | Some t0 => total_violation_time z + (now - t0)
    | None => total_violation_time z
    end.
Proof.
  intros Ha Hin. unfold checked, check_zone. rewrite Ha, Hin. simpl.
  destruct (last_violation_check z); simpl; auto.
Qed.

Lemma checked_outside (pos : Vec3.t) (now : R) (z : NoFlyZone) :
  is_active z = true ->
  is_point_in_zone pos z = false ->
  last_violation_check (checked pos now z) = None /\
  total_violation_time (checked pos now z) = total_violation_time z.
Proof.
  intros Ha Hout. unfold checked, check_zone. rewrite Ha, Hout. simpl. auto.
Qed.

(** [max(values, default=0.0)] reaches a bound exactly when a value does,
    or, on no values, when the bound is not positive. *)
Lemma fold_left_Rmax_ge (l : list R) :
  forall (v m : R),
    m <= fold_left Rmax l v <-> m <= v \/ exists x, x ∈ l /\ m <= x.
Proof.
  induction l as [| y l IH]; intros v m; simpl.
  - split; [auto | intros [H | (x & Hx & _)]; [exact H | inversion Hx]].
  - rewrite IH. split.
    + intros [H | (x & Hx & Hm)].
      * unfold Rmax in H. destruct (Rle_dec v y); [| auto].
        right. exists y. split; [constructor | exact H].
      * right. exists x. split; [constructor; exact Hx | exact Hm].
    + intros [H | (x & Hx & Hm)].
      * left. pose proof (Rmax_l v y). lra.
      * apply elem_of_cons in Hx as [-> | Hx].
        -- left. pose proof (Rmax_r v y). lra.
        -- right. exists x. auto.
Qed.

Lemma max_default_ge (l : list R) (m : R) :
  l <> [] \/ 0 < m ->
  (m <= max_default l <-> exists x, x ∈ l /\ m <= x).
Proof.
  intros H. destruct l as [| v l]; simpl.
  - destruct H as [H | H]; [contradiction |].
    split; [lra | intros (x & Hx & _); inversion Hx].
  - rewrite fold_left_Rmax_ge. split.
    + intros [Hv | (x & Hx & Hm)].
      * exists v. split; [constructor | exact Hv].
      * exists x. split; [constructor; exact Hx | exact Hm].
    + intros (x & Hx & Hm). apply elem_of_cons in Hx as [-> | Hx]; eauto.
Qed.

End ZoneFacts.

Lemma ten_inside_distance (z : NoFlyZoneController.NoFlyZone) :
  NoFlyZoneController.center z = Vec3.zeros ->
  NoFlyZoneController.distance_to NoFlyZoneController.ten_inside z = 40.
Proof.
  intros Hc. unfold NoFlyZoneController.distance_to,
    NoFlyZoneController.ten_inside. rewrite Hc. simpl.
  replace ((40 - 0) * ((40 - 0) * 1) + (0 - 0) * ((0 - 0) * 1))
    with (40 * 40) by ring.
  apply sqrt_square. lra.
Qed.

(** A zone left as [add_zone] creates it is inactive; two updates 3 s
    apart with the position 10 units inside it add nothing to its
    violation total. *)
Lemma C9_counterexample :
  let c := NoFlyZoneController.with_inactive_zone in
  let c1 := fst (NoFlyZoneController.update c
                   NoFlyZoneController.ten_inside 100) in
  let c2 := fst (NoFlyZoneController.update c1
                   NoFlyZoneController.ten_inside 103) in
  (exists z,
      PyDict.get (NoFlyZoneController.zones c) "AD1" = Some z /\
      NoFlyZoneController.strictly_inside NoFlyZoneController.ten_inside z /\
      PyDict.get (NoFlyZoneController.zones c1) "AD1" = Some z /\
      PyDict.get (NoFlyZoneController.zones c2) "AD1" = Some z /\
      NoFlyZoneController.total_violation_time z = 0) /\
  ~ Spec.every_zone_accrues_while_inside.
Proof.
  intros c c1 c2.
  set (z := NoFlyZoneController.mk_zone "AD1" NoFlyZoneController.AIR_DEFENSE
              Vec3.zeros 50 0 false 0 None).
  assert (Hget : PyDict.get (NoFlyZoneController.zones c) "AD1" = Some z)
    by reflexivity.
  assert (Hin : NoFlyZoneController.strictly_inside
                  NoFlyZoneController.ten_inside z).
  { unfold NoFlyZoneController.strictly_inside.
    rewrite ten_inside_distance by reflexivity. simpl. lra. }
  assert (H1 : PyDict.get (NoFlyZoneController.zones c1) "AD1" = Some z).
  { unfold c1. rewrite update_zone, Hget. simpl.
    rewrite checked_inactive by reflexivity. reflexivity. }
  assert (H2 : PyDict.get (NoFlyZoneController.zones c2) "AD1" = Some z).
  { unfold c2. rewrite update_zone, H1. simpl.
    rewrite checked_inactive by reflexivity. reflexivity. }
  split; [exists z; auto |].
  intros H.
  destruct (H c "AD1" z NoFlyZoneController.ten_inside 100 103 Hget Hin)
    as (z1 & z2 & H1' & H2' & Htot).
  fold c1 in H1'. fold c1 c2 in H2'.
  rewrite H1 in H1'. rewrite H2 in H2'.
  injection H1' as <-. injection H2' as <-.
  simpl in Htot. lra.
Qed.

(** C9 (amended).  Violation accounting covers the active zones only.
    For an active zone, while the position is strictly inside its radius,
    the second of two consecutive updates adds the time elapsed since the
    first to the zone's violation total and stamps the check time.  Each
    update adds to the running penalty the time it adds to the zones,
    times the penalty rate.  An update with the position outside an
    active zone clears its last-check stamp, so after re-entry the first
    update inside adds nothing and the next adds only the time since that
    re-entry.  An inactive zone is left as it is.  Provided there is a
    zone or [max_violation_time] is positive, an emergency landing is
    required exactly when the violation total of some zone has reached
    [max_violation_time]. *)
Theorem C9_violation_accounting :
  (forall (c : NoFlyZoneController.t) (id : string)
          (z : NoFlyZoneController.NoFlyZone) (pos : Vec3.t) (t1 t2 : R),
      PyDict.get (NoFlyZoneController.zones c) id = Some z ->
      NoFlyZoneController.is_active z = true ->
      NoFlyZoneController.strictly_inside pos z ->
      let c1 := fst (NoFlyZoneController.update c pos t1) in
      let c2 := fst (NoFlyZoneController.update c1 pos t2) in
      exists z1 z2,
        PyDict.get (NoFlyZoneController.zones c1) id = Some z1 /\
        PyDict.get (NoFlyZoneController.zones c2) id = Some z2 /\
        NoFlyZoneController.last_violation_check z1 = Some t1 /\
        NoFlyZoneController.last_violation_check z2 = Some t2 /\
        NoFlyZoneController.total_violation_time z2
          = NoFlyZoneController.total_violation_time z1 + (t2 - t1)) /\
  (forall (c : NoFlyZoneController.t) (pos : Vec3.t) (now : R),
      let r := NoFlyZoneController.update c pos now in
      NoFlyZoneController.total_penalty_points (fst r)
        = NoFlyZoneController.total_penalty_points c
          + Py.Rsum (map (fun kv =>
                            NoFlyZoneController.accrued pos now (snd kv)
                            * NoFlyZoneController.penalty_points_per_second c)
                       (NoFlyZoneController.zones c)) /\
      NoFlyZoneController.status_total_penalty_points (snd r)
        = NoFlyZoneController.total_penalty_points (fst r)) /\
  (forall (c : NoFlyZoneController.t) (id : string)
          (z : NoFlyZoneController.NoFlyZone) (pos_out pos_in : Vec3.t)
          (t1 t2 t3 : R),
      PyDict.get (NoFlyZoneController.zones c) id = Some z ->
      NoFlyZoneController.is_active z = true ->
      NoFlyZoneController.is_point_in_zone pos_out z = false ->
      NoFlyZoneController.strictly_inside pos_in z ->
      let c1 := fst (NoFlyZoneController.update c pos_out t1) in
      let c2 := fst (NoFlyZoneController.update c1 pos_in t2) in
      let c3 := fst (NoFlyZoneController.update c2 pos_in t3) in
      exists z1 z2 z3,
        PyDict.get (NoFlyZoneController.zones c1) id = Some z1 /\
        PyDict.get (NoFlyZoneController.zones c2) id = Some z2 /\
        PyDict.get (NoFlyZoneController.zones c3) id = Some z3 /\
        NoFlyZoneController.last_violation_check z1 = None /\
        NoFlyZoneController.total_violation_time z1
          = NoFlyZoneController.total_violation_time z /\
        NoFlyZoneController.total_violation_time z2
          = NoFlyZoneController.total_violation_time z /\
        NoFlyZoneController.total_violation_time z3
          = NoFlyZoneController.total_violation_time z + (t3 - t2)) /\
  (forall (c : NoFlyZoneController.t) (id : string)
          (z : NoFlyZoneController.NoFlyZone) (pos : Vec3.t) (now : R),
      PyDict.get (NoFlyZoneController.zones c) id = Some z ->
      NoFlyZoneController.is_active z = false ->
      PyDict.get
        (NoFlyZoneController.zones (fst (NoFlyZoneController.update c pos now)))
        id = Some z) /\
  (forall (c : NoFlyZoneController.t) (pos : Vec3.t) (now : R),
      NoFlyZoneController.zones c <> [] \/
      0 < NoFlyZoneController.max_violation_time c ->
      let r := NoFlyZoneController.update c pos now in
      NoFlyZoneController.emergency_landing_required (snd r) = true <->
      exists id z',
        (id, z') ∈ NoFlyZoneController.zones (fst r) /\
        NoFlyZoneController.max_violation_time c
          <= NoFlyZoneController.total_violation_time z').
Proof.
  split; [| split; [| split; [| split]]].
  - intros c id z pos t1 t2 Hget Ha Hin c1 c2.
    pose proof (strictly_inside_in_zone pos z Hin) as Hz.
    destruct (checked_inside pos t1 z Ha Hz) as (Hl1 & _).
    destruct (checked_static pos t1 z) as (_ & _ & Ha1).
    destruct (checked_geometry pos pos t1 z) as (Hz1 & _).
    destruct (checked_inside pos t2 (NoFlyZoneController.checked pos t1 z))
      as (Hl2 & Ht2); [congruence | congruence |].
    rewrite Hl1 in Ht2.
    exists (NoFlyZoneController.checked pos t1 z),
           (NoFlyZoneController.checked pos t2
              (NoFlyZoneController.checked pos t1 z)).
    unfold c2, c1. rewrite !update_zone, Hget. simpl. auto.
  - intros c pos now r. unfold r.
    destruct (update_penalty c pos now) as (Hp & Hs & _). auto.
  - intros c id z pos_out pos_in t1 t2 t3 Hget Ha Hout Hin c1 c2 c3.
    pose proof (strictly_inside_in_zone pos_in z Hin) as Hz.
    set (z1 := NoFlyZoneController.checked pos_out t1 z).
    set (z2 := NoFlyZoneController.checked pos_in t2 z1).
    set (z3 := NoFlyZoneController.checked pos_in t3 z2).
    destruct (checked_outside pos_out t1 z Ha Hout) as (Hl1 & Ht1).
    destruct (checked_static pos_out t1 z) as (_ & _ & Ha1).
    destruct (checked_geometry pos_out pos_in t1 z) as (Hz1 & _).
    fold z1 in Hl1, Ht1, Ha1, Hz1.
    destruct (checked_inside pos_in t2 z1) as (Hl2 & Ht2);
      [congruence | congruence |].
    rewrite Hl1 in Ht2.
    destruct (checked_static pos_in t2 z1) as (_ & _ & Ha2).
    destruct (checked_geometry pos_in pos_in t2 z1) as (Hz2 & _).
    fold z2 in Hl2, Ht2, Ha2, Hz2.
    destruct (checked_inside pos_in t3 z2) as (_ & Ht3);
      [congruence | congruence |].
    rewrite Hl2 in Ht3. fold z3 in Ht3.
    exists z1, z2, z3.
    unfold c3, c2, c1. rewrite !update_zone, Hget. simpl.
    repeat split; try reflexivity; congruence.
  - intros c id z pos now Hget Ha.
    rewrite update_zone, Hget. simpl.
    rewrite checked_inactive by exact Ha. reflexivity.
  - intros c pos now Hne r. unfold r, NoFlyZoneController.update.
    pose proof (check_zones_zones
                  (NoFlyZoneController.penalty_points_per_second c) pos now
                  (NoFlyZoneController.zones c)
                  (NoFlyZoneController.total_penalty_points c) ∅) as Hz.
    destruct (NoFlyZoneController.check_zones _ _ _ _ _ _)
      as [[zones' pen] viol].
    simpl in *. rewrite Rleb_spec, max_default_ge.
    + unfold PyDict.values. split.
      * intros (x & Hx & Hm).
        apply list_elem_of_fmap in Hx as (z' & -> & Hz').
        apply list_elem_of_fmap in Hz' as ([id z''] & -> & Hin).
        exists id, z''. auto.
      * intros (id & z' & Hin & Hm).
        exists (NoFlyZoneController.total_violation_time z').
        split; [| exact Hm].
        apply list_elem_of_fmap. exists z'. split; [reflexivity |].
        apply list_elem_of_fmap. exists (id, z'). auto.
    + destruct Hne as [Hne | Hpos]; [left | right; exact Hpos].
      rewrite Hz. unfold PyDict.values.
      destruct (NoFlyZoneController.zones c); [contradiction | discriminate].
Qed.

(** Without the proviso the emergency flag can be up with no zone at
    all: with no zones the maximum defaults to 0.0, which reaches a
    [max_violation_time] of 0. *)
Lemma emergency_without_any_zone :
  NoFlyZoneController.emergency_landing_required
    (snd (NoFlyZoneController.update (NoFlyZoneController.init 5 0 3)
            Vec3.zeros 100)) = true.
Proof. simpl. apply Rleb_true. lra. Qed.

(** The accrual scenario of the specification: 10 units inside an active
    zone of radius 50 for 3.0 s at 5 points per second gives a violation
    time of 3 and 15 penalty points. *)
Lemma three_seconds_inside :
  let c1 := fst (NoFlyZoneController.update
                   NoFlyZoneController.with_active_zone
                   NoFlyZoneController.ten_inside 100) in
  let r2 := NoFlyZoneController.update c1
              NoFlyZoneController.ten_inside 103 in
  (NoFlyZoneController.total_violation_time
     <$> PyDict.get (NoFlyZoneController.zones (fst r2)) "AD1") = Some 3 /\
  NoFlyZoneController.status_total_penalty_points (snd r2) = 15.
Proof.
  intros c1 r2.
  set (z := NoFlyZoneController.mk_zone "AD1" NoFlyZoneController.AIR_DEFENSE
              Vec3.zeros 50 1 true 0 None).
  assert (Hzones : NoFlyZoneController.zones
                     NoFlyZoneController.with_active_zone = [("AD1"%string, z)])
    by reflexivity.
  assert (Hin : forall z', NoFlyZoneController.center z' = Vec3.zeros ->
                           NoFlyZoneController.radius z' = 50 ->
                           NoFlyZoneController.is_point_in_zone
                             NoFlyZoneController.ten_inside z' = true).
  { intros z' Hc Hr. unfold NoFlyZoneController.is_point_in_zone.
    rewrite ten_inside_distance, Hr by exact Hc. apply Rleb_true. lra. }
  set (z1 := NoFlyZoneController.checked NoFlyZoneController.ten_inside 100 z).
  destruct (checked_inside NoFlyZoneController.ten_inside 100 z eq_refl
              (Hin z eq_refl eq_refl)) as (Hl1 & Ht1).
  destruct (checked_static NoFlyZoneController.ten_inside 100 z)
    as (Hc1 & Hr1 & Ha1).
  fold z1 in Hl1, Ht1, Hc1, Hr1, Ha1. simpl in Ht1, Hc1, Hr1, Ha1.
  destruct (checked_inside NoFlyZoneController.ten_inside 103 z1 Ha1
              (Hin z1 Hc1 Hr1)) as (_ & Ht2).
  rewrite Hl1, Ht1 in Ht2.
  assert (Hz1 : NoFlyZoneController.zones c1 = [("AD1"%string, z1)]).
  { unfold c1. rewrite update_zones, Hzones. reflexivity. }
  destruct (update_penalty NoFlyZoneController.with_active_zone
              NoFlyZoneController.ten_inside 100) as (Hp1 & _ & Hrate).
  fold c1 in Hp1, Hrate. rewrite Hzones in Hp1.
  unfold Py.Rsum, NoFlyZoneController.accrued in Hp1. simpl in Hp1.
  rewrite (Hin z eq_refl eq_refl) in Hp1. simpl in Hp1.
  split.
  - unfold r2. rewrite update_zone, Hz1. simpl.
    fold z1. rewrite Ht2. f_equal. ring.
  - unfold r2.
    destruct (update_penalty c1 NoFlyZoneController.ten_inside 103)
      as (Hpen & Hst & _).
    rewrite Hst, Hpen, Hp1, Hz1, Hrate.
    unfold Py.Rsum, NoFlyZoneController.accrued. simpl.
    rewrite Ha1, (Hin z1 Hc1 Hr1), Hl1. simpl. ring.
Qed.

Lemma C9_witness :
  let c := NoFlyZoneController.with_active_zone in
  let c1 := fst (NoFlyZoneController.update c
                   NoFlyZoneController.ten_inside 100) in
  let c2 := fst (NoFlyZoneController.update c1
                   NoFlyZoneController.ten_inside 103) in
  exists z1 z2,
    PyDict.get (NoFlyZoneController.zones c1) "AD1" = Some z1 /\
    PyDict.get (NoFlyZoneController.zones c2) "AD1" = Some z2 /\
    NoFlyZoneController.last_violation_check z1 = Some 100 /\
    NoFlyZoneController.last_violation_check z2 = Some 103 /\
    NoFlyZoneController.total_violation_time z2
      = NoFlyZoneController.total_violation_time z1 + (103 - 100).
Proof.
  intros c c1 c2.
  apply (proj1 C9_violation_accounting c "AD1"
           (NoFlyZoneController.mk_zone "AD1" NoFlyZoneController.AIR_DEFENSE
              Vec3.zeros 50 1 true 0 None)).
  - reflexivity.
  - reflexivity.
  - unfold NoFlyZoneController.strictly_inside.
    rewrite ten_inside_distance by reflexivity. simpl. lra.
Defined.

(** * Further properties of the code *)

(** ** Clamping and truncation *)

Lemma clamp_bounds (lo hi x : R) :
  lo <= hi -> lo <= Py.clamp lo hi x <= hi.
Proof.
  intros H. unfold Py.clamp, Rmax, Rmin.
  destruct (Rle_dec hi x); destruct (Rle_dec lo _); lra.
Qed.

Lemma clamp_inside (lo hi x : R) : lo <= x <= hi -> Py.clamp lo hi x = x.
Proof.
  intros H. unfold Py.clamp, Rmax, Rmin.
  destruct (Rle_dec hi x); destruct (Rle_dec lo _); lra.
Qed.

Lemma clamp_below (lo hi x : R) : lo <= hi -> x <= lo -> Py.clamp lo hi x = lo.
Proof.
  intros H Hx. unfold Py.clamp, Rmax, Rmin.
  destruct (Rle_dec hi x); destruct (Rle_dec lo _); lra.
Qed.

Lemma clamp_above (lo hi x : R) : lo <= hi -> hi <= x -> Py.clamp lo hi x = hi.
Proof.
  intros H Hx. unfold Py.clamp, Rmax, Rmin.
  destruct (Rle_dec hi x); destruct (Rle_dec lo _); lra.
Qed.

Lemma clamp_monotone (lo hi x y : R) :
  x <= y -> Py.clamp lo hi x <= Py.clamp lo hi y.
Proof.
  intros H. unfold Py.clamp, Rmin.
  destruct (Rle_dec hi x), (Rle_dec hi y); unfold Rmax;
    repeat match goal with
           | |- context [Rle_dec ?a ?b] => destruct (Rle_dec a b)
           end; lra.
Qed.

Lemma Int_part_bounds (x : R) : IZR (Int_part x) <= x < IZR (Int_part x) + 1.
Proof. destruct (base_Int_part x). lra. Qed.

(** Truncation keeps a float between two integers between them. *)
Lemma to_int_between (a b : Z) (x : R) :
  IZR a <= x <= IZR b -> (a <= Py.to_int x <= b)%Z.
Proof.
  intros [Ha Hb]. unfold Py.to_int.
  destruct (Rle_dec 0 x) as [Hpos | Hneg].
  - pose proof (Int_part_bounds x) as [H1 H2]. split.
    + apply Z.lt_succ_r, lt_IZR. rewrite succ_IZR. lra.
    + apply le_IZR. lra.
  - pose proof (Int_part_bounds (- x)) as [H1 H2]. split.
    + apply le_IZR. rewrite opp_IZR. lra.
    + apply Z.lt_succ_r, lt_IZR. rewrite succ_IZR, opp_IZR. lra.
Qed.

Lemma to_int_IZR (z : Z) : Py.to_int (IZR z) = z.
Proof.
  pose proof (to_int_between z z (IZR z)) as H.
  assert (z <= Py.to_int (IZR z) <= z)%Z by (apply H; lra). lia.
Qed.

Lemma to_int_monotone (x y : R) : x <= y -> (Py.to_int x <= Py.to_int y)%Z.
Proof.
  intros H. unfold Py.to_int.
  pose proof (Int_part_bounds x) as [Hx1 Hx2].
  pose proof (Int_part_bounds y) as [Hy1 Hy2].
  pose proof (Int_part_bounds (- x)) as [Hnx1 Hnx2].
  pose proof (Int_part_bounds (- y)) as [Hny1 Hny2].
  destruct (Rle_dec 0 x) as [Hpx | Hnx]; destruct (Rle_dec 0 y) as [Hpy | Hny].
  - apply Z.lt_succ_r, lt_IZR. rewrite succ_IZR. lra.
  - lra.
  - assert (0 <= Int_part y)%Z
      by (apply Z.lt_succ_r, lt_IZR; rewrite succ_IZR; simpl; lra).
    assert (0 <= Int_part (- x))%Z
      by (apply Z.lt_succ_r, lt_IZR; rewrite succ_IZR; simpl; lra).
    lia.
  - assert (Int_part (- y) <= Int_part (- x))%Z; [| lia].
    apply Z.lt_succ_r, lt_IZR. rewrite succ_IZR. lra.
Qed.

(** ** PID primitive and camera controller *)

Section ControlFacts.

(** [compute] never changes gains or output limits, and its result is 0
    or lies between the limits. *)
Lemma compute_limits (c : PIDController.t) (sp pv : R) (ct : option R)
    (clock : R) :
  let r := PIDController.compute c sp pv ct clock in
  PIDController.min_output (fst r) = PIDController.min_output c /\
  PIDController.max_output (fst r) = PIDController.max_output c /\
  (snd r = 0 \/
   (PIDController.min_output c <= PIDController.max_output c ->
    PIDController.min_output c <= snd r <= PIDController.max_output c)).
Proof.
  unfold PIDController.compute.
  destruct (PIDController.last_time c) as [lt |]; simpl; [| auto].
  destruct (Rle_dec _ 0); simpl; [auto |].
  repeat split; auto. right. intros H.
  apply (clamp_bounds _ _ _ H).
Qed.

Lemma compute_first (c : PIDController.t) (sp pv : R) (ct : option R)
    (clock : R) :
  PIDController.last_time c = None ->
  snd (PIDController.compute c sp pv ct clock) = 0.
Proof.
  intros H. unfold PIDController.compute. rewrite H. reflexivity.
Qed.

End ControlFacts.

(** X1. On a [compute] call with a recorded baseline and a positive time
    step the controller applies the PID law: the error is added to the
    integral weighted by the step (with no limit on the integral), the
    result is the weighted sum of error, integral and error slope clamped
    to the output limits, so it lies between them when they are ordered,
    and the error and the time become the new baseline. *)
Theorem X1_pid_law :
  forall (c : PIDController.t) (sp pv : R) (ct : option R) (clock lt : R),
    PIDController.last_time c = Some lt ->
    let now := match ct with None => clock | Some x => x end in
    0 < now - lt ->
    let r := PIDController.compute c sp pv ct clock in
    let e := sp - pv in
    let i := PIDController.integral c + e * (now - lt) in
    snd r = Py.clamp (PIDController.min_output c) (PIDController.max_output c)
              (PIDController.kp c * e + PIDController.ki c * i
               + PIDController.kd c
                 * ((e - PIDController.previous_error c) / (now - lt))) /\
    (PIDController.min_output c <= PIDController.max_output c ->
     PIDController.min_output c <= snd r <= PIDController.max_output c) /\
    PIDController.integral (fst r) = i /\
    PIDController.previous_error (fst r) = e /\
    PIDController.last_time (fst r) = Some now.
Proof.
  intros c sp pv ct clock lt Hlt now Hdt r e i.
  unfold r, PIDController.compute. rewrite Hlt. fold now.
  destruct (Rle_dec (now - lt) 0) as [Hle | _]; [lra |].
  destruct (Rlt_dec 0 (now - lt)) as [_ | Hn]; [| contradiction].
  simpl. repeat split; try reflexivity; apply clamp_bounds; assumption.
Qed.

Lemma X1_witness :
  let c := PIDController.mk 2 0 0 (-30) 30 0 0 (Some 10) in
  PIDController.last_time c = Some 10 /\
  0 < 11 - 10 /\
  snd (PIDController.compute c 100 0 (Some 11) 0) = 30.
Proof.
  intros c. split; [reflexivity |]. split; [lra |].
  destruct (X1_pid_law c 100 0 (Some 11) 0 10 eq_refl ltac:(simpl; lra))
    as (Hout & _).
  rewrite Hout. simpl. apply clamp_above; lra.
Defined.

(** X2. The first two calls of [calculate_camera_movement] on a new
    camera controller command no motion, wherever the target is: the
    first only records time and position (and reports the target as
    outside the zone), the second is the first call of both PID loops.
    Tracking is off after the first call and on after the second, and the
    accumulated pan and tilt angles are still 0. *)
Theorem X2_camera_first_two_calls :
  forall (w h : Z) (margin pan_rate tilt_rate : R) (debug : bool)
         (p1 p2 : R * R) (ct1 ct2 : option R) (clock1 clock2 : R),
    let c0 := CameraController.init w h margin pan_rate tilt_rate debug in
    let r1 := CameraController.calculate_camera_movement c0 p1 ct1 clock1 in
    let r2 := CameraController.calculate_camera_movement (fst r1) p2 ct2 clock2 in
    (CameraController.pan (snd r1) = 0 /\
     CameraController.tilt (snd r1) = 0 /\
     CameraController.in_zone (snd r1) = false /\
     CameraController.is_tracking (fst r1) = false) /\
    (CameraController.pan (snd r2) = 0 /\
     CameraController.tilt (snd r2) = 0 /\
     CameraController.is_tracking (fst r2) = true /\
     CameraController.current_pan_angle (fst r2) = 0 /\
     CameraController.current_tilt_angle (fst r2) = 0).
Proof.
  intros w h margin pan_rate tilt_rate debug p1 p2 ct1 ct2 clock1 clock2
    c0 r1 r2.
  split; [repeat split |].
  unfold r2, r1, c0, CameraController.calculate_camera_movement,
    CameraController.init. simpl.
  rewrite andb_false_r. simpl.
  repeat split; ring.
Qed.

(** X3. Once the output limits of the two PID loops are the two slew
    rates, as the constructor sets them, they stay so under
    [calculate_camera_movement] and [reset], and every commanded pan and
    tilt rate lies within the slew rate.  While tracking, a target inside
    the centre zone commands no motion and leaves the controller as it
    is. *)
Theorem X3_camera_rates_bounded :
  (forall w h margin pan_rate tilt_rate debug,
      CameraController.rates_tied
        (CameraController.init w h margin pan_rate tilt_rate debug)) /\
  (forall (c : CameraController.t) (p : R * R) (ct : option R) (clock : R),
      CameraController.rates_tied c ->
      0 <= CameraController.max_pan_rate c ->
      0 <= CameraController.max_tilt_rate c ->
      let r := CameraController.calculate_camera_movement c p ct clock in
      CameraController.rates_tied (fst r) /\
      CameraController.rates_tied (CameraController.reset c) /\
      CameraController.max_pan_rate (fst r) = CameraController.max_pan_rate c /\
      CameraController.max_tilt_rate (fst r) = CameraController.max_tilt_rate c /\
      Rabs (CameraController.pan (snd r)) <= CameraController.max_pan_rate c /\
      Rabs (CameraController.tilt (snd r)) <= CameraController.max_tilt_rate c /\
      (CameraController.is_tracking c = true ->
       CameraController.last_update_time c <> None ->
       CameraController.is_target_in_zone c p = true ->
       fst r = c /\
       CameraController.pan (snd r) = 0 /\ CameraController.tilt (snd r) = 0)).
Proof.
  split.
  - intros. unfold CameraController.rates_tied. simpl. auto.
  - intros c p ct clock (Hp1 & Hp2 & Ht1 & Ht2) Hpr Htr r.
    assert (Hreset : CameraController.rates_tied (CameraController.reset c))
      by (unfold CameraController.rates_tied; simpl; auto).
    assert (Hzero_p : Rabs 0 <= CameraController.max_pan_rate c)
      by (rewrite Rabs_R0; exact Hpr).
    assert (Hzero_t : Rabs 0 <= CameraController.max_tilt_rate c)
      by (rewrite Rabs_R0; exact Htr).
    assert (Hdead : CameraController.is_tracking c = true ->
                    CameraController.last_update_time c <> None ->
                    CameraController.is_target_in_zone c p = true ->
                    fst r = c /\
                    CameraController.pan (snd r) = 0 /\
                    CameraController.tilt (snd r) = 0).
    { intros Htrk Hne Hz.
      unfold r, CameraController.calculate_camera_movement.
      destruct (CameraController.last_update_time c); [| contradiction].
      rewrite Hz, Htrk. simpl. auto. }
    assert (Hmain : CameraController.rates_tied (fst r) /\
                    CameraController.max_pan_rate (fst r)
                      = CameraController.max_pan_rate c /\
                    CameraController.max_tilt_rate (fst r)
                      = CameraController.max_tilt_rate c /\
                    Rabs (CameraController.pan (snd r))
                      <= CameraController.max_pan_rate c /\
                    Rabs (CameraController.tilt (snd r))
                      <= CameraController.max_tilt_rate c).
    { unfold r, CameraController.calculate_camera_movement.
      destruct (CameraController.last_update_time c) as [lu |] eqn:Hlu.
      - destruct (CameraController.is_target_in_zone c p
                  && CameraController.is_tracking c) eqn:Hidle.
        + simpl. unfold CameraController.rates_tied. auto 10.
        + set (now := match ct with None => clock | Some x => x end).
          destruct (compute_limits (CameraController.pan_pid c)
                      (CameraController.center_x c) (fst p) (Some now) now)
            as (Hpmin & Hpmax & Hpout).
          destruct (compute_limits (CameraController.tilt_pid c)
                      (CameraController.center_y c) (snd p) (Some now) now)
            as (Htmin & Htmax & Htout).
          destruct (PIDController.compute (CameraController.pan_pid c) _ _ _ _)
            as [pp pr].
          destruct (PIDController.compute (CameraController.tilt_pid c) _ _ _ _)
            as [tp tr].
          simpl in *. unfold CameraController.rates_tied. simpl.
          split; [repeat split; congruence |].
          split; [reflexivity |]. split; [reflexivity |].
          split.
          * destruct Hpout as [-> | Hb]; [exact Hzero_p |].
            apply Rabs_le. rewrite Hp1, Hp2 in Hb. apply Hb. lra.
          * destruct Htout as [-> | Hb]; [exact Hzero_t |].
            apply Rabs_le. rewrite Ht1, Ht2 in Hb. apply Hb. lra.
      - simpl. unfold CameraController.rates_tied. simpl. auto 10. }
    destruct Hmain as (H1 & H2 & H3 & H4 & H5).
    auto 10.
Qed.

Lemma X3_witness :
  let c := CameraController.default in
  CameraController.rates_tied c /\
  Rabs (CameraController.pan
          (snd (CameraController.calculate_camera_movement c (0, 0) None 5)))
    <= 30.
Proof.
  intros c.
  assert (H : CameraController.rates_tied c)
    by apply (proj1 X3_camera_rates_bounded).
  split; [exact H |].
  apply (proj2 X3_camera_rates_bounded c (0, 0) None 5 H);
    unfold c, CameraController.default; simpl; lra.
Defined.

(** ** Servo controller *)

Section ServoFacts.
Import ServoController.

(** The float whose truncation [_angle_to_pulse] returns. *)
Lemma pulse_value_between (a amin amax : R) (pmin pmax : Z) :
  amin < amax ->
  (pmin <= pmax)%Z ->
  amin <= a <= amax ->
  IZR pmin <= IZR pmin + (a - amin) / (amax - amin) * IZR (pmax - pmin)
           <= IZR pmax.
Proof.
  intros Hlt Hp [Ha1 Ha2].
  assert (Hd : 0 < amax - amin) by lra.
  assert (Hn : 0 <= (a - amin) / (amax - amin) <= 1).
  { split.
    - apply Rmult_le_pos; [lra |]. apply Rlt_le, Rinv_0_lt_compat, Hd.
    - apply (Rmult_le_reg_r (amax - amin)); [exact Hd |].
      unfold Rdiv. rewrite Rmult_assoc, Rinv_l by lra. lra. }
  assert (Hw : 0 <= IZR (pmax - pmin)) by (apply IZR_le; lia).
  rewrite minus_IZR in *.
  split; nra.
Qed.

Lemma tick_state (s : t) :
  fst (tick s)
  = with_angles s
      (Py.clamp (pan_angle_min s) (pan_angle_max s)
         (current_pan s + (target_pan s - current_pan s) * (3 / 10)))
      (Py.clamp (tilt_angle_min s) (tilt_angle_max s)
         (current_tilt s + (target_tilt s - current_tilt s) * (3 / 10)))
      (target_pan s) (target_tilt s).
Proof.
  unfold tick.
  repeat match goal with
         | |- context [match ?x with Some _ => _ | None => _ end] => destruct x
         end; reflexivity.
Qed.

(** One pass with everything in range: no clamping takes place. *)
Lemma tick_in_range (s : t) :
  angles_in_range s ->
  angles_in_range (fst (tick s)) /\
  current_pan (fst (tick s))
  = current_pan s + (target_pan s - current_pan s) * (3 / 10) /\
  current_tilt (fst (tick s))
  = current_tilt s + (target_tilt s - current_tilt s) * (3 / 10) /\
  target_pan (fst (tick s)) = target_pan s /\
  target_tilt (fst (tick s)) = target_tilt s.
Proof.
  intros (Hcp & Hct & Htp & Htt). rewrite tick_state.
  unfold angles_in_range. simpl.
  rewrite !clamp_inside by lra.
  repeat split; lra.
Qed.

End ServoFacts.

(** X4. For a non-empty angle range and ordered pulse limits,
    [_angle_to_pulse] always yields a pulse width between the two limits;
    an angle at or below the range gives the minimum pulse and one at or
    above it the maximum; a larger angle never gives a smaller pulse.
    When the two angle limits are equal the call fails with a division by
    zero. *)
Theorem X4_angle_to_pulse :
  (forall (a amin amax : R) (pmin pmax : Z),
      amin < amax ->
      (pmin <= pmax)%Z ->
      exists p,
        ServoController._angle_to_pulse a pmin pmax amin amax = Some p /\
        (pmin <= p <= pmax)%Z /\
        (a <= amin -> p = pmin) /\
        (amax <= a -> p = pmax) /\
        (forall a' p',
            a <= a' ->
            ServoController._angle_to_pulse a' pmin pmax amin amax = Some p' ->
            (p <= p')%Z)) /\
  (forall (a amin : R) (pmin pmax : Z),
      ServoController._angle_to_pulse a pmin pmax amin amin = None).
Proof.
  split.
  - intros a amin amax pmin pmax Hlt Hp.
    unfold ServoController._angle_to_pulse.
    destruct (Req_dec_T (amax - amin) 0) as [He | _]; [lra |].
    eexists. split; [reflexivity |].
    pose proof (clamp_bounds amin amax a (Rlt_le _ _ Hlt)) as Hc.
    split; [| split; [| split]].
    + apply to_int_between. apply pulse_value_between; assumption.
    + intros Ha. rewrite clamp_below by lra.
      replace (IZR pmin + (amin - amin) / (amax - amin) * IZR (pmax - pmin))
        with (IZR pmin) by (unfold Rdiv; ring).
      apply to_int_IZR.
    + intros Ha. rewrite clamp_above by lra.
      replace (IZR pmin + (amax - amin) / (amax - amin) * IZR (pmax - pmin))
        with (IZR pmax)
        by (rewrite minus_IZR; field; lra).
      apply to_int_IZR.
    + intros a' p' Ha' [= <-].
      apply to_int_monotone.
      pose proof (clamp_monotone amin amax a a' Ha') as Hm.
      assert (Hw : 0 <= IZR (pmax - pmin)) by (apply IZR_le; lia).
      assert (Hd : 0 < / (amax - amin)) by (apply Rinv_0_lt_compat; lra).
      apply Rplus_le_compat_l, Rmult_le_compat_r; [exact Hw |].
      unfold Rdiv. apply Rmult_le_compat_r; lra.
  - intros a amin pmin pmax. unfold ServoController._angle_to_pulse.
    destruct (Req_dec_T (amin - amin) 0) as [_ | Hn]; [reflexivity |].
    contradiction Hn. ring.
Qed.

Lemma X4_witness :
  exists p,
    ServoController._angle_to_pulse 120 500 2500 (-90) 90 = Some p /\
    (500 <= p <= 2500)%Z /\ p = 2500%Z.
Proof.
  destruct (proj1 X4_angle_to_pulse 120 (-90) 90 500%Z 2500%Z
              ltac:(lra) ltac:(lia)) as (p & Hp & Hb & _ & Hhi & _).
  exists p. split; [exact Hp |]. split; [exact Hb |]. apply Hhi. lra.
Defined.

(** X5. With ordered angle limits, [set_angles] always leaves both
    target angles inside their ranges (a request inside the range is
    stored as it is, one outside is moved to the nearer limit),
    [update_from_tracking] does nothing unless both angles are given, and
    every pass of the servo loop leaves both current angles inside their
    ranges, whatever they were, without touching the targets or the
    limits. *)
Theorem X5_servo_angles_stay_in_range :
  forall s : ServoController.t,
    ServoController.ranges_ok s ->
    (forall pan tilt : R,
        let s' := ServoController.set_angles s pan tilt in
        ServoController.pan_angle_min s <= ServoController.target_pan s'
          <= ServoController.pan_angle_max s /\
        ServoController.tilt_angle_min s <= ServoController.target_tilt s'
          <= ServoController.tilt_angle_max s /\
        (ServoController.pan_angle_min s <= pan
           <= ServoController.pan_angle_max s ->
         ServoController.target_pan s' = pan) /\
        (ServoController.tilt_angle_min s <= tilt
           <= ServoController.tilt_angle_max s ->
         ServoController.target_tilt s' = tilt) /\
        ServoController.update_from_tracking s (Some pan) (Some tilt) = s' /\
        ServoController.update_from_tracking s (Some pan) None = s /\
        ServoController.update_from_tracking s None (Some tilt) = s) /\
    (let s' := fst (ServoController.tick s) in
     ServoController.pan_angle_min s <= ServoController.current_pan s'
       <= ServoController.pan_angle_max s /\
     ServoController.tilt_angle_min s <= ServoController.current_tilt s'
       <= ServoController.tilt_angle_max s /\
     ServoController.target_pan s' = ServoController.target_pan s /\
     ServoController.target_tilt s' = ServoController.target_tilt s /\
     ServoController.ranges_ok s').
Proof.
  intros s [Hp Ht]. split.
  - intros pan tilt s'. unfold s', ServoController.set_angles. simpl.
    split; [apply clamp_bounds; exact Hp |].
    split; [apply clamp_bounds; exact Ht |].
    split; [intros H; apply clamp_inside; exact H |].
    split; [intros H; apply clamp_inside; exact H |].
    auto.
  - cbv zeta. rewrite tick_state. simpl.
    split; [apply clamp_bounds; exact Hp |].
    split; [apply clamp_bounds; exact Ht |].
    unfold ServoController.ranges_ok. simpl. auto.
Qed.

Lemma X5_witness :
  let s := ServoController.default in
  ServoController.ranges_ok s /\
  ServoController.target_pan (ServoController.set_angles s 200 10) = 90 /\
  ServoController.target_tilt (ServoController.set_angles s 200 10) = 10.
Proof.
  intros s.
  assert (H : ServoController.ranges_ok s)
    by (unfold ServoController.ranges_ok; simpl; lra).
  split; [exact H |].
  destruct (proj1 (X5_servo_angles_stay_in_range s H) 200 10)
    as (_ & _ & _ & Htilt & _).
  split.
  - unfold ServoController.set_angles. simpl. apply clamp_above; lra.
  - apply Htilt. simpl. lra.
Defined.

(** X6. With current and target angles inside their ranges, each pass of
    the servo loop moves the current angle 30% of the way to the target:
    after [n] passes with the targets held, the remaining pan and tilt
    errors are the initial ones times 0.7 to the power [n], and all
    angles are still inside their ranges. *)
Theorem X6_servo_smoothing :
  forall (s : ServoController.t) (n : nat),
    ServoController.angles_in_range s ->
    let s' := ServoController.ticks n s in
    ServoController.target_pan s' - ServoController.current_pan s'
      = (7 / 10) ^ n
        * (ServoController.target_pan s - ServoController.current_pan s) /\
    ServoController.target_tilt s' - ServoController.current_tilt s'
      = (7 / 10) ^ n
        * (ServoController.target_tilt s - ServoController.current_tilt s) /\
    ServoController.target_pan s' = ServoController.target_pan s /\
    ServoController.target_tilt s' = ServoController.target_tilt s /\
    ServoController.angles_in_range s'.
Proof.
  intros s n. revert s.
  induction n as [| n IH]; intros s Hin; simpl.
  - repeat split; try ring; apply Hin.
  - destruct (tick_in_range s Hin) as (Hin' & Hcp & Hct & Htp & Htt).
    destruct (IH _ Hin') as (H1 & H2 & H3 & H4 & H5).
    split; [rewrite H1, Hcp, Htp; field |].
    split; [rewrite H2, Hct, Htt; field |].
    split; [rewrite H3; exact Htp |].
    split; [rewrite H4; exact Htt |].
    exact H5.
Qed.

Lemma X6_witness :
  let s := ServoController.set_angles ServoController.default 40 (-20) in
  ServoController.angles_in_range s /\
  ServoController.target_pan (ServoController.ticks 2 s)
    - ServoController.current_pan (ServoController.ticks 2 s)
  = (7 / 10) ^ 2 * (40 - 0).
Proof.
  intros s.
  assert (Htp : ServoController.target_pan s = 40)
    by (unfold s, ServoController.set_angles; simpl; apply clamp_inside; lra).
  assert (Htt : ServoController.target_tilt s = -20)
    by (unfold s, ServoController.set_angles; simpl; apply clamp_inside; lra).
  assert (H : ServoController.angles_in_range s).
  { unfold ServoController.angles_in_range. rewrite Htp, Htt.
    unfold s. simpl. lra. }
  split; [exact H |].
  destruct (X6_servo_smoothing s 2 H) as (H1 & _).
  rewrite H1, Htp. reflexivity.
Defined.

(** ** Mission state machine and command processor *)

Section MissionFacts.
Import MissionController.

Lemma last_tl_snoc {A : Type} (h : list A) (e : A) :
  h <> [] -> last (tl (h ++ [e])) = Some e.
Proof.
  destruct h as [| a h]; [contradiction |]. intros _. simpl. apply last_snoc.
Qed.

(** What [update_state] does to the history. *)
Lemma update_state_history (mc : t) (s : MissionState) (clock : R) :
  let mc' := update_state mc s clock in
  (Z.of_nat (length (state_history mc)) <= 100 ->
   Z.of_nat (length (state_history mc')) <= 100)%Z /\
  current_state mc' = s /\
  mission_data mc' = mission_data mc /\
  (s = current_state mc -> mc' = mc) /\
  (s <> current_state mc ->
   previous_state mc' = Some (current_state mc) /\
   state_change_time mc' = clock /\
   last (state_history mc')
   = Some (mk_state_info s clock (Some (current_state mc)))).
Proof.
  unfold update_state.
  destruct (decide (s = current_state mc)) as [-> | Hne]; simpl.
  - split; [auto |]. split; [reflexivity |]. split; [reflexivity |].
    split; [reflexivity |]. intros Hn. contradiction Hn. reflexivity.
  - split; [| split; [reflexivity | split; [reflexivity | split]]].
    + intros Hlen.
      destruct (Z.ltb_spec 100
                  (Z.of_nat (length (state_history mc
                     ++ [mk_state_info s clock (Some (current_state mc))]))))
        as [Hcap | Hok]; [| exact Hok].
      destruct (state_history mc) as [| a h]; simpl in *; [lia |].
      rewrite length_app in *; simpl in *. lia.
    + intros He. contradiction.
    + intros _. split; [reflexivity |]. split; [reflexivity |].
      destruct (Z.ltb_spec 100
                  (Z.of_nat (length (state_history mc
                     ++ [mk_state_info s clock (Some (current_state mc))]))))
        as [Hcap | Hok]; [| apply last_snoc].
      apply last_tl_snoc. intros E. rewrite E in Hcap. simpl in Hcap. lia.
Qed.

Lemma fold_insert_lookup (params : PyDict.t string Py.value) :
  forall (m : gmap string Py.value) (k : string),
    NoDup (PyDict.keys params) ->
    fold_left (fun m kv => <[fst kv := snd kv]> m) params m !! k
    = match PyDict.get params k with
      | Some v => Some v
      | None => m !! k
      end.
Proof.
  induction params as [| [k0 v0] rest IH]; intros m k Hnd; simpl;
    [reflexivity |].
  apply NoDup_cons in Hnd as [Hk0 Hnd].
  rewrite IH by exact Hnd.
  destruct (decide (k0 = k)) as [-> | Hne].
  - assert (Hrest : PyDict.get rest k = None).
    { clear -Hk0. induction rest as [| [k1 v1] rest IH]; simpl; [reflexivity |].
      simpl in Hk0. apply not_elem_of_cons in Hk0 as [Hne Hk0].
      rewrite decide_False by congruence. auto. }
    rewrite Hrest. apply lookup_insert_eq.
  - destruct (PyDict.get rest k); [reflexivity |].
    apply lookup_insert_ne. exact Hne.
Qed.

End MissionFacts.

(** X7. [process_command] keeps the transition history within 100
    entries.  When it changes the state, the previous state and the
    change time are recorded and the newest history entry is the new
    state with the clock reading and the state left; when the state stays
    the same (a rejected command, MISSION_UPDATE, STATUS_REQUEST, or
    ESCAPE while already ESCAPING) the history, the previous state and
    the change time are untouched. *)
Theorem X7_transition_history :
  forall (mc : MissionController.t) (ci : QRProcessor.command_info) (clock : R),
    let mc' := fst (MissionController.process_command mc ci clock) in
    ((Z.of_nat (length (MissionController.state_history mc)) <= 100)%Z ->
     (Z.of_nat (length (MissionController.state_history mc')) <= 100)%Z) /\
    (MissionController.current_state mc' <> MissionController.current_state mc ->
     MissionController.previous_state mc'
       = Some (MissionController.current_state mc) /\
     MissionController.state_change_time mc' = clock /\
     last (MissionController.state_history mc')
       = Some (MissionController.mk_state_info
                 (MissionController.current_state mc') clock
                 (Some (MissionController.current_state mc)))) /\
    (MissionController.current_state mc' = MissionController.current_state mc ->
     MissionController.state_history mc' = MissionController.state_history mc /\
     MissionController.previous_state mc' = MissionController.previous_state mc /\
     MissionController.state_change_time mc'
       = MissionController.state_change_time mc).
Proof.
  intros mc ci clock mc'.
  assert (Hcases :
            mc' = mc \/
            mc' = MissionController.merge_data mc (QRProcessor.parameters ci) \/
            exists s key v,
              mc' = MissionController.set_data
                      (MissionController.update_state mc s clock) key v).
  { unfold mc', MissionController.process_command.
    destruct (QRProcessor.type ci);
      repeat match goal with
             | |- context [if ?b then _ else _] => destruct b
             end; simpl; eauto 10. }
  destruct Hcases as [-> | [-> | (s & key & v & ->)]].
  - split; [auto |]. split; [intros Hn; contradiction Hn; reflexivity |].
    auto.
  - simpl. split; [auto |].
    split; [intros Hn; contradiction Hn; reflexivity |]. auto.
  - destruct (update_state_history mc s clock)
      as (Hlen & Hcur & _ & Hsame & Hdiff).
    simpl. rewrite Hcur. split; [exact Hlen |]. split.
    + intros Hne. apply Hdiff. exact Hne.
    + intros He. rewrite (Hsame He). auto.
Qed.

Lemma X7_witness :
  let mc := MissionController.mk MissionController.TRACKING
              (Some MissionController.SEARCHING) 1 ∅ [] in
  let ci := QRProcessor.mk_info QRProcessor.KAMIKAZE 2
              (QRProcessor.create_qr_command QRProcessor.KAMIKAZE None) [] in
  let mc' := fst (MissionController.process_command mc ci 3) in
  (Z.of_nat (length (MissionController.state_history mc)) <= 100)%Z /\
  (Z.of_nat (length (MissionController.state_history mc')) <= 100)%Z /\
  last (MissionController.state_history mc')
    = Some (MissionController.mk_state_info MissionController.KAMIKAZE 3
              (Some MissionController.TRACKING)).
Proof.
  intros mc ci mc'.
  destruct (X7_transition_history mc ci 3) as (Hlen & Hdiff & _).
  split; [simpl; lia |]. split; [apply Hlen; simpl; lia |].
  apply Hdiff. discriminate.
Defined.

(** X8. What the commands write to the mission data.  An accepted
    KAMIKAZE, LOCK or ESCAPE stores its parameter ([target_id],
    [target_id], [direction]) under [kamikaze_target], [lock_target] or
    [escape_direction], storing [None] when the parameter is absent, and
    leaves every other key alone.  MISSION_UPDATE always succeeds without
    touching the state: afterwards every key of the parameters maps to
    its parameter value and every other key to what it held before. *)
Theorem X8_mission_data :
  forall (mc : MissionController.t) (ci : QRProcessor.command_info) (clock : R),
    let r := MissionController.process_command mc ci clock in
    let data := MissionController.mission_data (fst r) in
    let params := QRProcessor.parameters ci in
    (snd r = true ->
     match QRProcessor.type ci with
     | QRProcessor.KAMIKAZE =>
         data = <["kamikaze_target" :=
                    default Py.VNone (PyDict.get params "target_id")]>
                  (MissionController.mission_data mc)
     | QRProcessor.LOCK =>
         data = <["lock_target" :=
                    default Py.VNone (PyDict.get params "target_id")]>
                  (MissionController.mission_data mc)
     | QRProcessor.ESCAPE =>
         data = <["escape_direction" :=
                    default Py.VNone (PyDict.get params "direction")]>
                  (MissionController.mission_data mc)
     | QRProcessor.MISSION_UPDATE =>
         MissionController.current_state (fst r)
           = MissionController.current_state mc /\
         (NoDup (PyDict.keys params) ->
          forall k,
            data !! k = match PyDict.get params k with
                        | Some v => Some v
                        | None => MissionController.mission_data mc !! k
                        end)
     | QRProcessor.STATUS_REQUEST => fst r = mc
     end) /\
    (QRProcessor.type ci = QRProcessor.MISSION_UPDATE -> snd r = true) /\
    (snd r = false -> data = MissionController.mission_data mc).
Proof.
  intros mc ci clock r data params.
  unfold data, r, params, MissionController.process_command.
  assert (Hdata : forall s, MissionController.mission_data
                              (MissionController.update_state mc s clock)
                            = MissionController.mission_data mc)
    by (intros s; apply (update_state_history mc s clock)).
  split; [| split].
  - destruct (QRProcessor.type ci);
      repeat match goal with
             | |- context [if ?b then _ else _] => destruct b
             end; simpl; try discriminate; intros _;
      rewrite ?Hdata; try reflexivity.
    split; [reflexivity |]. intros Hnd k. apply fold_insert_lookup. exact Hnd.
  - intros ->. reflexivity.
  - destruct (QRProcessor.type ci);
      repeat match goal with
             | |- context [if ?b then _ else _] => destruct b
             end; simpl; try discriminate; reflexivity.
Qed.

Lemma X8_witness :
  let mc := MissionController.init 0 in
  let params := [("area"%string, Py.VStr "NORTH"); ("speed"%string, Py.VInt 3)] in
  let ci := QRProcessor.mk_info QRProcessor.MISSION_UPDATE 2
              (QRProcessor.create_qr_command QRProcessor.MISSION_UPDATE
                 (Some params)) params in
  let r := MissionController.process_command mc ci 3 in
  snd r = true /\
  NoDup (PyDict.keys params) /\
  MissionController.mission_data (fst r) !! "speed"%string = Some (Py.VInt 3).
Proof.
  intros mc params ci r.
  assert (Hnd : NoDup (PyDict.keys params))
    by (repeat constructor; set_solver).
  split; [reflexivity |]. split; [exact Hnd |].
  destruct (X8_mission_data mc ci 3) as (H & _).
  destruct (H eq_refl) as (_ & Hk).
  rewrite (Hk Hnd). reflexivity.
Defined.

Section ProcessorFacts.
Import QRProcessor.

(** The cooldown test, spelled out. *)
Lemma in_cooldown_spec (p : t) (c : QRCommand) (now : R) :
  in_cooldown p c now = true <->
  exists t0,
    last_command p = Some c /\ last_command_time p = Some t0 /\
    t0 <> 0 /\ now - t0 < command_cooldown p.
Proof.
  unfold in_cooldown. split.
  - destruct (last_command p) as [lc |]; [| discriminate].
    destruct (decide (lc = c)) as [-> | _]; [| discriminate].
    destruct (last_command_time p) as [t0 |]; [| discriminate].
    rewrite andb_true_iff, Rltb_spec. intros [Ht Hlt].
    exists t0. repeat split; auto.
    intros ->. rewrite truthy_float_zero in Ht. discriminate.
  - intros (t0 & -> & -> & Hnz & Hlt).
    rewrite decide_True by reflexivity.
    rewrite truthy_float_nonzero by exact Hnz.
    rewrite Rltb_true by exact Hlt. reflexivity.
Qed.

(** A payload with a recognised command outside the cooldown. *)
Lemma process_qr_data_accepts (p : t) (data : qr_object) (c : QRCommand)
    (clock : R) :
  payload_command (Loaded data) = Some c ->
  in_cooldown p c clock = false ->
  process_qr_data p (Loaded data) clock
  = (mk (Some c) (Some clock)
        (push_history (command_history p)
           (mk_info c clock data (default [] (parameters_member data))))
        (command_cooldown p),
     Py.Returns
       (Some (mk_info c clock data (default [] (parameters_member data))))).
Proof.
  unfold payload_command, process_qr_data.
  destruct (command data) as [v |]; [| discriminate].
  intros -> ->. reflexivity.
Qed.

Lemma push_history_bounded (h : list command_info) (info : command_info) :
  (Z.of_nat (length h) <= 50)%Z ->
  (Z.of_nat (length (push_history h info)) <= 50)%Z /\
  last (push_history h info) = Some info.
Proof.
  intros Hlen. unfold push_history.
  destruct (Z.ltb_spec 50 (Z.of_nat (length (h ++ [info])))) as [Hcap | Hok].
  - rewrite length_app in Hcap; simpl in Hcap.
    destruct h as [| a h]; simpl in *; [lia |].
    rewrite length_app; simpl. split; [lia | apply last_snoc].
  - split; [exact Hok | apply last_snoc].
Qed.

End ProcessorFacts.



(** X10. A command built by [create_qr_command] is read back by a
    processor that has no last command (a new one, or one after
    [clear_history]): it is returned with the same type and parameters
    (an empty dictionary when none were given) and with the clock reading
    as its time stamp. *)
Theorem X10_command_round_trip :
  forall (p : QRProcessor.t) (c : QRProcessor.QRCommand)
         (params : option (PyDict.t string Py.value)) (clock : R),
    QRProcessor.last_command p = None ->
    exists info,
      snd (QRProcessor.process_qr_data p
             (QRProcessor.Loaded (QRProcessor.create_qr_command c params)) clock)
        = Py.Returns (Some info) /\
      QRProcessor.type info = c /\
      QRProcessor.parameters info = default [] params /\
      QRProcessor.timestamp info = clock /\
      QRProcessor.raw_data info = QRProcessor.create_qr_command c params.
Proof.
  intros p c params clock Hlast.
  rewrite (process_qr_data_accepts p _ c clock).
  - eexists. split; [reflexivity |]. simpl. auto.
  - simpl. apply QRCommand_of_value_value.
  - unfold QRProcessor.in_cooldown. rewrite Hlast. reflexivity.
Qed.

Lemma X10_witness :
  exists info,
    snd (QRProcessor.process_qr_data
           (QRProcessor.clear_history QRProcessor.init)
           (QRProcessor.Loaded
              (QRProcessor.create_qr_command QRProcessor.ESCAPE
                 (Some [("direction"%string, Py.VStr "WEST")]))) 9)
      = Py.Returns (Some info) /\
    QRProcessor.type info = QRProcessor.ESCAPE /\
    QRProcessor.parameters info = [("direction"%string, Py.VStr "WEST")].
Proof.
  destruct (X10_command_round_trip (QRProcessor.clear_history QRProcessor.init)
              QRProcessor.ESCAPE (Some [("direction"%string, Py.VStr "WEST")])
              9 eq_refl) as (info & H1 & H2 & H3 & _).
  exists info. auto.
Defined.

(** X11. After a command has been accepted at a nonzero time, a payload
    with a recognised command is accepted exactly when its command
    differs from the accepted one or at least the cooldown has passed
    since that acceptance; [clear_history] lifts the cooldown at once. *)
Theorem X11_cooldown_expiry :
  forall (p : QRProcessor.t) (x : QRProcessor.loaded) (t0 : R)
         (info : QRProcessor.command_info)
         (y : QRProcessor.loaded) (c : QRProcessor.QRCommand) (t : R),
    snd (QRProcessor.process_qr_data p x t0) = Py.Returns (Some info) ->
    t0 <> 0 ->
    QRProcessor.payload_command y = Some c ->
    let p1 := fst (QRProcessor.process_qr_data p x t0) in
    ((exists info', snd (QRProcessor.process_qr_data p1 y t)
                    = Py.Returns (Some info')) <->
     c <> QRProcessor.type info \/ QRProcessor.command_cooldown p <= t - t0) /\
    exists info',
      snd (QRProcessor.process_qr_data (QRProcessor.clear_history p1) y t)
      = Py.Returns (Some info').
Proof.
  intros p x t0 info y c t Hacc Hnz Hy p1.
  destruct (process_qr_data_accepted p x t0 info Hacc)
    as (Hlc & Hlt & Hcd & _ & _).
  fold p1 in Hlc, Hlt, Hcd.
  destruct y as [| data | w]; [discriminate | | discriminate].
  split.
  - destruct (QRProcessor.in_cooldown p1 c t) eqn:E.
    + apply in_cooldown_spec in E as (t0' & H1 & H2 & H3 & H4).
      assert (c = QRProcessor.type info) by congruence.
      assert (t0' = t0) by congruence. subst t0'.
      split.
      * unfold QRProcessor.process_qr_data, QRProcessor.payload_command in *.
        destruct (QRProcessor.command data) as [v |]; [| discriminate].
        rewrite Hy.
        assert (Hc : QRProcessor.in_cooldown p1 c t = true)
          by (apply in_cooldown_spec; exists t0; auto).
        rewrite Hc. simpl. intros [info' Hn]. discriminate.
      * intros [Hne | Hge]; [contradiction |]. rewrite Hcd in H4. lra.
    + rewrite (process_qr_data_accepts p1 data c t Hy E). simpl.
      split; [| intros _; eexists; reflexivity]. intros _.
      destruct (decide (c = QRProcessor.type info)) as [-> | Hne];
        [| left; exact Hne].
      right. destruct (Rle_dec (QRProcessor.command_cooldown p) (t - t0))
        as [Hle | Hgt]; [exact Hle |].
      assert (QRProcessor.in_cooldown p1 (QRProcessor.type info) t = true).
      { apply in_cooldown_spec. exists t0. rewrite Hcd. repeat split; auto. lra. }
      congruence.
  - rewrite (process_qr_data_accepts _ data c t Hy);
      [eexists; reflexivity | reflexivity].
Qed.

Lemma X11_witness :
  let p1 := fst (QRProcessor.process_qr_data QRProcessor.init
                   Spec.kamikaze_payload 100) in
  exists info',
    snd (QRProcessor.process_qr_data p1 Spec.kamikaze_payload 102)
    = Py.Returns (Some info').
Proof.
  intros p1.
  apply (proj1 (X11_cooldown_expiry QRProcessor.init Spec.kamikaze_payload 100
                  (QRProcessor.mk_info QRProcessor.KAMIKAZE 100
                     (QRProcessor.create_qr_command QRProcessor.KAMIKAZE None)
                     [])
                  Spec.kamikaze_payload QRProcessor.KAMIKAZE 102
                  eq_refl ltac:(lra) eq_refl)).
  right. simpl. lra.
Defined.

(** X12. Over any run of payloads the command history never grows
    beyond 50 entries; each accepted command is the newest entry of the
    history right after it is accepted. *)
Theorem X12_command_history :
  forall (p : QRProcessor.t) (inputs : list (QRProcessor.loaded * R)),
    (Z.of_nat (length (QRProcessor.command_history p)) <= 50)%Z ->
    (Z.of_nat (length (QRProcessor.get_command_history
                         (fst (QRProcessor.run p inputs)))) <= 50)%Z /\
    (forall qr clock info,
        snd (QRProcessor.process_qr_data p qr clock) = Py.Returns (Some info) ->
        last (QRProcessor.get_command_history
                (fst (QRProcessor.process_qr_data p qr clock))) = Some info).
Proof.
  intros p inputs Hlen.
  assert (Hstep : forall p qr clock,
             (Z.of_nat (length (QRProcessor.command_history p)) <= 50)%Z ->
             (Z.of_nat (length (QRProcessor.command_history
                                  (fst (QRProcessor.process_qr_data p qr clock))))
              <= 50)%Z /\
             (forall info,
                 snd (QRProcessor.process_qr_data p qr clock)
                 = Py.Returns (Some info) ->
                 last (QRProcessor.command_history
                         (fst (QRProcessor.process_qr_data p qr clock)))
                 = Some info)).
  { clear. intros p qr clock Hlen. unfold QRProcessor.process_qr_data.
    destruct qr as [| data | w];
      [split; [exact Hlen | discriminate] |
      | destruct (QRProcessor.has_command_member w) as [[|] |];
        (split; [exact Hlen | discriminate])].
    destruct (QRProcessor.command data) as [v |];
      [| split; [exact Hlen | discriminate]].
    destruct (QRProcessor.QRCommand_of_value v) as [c |];
      [| split; [exact Hlen | discriminate]].
    destruct (QRProcessor.in_cooldown p c clock);
      [split; [exact Hlen | discriminate] |].
    simpl.
    destruct (push_history_bounded (QRProcessor.command_history p)
                (QRProcessor.mk_info c clock data
                   (default [] (QRProcessor.parameters_member data))) Hlen)
      as (H1 & H2).
    split; [exact H1 |]. intros info [= <-]. exact H2. }
  split.
  - unfold QRProcessor.get_command_history.
    revert p Hlen. induction inputs as [| [qr clock] rest IH]; intros p Hlen.
    + exact Hlen.
    + simpl. destruct (Hstep p qr clock Hlen) as (H1 & _).
      destruct (QRProcessor.process_qr_data p qr clock) as [p1 out].
      specialize (IH p1 H1).
      destruct (QRProcessor.run p1 rest) as [p2 outs]. exact IH.
  - intros qr clock info. apply (Hstep p qr clock Hlen).
Qed.

Lemma X12_witness :
  (Z.of_nat (length (QRProcessor.command_history QRProcessor.init)) <= 50)%Z /\
  (Z.of_nat (length (QRProcessor.get_command_history
                       (fst (QRProcessor.run QRProcessor.init
                               [(Spec.kamikaze_payload, 100%R);
                                (Spec.escape_payload, 101%R)])))) <= 50)%Z.
Proof.
  split; [simpl; lia |].
  apply (X12_command_history QRProcessor.init). simpl. lia.
Defined.

(** ** Mission priority manager *)

Section SchedulerFacts.
Import MissionTypes MissionManager.

(** [max] with a key returns the first element that no other element
    beats. *)
Lemma max_by_spec {A : Type} (key : A -> Z) (l : list A) :
  forall best : A,
    exists l1 l2,
      best :: l = l1 ++ max_by key best l :: l2 /\
      (forall x, x ∈ l1 -> (key x < key (max_by key best l))%Z) /\
      (forall x, x ∈ l2 -> (key x <= key (max_by key best l))%Z).
Proof.
  induction l as [| y l IH]; intros best; simpl.
  - exists [], []. repeat split; intros x Hx; inversion Hx.
  - destruct (Z.ltb_spec (key best) (key y)) as [Hlt | Hge].
    + destruct (IH y) as (l1 & l2 & Heq & H1 & H2).
      assert (Hy : (key y <= key (max_by key y l))%Z).
      { destruct l1 as [| z l1]; simpl in Heq; injection Heq as Hz _.
        - rewrite <- Hz. lia.
        - subst z. specialize (H1 y). apply Z.lt_le_incl, H1. constructor. }
      exists (best :: l1), l2. split; [simpl; f_equal; exact Heq |].
      split; [| exact H2].
      intros x Hx. apply elem_of_cons in Hx as [-> | Hx]; [lia | auto].
    + destruct (IH best) as (l1 & l2 & Heq & H1 & H2).
      destruct l1 as [| z l1]; simpl in Heq; injection Heq as Hz Hl.
      * exists [], (y :: l2).
        split; [simpl; rewrite <- Hz; do 2 f_equal; exact Hl |].
        split; [intros x Hx; inversion Hx |].
        intros x Hx. apply elem_of_cons in Hx as [-> | Hx]; [| auto].
        rewrite <- Hz. exact Hge.
      * subst z. exists (best :: y :: l1), l2.
        split; [simpl; do 2 f_equal; exact Hl |].
        split; [| exact H2].
        assert (Hb : (key best < key (max_by key best l))%Z)
          by (apply H1; constructor).
        intros x Hx. apply elem_of_cons in Hx as [-> | Hx]; [exact Hb |].
        apply elem_of_cons in Hx as [-> | Hx]; [lia |].
        apply H1. constructor. exact Hx.
Qed.

Lemma PyDict_get_set_eq {V : Type} (d : PyDict.t string V) (k : string) (v : V) :
  PyDict.get (PyDict.set d k v) k = Some v.
Proof.
  induction d as [| [k' v'] d IH]; simpl.
  - rewrite decide_True by reflexivity. reflexivity.
  - destruct (decide (k' = k)) as [-> | Hne]; simpl.
    + rewrite decide_True by reflexivity. reflexivity.
    + rewrite decide_False by exact Hne. exact IH.
Qed.

Lemma PyDict_get_set_ne {V : Type} (d : PyDict.t string V) (k k0 : string)
    (v : V) :
  k <> k0 -> PyDict.get (PyDict.set d k v) k0 = PyDict.get d k0.
Proof.
  intros Hne. induction d as [| [k' v'] d IH]; simpl.
  - rewrite decide_False by exact Hne. reflexivity.
  - destruct (decide (k' = k)) as [-> | Hne']; simpl.
    + rewrite !decide_False by exact Hne. reflexivity.
    + destruct (decide (k' = k0)); [reflexivity | exact IH].
Qed.

Lemma filter_length_le {A : Type} (f : A -> bool) (l : list A) :
  (length (List.filter f l) <= length l)%nat.
Proof.
  induction l as [| a l IH]; simpl; [lia |].
  destruct (f a); simpl; lia.
Qed.

Lemma status_counts_le (m : t) (l : list nat) :
  (length (List.filter (has_status m COMPLETED) l)
   + length (List.filter (has_status m FAILED) l)
   + length (List.filter (has_status m INTERRUPTED) l) <= length l)%nat.
Proof.
  induction l as [| r l IH]; simpl; [lia |].
  assert (Hr : forall st, has_status m st r = true ->
                 exists x, heap m !! r = Some x /\ status x = st).
  { intros st. unfold has_status. destruct (heap m !! r) as [x |]; [| done].
    intros H. apply bool_decide_eq_true in H. eauto. }
  destruct (has_status m COMPLETED r) eqn:Ec;
    destruct (has_status m FAILED r) eqn:Ef;
    destruct (has_status m INTERRUPTED r) eqn:Ei; simpl; try lia;
    repeat match goal with
           | H : has_status m _ r = true |- _ =>
               apply Hr in H; destruct H as (? & ? & ?)
           end; congruence.
Qed.

Lemma highest_value_of (self : t) :
  get_highest_priority_mission self
  = match List.filter (has_status self PENDING)
            (PyDict.values (active_missions self)) with
    | [] => None
    | r :: rest => Some (max_by (value_of self) r rest)
    end.
Proof. reflexivity. Qed.

Lemma has_status_lookup (self : t) (st : MissionStatus) (r : ref) :
  has_status self st r = true ->
  exists m, heap self !! r = Some m /\ status m = st.
Proof.
  unfold has_status. destruct (heap self !! r) as [m |]; [| done].
  intros H. apply bool_decide_eq_true in H. eauto.
Qed.

Lemma highest_pending (self : t) (r : ref) :
  get_highest_priority_mission self = Some r ->
  exists l1 l2,
    List.filter (has_status self PENDING)
      (PyDict.values (active_missions self)) = l1 ++ r :: l2 /\
    (forall x, x ∈ l1 -> (value_of self x < value_of self r)%Z) /\
    (forall x, x ∈ l2 -> (value_of self x <= value_of self r)%Z).
Proof.
  rewrite highest_value_of.
  destruct (List.filter _ _) as [| r0 rest]; [discriminate |].
  intros Hr. injection Hr as <-. apply max_by_spec.
Qed.

Lemma highest_is_pending (self : t) (r : ref) :
  get_highest_priority_mission self = Some r ->
  r ∈ PyDict.values (active_missions self) /\
  has_status self PENDING r = true.
Proof.
  intros Hr. destruct (highest_pending self r Hr) as (l1 & l2 & Heq & _).
  assert (Hin : In r (List.filter (has_status self PENDING)
                        (PyDict.values (active_missions self)))).
  { rewrite Heq. apply in_or_app. right. left. reflexivity. }
  apply filter_In in Hin as [Hin Hp].
  split; [apply list_elem_of_In; exact Hin | exact Hp].
Qed.

(** Interrupting never archives: only records change. *)
Lemma interrupt_frame (self : t) (reason : string) (clock : R) :
  let self' := interrupt_current_mission self reason clock in
  length (heap self') = length (heap self) /\
  active_missions self' = active_missions self /\
  mission_history self' = mission_history self.
Proof.
  unfold interrupt_current_mission.
  destruct (current_mission self) as [c |]; [| auto].
  destruct (heap self !! c) as [m |]; [| auto].
  unfold update_mission_status.
  destruct (PyDict.get (active_missions self) (mission_id m)) as [r |];
    simpl; rewrite ?length_alter; auto.
Qed.

Lemma activate_status (self : t) (r : ref) (clock : R) :
  (r < length (heap self))%nat ->
  status <$> heap (activate self r clock) !! r = Some ACTIVE.
Proof.
  intros Hlt. unfold activate. simpl. rewrite list_lookup_alter_eq.
  destruct (lookup_lt_is_Some_2 _ _ Hlt) as [m Hm]. rewrite Hm. reflexivity.
Qed.

Lemma PyDict_del_length {V : Type} (d : PyDict.t string V) (k : string)
    (v : V) :
  PyDict.get d k = Some v -> (length (PyDict.del d k) + 1 = length d)%nat.
Proof.
  induction d as [| [k' v'] d IH]; simpl; [discriminate |].
  destruct (decide (k' = k)); simpl; [lia |].
  intros H. apply IH in H. lia.
Qed.

Lemma rate_bounds (c m : Z) :
  (0 <= c <= m)%Z -> (1 <= m)%Z -> 0 <= IZR c / IZR m * 100 <= 100.
Proof.
  intros [H0 Hc] Hm.
  apply IZR_le in H0, Hc, Hm.
  assert (Hpos : 0 < IZR m) by lra.
  assert (Hinv : 0 < / IZR m) by (apply Rinv_0_lt_compat; exact Hpos).
  assert (Hone : IZR m * / IZR m = 1) by (apply Rinv_r; lra).
  unfold Rdiv. split; [nra |].
  assert (IZR c * / IZR m <= IZR m * / IZR m)
    by (apply Rmult_le_compat_r; lra).
  lra.
Qed.

End SchedulerFacts.

(** X13. [get_highest_priority_mission] returns nothing exactly when no
    mission of the active dictionary is PENDING.  Otherwise it returns a
    PENDING mission of the dictionary whose [priority.value] is the
    greatest among the pending ones, and the first such in dictionary
    order: every pending mission before it has a strictly smaller value,
    every one after it a smaller or equal value.  As LOW carries the
    greatest value, a pending LOW mission makes the result a LOW one. *)
Theorem X13_highest_priority_mission (self : MissionManager.t) :
  let pending :=
    List.filter (MissionManager.has_status self MissionTypes.PENDING)
      (PyDict.values (MissionManager.active_missions self)) in
  (MissionManager.get_highest_priority_mission self = None
   <-> pending = []) /\
  forall r : nat,
    MissionManager.get_highest_priority_mission self = Some r ->
    (exists l1 l2,
       pending = l1 ++ r :: l2 /\
       (forall x, x ∈ l1 ->
          (MissionManager.value_of self x < MissionManager.value_of self r)%Z) /\
       (forall x, x ∈ l2 ->
          (MissionManager.value_of self x <= MissionManager.value_of self r)%Z)) /\
    r ∈ PyDict.values (MissionManager.active_missions self) /\
    MissionManager.has_status self MissionTypes.PENDING r = true /\
    (forall x m,
       x ∈ pending ->
       MissionManager.heap self !! x = Some m ->
       MissionTypes.priority m = MissionTypes.LOW ->
       MissionTypes.priority <$> MissionManager.heap self !! r
         = Some MissionTypes.LOW).
Proof.
  cbv zeta. split.
  - rewrite highest_value_of.
    destruct (List.filter _ _); split; intros H; congruence.
  - intros r Hr.
    pose proof (highest_pending self r Hr) as (l1 & l2 & Heq & H1 & H2).
    pose proof (highest_is_pending self r Hr) as [Hin Hp].
    split; [exists l1, l2; auto |].
    split; [exact Hin |]. split; [exact Hp |].
    intros x m Hx Hm Hlow.
    assert (Hle : (MissionManager.value_of self x
                   <= MissionManager.value_of self r)%Z).
    { rewrite Heq in Hx. apply elem_of_app in Hx as [Hx | Hx].
      - apply Z.lt_le_incl, H1, Hx.
      - apply elem_of_cons in Hx as [-> | Hx]; [lia | apply H2, Hx]. }
    destruct (has_status_lookup self _ r Hp) as (mr & Hmr & _).
    unfold MissionManager.value_of in Hle. rewrite Hm, Hmr, Hlow in Hle.
    rewrite Hmr. simpl. f_equal.
    destruct (MissionTypes.priority mr); simpl in Hle; (reflexivity || lia).
Qed.

Lemma X13_witness :
  MissionManager.get_highest_priority_mission MissionManager.two_pending
    = Some 0%nat /\
  MissionManager.has_status MissionManager.two_pending
    MissionTypes.PENDING 0%nat = true.
Proof.
  split; [reflexivity |].
  destruct (X13_highest_priority_mission MissionManager.two_pending)
    as [_ H].
  destruct (H 0%nat eq_refl) as (_ & _ & Hp & _). exact Hp.
Defined.

(** X14. [update] of the mission manager.  Without a pending mission
    nothing changes.  With a pending mission and no current one, the
    chosen mission is marked ACTIVE and becomes current.  With a current
    mission, the chosen mission replaces it only when its
    [priority.value] is strictly greater: on an equal or smaller value
    the manager is unchanged; on a greater one the chosen mission becomes
    current and ACTIVE while the active dictionary and the history stay
    as they were. *)
Theorem X14_update_scheduling (self : MissionManager.t) (clock : R) :
  (MissionManager.get_highest_priority_mission self = None ->
   MissionManager.update self clock
     = (self, MissionManager.current_mission self)) /\
  (forall hp : nat,
     MissionManager.get_highest_priority_mission self = Some hp ->
     (MissionManager.current_mission self = None ->
      MissionManager.update self clock
        = (MissionManager.activate self hp clock, Some hp) /\
      MissionTypes.status
        <$> MissionManager.heap (fst (MissionManager.update self clock)) !! hp
        = Some MissionTypes.ACTIVE) /\
     (forall c : nat,
        MissionManager.current_mission self = Some c ->
        ((MissionManager.value_of self hp
          <= MissionManager.value_of self c)%Z ->
         MissionManager.update self clock = (self, Some c)) /\
        ((MissionManager.value_of self c
          < MissionManager.value_of self hp)%Z ->
         let self' := fst (MissionManager.update self clock) in
         snd (MissionManager.update self clock) = Some hp /\
         MissionManager.current_mission self' = Some hp /\
         MissionTypes.status <$> MissionManager.heap self' !! hp
           = Some MissionTypes.ACTIVE /\
         MissionManager.active_missions self'
           = MissionManager.active_missions self /\
         MissionManager.mission_history self'
           = MissionManager.mission_history self))).
Proof.
  split.
  - intros Hn. unfold MissionManager.update. rewrite Hn. reflexivity.
  - intros hp Hhp.
    pose proof (highest_is_pending self hp Hhp) as [_ Hp].
    destruct (has_status_lookup self _ hp Hp) as (m & Hm & _).
    assert (Hlt : (hp < length (MissionManager.heap self))%nat)
      by (eapply lookup_lt_Some; exact Hm).
    split.
    + intros Hc. unfold MissionManager.update. rewrite Hhp, Hc.
      split; [reflexivity |]. simpl.
      apply (activate_status self hp clock Hlt).
    + intros c Hc. unfold MissionManager.update. rewrite Hhp, Hc.
      fold (MissionManager.value_of self c).
      fold (MissionManager.value_of self hp).
      split.
      * intros Hle.
        destruct (Z.ltb_spec (MissionManager.value_of self c)
                    (MissionManager.value_of self hp)); [lia |].
        rewrite Hc. reflexivity.
      * intros Hgt.
        destruct (Z.ltb_spec (MissionManager.value_of self c)
                    (MissionManager.value_of self hp)); [| lia].
        pose proof (interrupt_frame self
                      "Interrupted by higher priority mission" clock)
          as (Hlen & Hact & Hhist).
        cbv zeta in Hlen, Hact, Hhist. cbv zeta.
        cbn [fst snd].
        split; [reflexivity |]. split; [reflexivity |].
        split; [apply activate_status; rewrite Hlen; exact Hlt |].
        split; [exact Hact | exact Hhist].
Qed.

Lemma X14_witness :
  MissionManager.get_highest_priority_mission MissionManager.two_pending
    = Some 0%nat /\
  MissionManager.current_mission MissionManager.two_pending = None /\
  MissionManager.update MissionManager.two_pending 12
    = (MissionManager.activate MissionManager.two_pending 0%nat 12,
       Some 0%nat).
Proof.
  split; [reflexivity |]. split; [reflexivity |].
  destruct (X14_update_scheduling MissionManager.two_pending 12) as [_ H].
  destruct (H 0%nat eq_refl) as [H0 _].
  destruct (H0 eq_refl) as [Hu _]. exact Hu.
Defined.

(** X15. [update_mission_status] does nothing for an identifier that is
    not in the active dictionary.  For a known identifier it rewrites the
    status of that one record; COMPLETED and FAILED also move the mission
    from the active dictionary to the end of the history, which leaves
    the total number of missions reported by [get_mission_stats]
    unchanged; every other status leaves the dictionary, the history and
    the current mission as they were. *)
Theorem X15_update_mission_status (self : MissionManager.t) (id : string)
    (st : MissionTypes.MissionStatus)
    (res : option MissionTypes.MissionResult) (clock : R) :
  let self' := MissionManager.update_mission_status self id st res clock in
  (PyDict.get (MissionManager.active_missions self) id = None ->
   self' = self) /\
  (forall r : nat,
     PyDict.get (MissionManager.active_missions self) id = Some r ->
     MissionManager.heap self'
       = alter (fun m => MissionTypes.update_status m st clock) r
           (MissionManager.heap self) /\
     (st = MissionTypes.COMPLETED \/ st = MissionTypes.FAILED ->
      MissionManager.mission_history self'
        = MissionManager.mission_history self ++ [r] /\
      MissionManager.active_missions self'
        = PyDict.del (MissionManager.active_missions self) id /\
      (length (MissionManager.active_missions self') + 1
       = length (MissionManager.active_missions self))%nat /\
      MissionManager.total_missions (MissionManager.get_mission_stats self')
        = MissionManager.total_missions
            (MissionManager.get_mission_stats self)) /\
     (st <> MissionTypes.COMPLETED -> st <> MissionTypes.FAILED ->
      MissionManager.active_missions self'
        = MissionManager.active_missions self /\
      MissionManager.mission_history self'
        = MissionManager.mission_history self /\
      MissionManager.current_mission self'
        = MissionManager.current_mission self)).
Proof.
  cbv zeta. unfold MissionManager.update_mission_status. split.
  - intros Hn. rewrite Hn. reflexivity.
  - intros r Hr. rewrite Hr.
    pose proof (PyDict_del_length _ _ _ Hr) as Hlen.
    split; [| split].
    + destruct (bool_decide (st = MissionTypes.COMPLETED)
                || bool_decide (st = MissionTypes.FAILED)); reflexivity.
    + intros Hst.
      assert (Hb : bool_decide (st = MissionTypes.COMPLETED)
                   || bool_decide (st = MissionTypes.FAILED) = true)
        by (destruct Hst; subst; reflexivity).
      rewrite Hb.
      cbn [MissionManager.active_missions MissionManager.mission_history].
      split; [reflexivity |]. split; [reflexivity |].
      split; [exact Hlen |].
      unfold MissionManager.get_mission_stats.
      cbn [MissionManager.total_missions MissionManager.active_missions
           MissionManager.mission_history].
      rewrite length_app. simpl. lia.
    + intros Hc Hf.
      rewrite (bool_decide_false _ Hc), (bool_decide_false _ Hf).
      simpl. auto.
Qed.

Lemma X15_witness :
  PyDict.get (MissionManager.active_missions
                MissionManager.one_current_mission) "zz" = None /\
  MissionManager.update_mission_status MissionManager.one_current_mission
    "zz" MissionTypes.COMPLETED None 12
  = MissionManager.one_current_mission.
Proof.
  split; [reflexivity |].
  destruct (X15_update_mission_status MissionManager.one_current_mission
              "zz" MissionTypes.COMPLETED None 12) as [H _].
  apply H. reflexivity.
Defined.

(** X16. The statistics of [get_mission_stats]: the total is the number
    of archived missions plus the number of active ones; the completed,
    failed and interrupted counts are counted among the archived missions
    only, so together they never exceed the length of the history; and the
    success rate always lies between 0 and 100, the guard [max(1, total)]
    making it 0 for a manager without missions. *)
Theorem X16_mission_stats (self : MissionManager.t) :
  let s := MissionManager.get_mission_stats self in
  MissionManager.total_missions s
    = (Z.of_nat (length (MissionManager.mission_history self))
       + MissionManager.stats_active_missions s)%Z /\
  (0 <= MissionManager.completed_missions s)%Z /\
  (0 <= MissionManager.failed_missions s)%Z /\
  (0 <= MissionManager.interrupted_missions s)%Z /\
  (MissionManager.completed_missions s + MissionManager.failed_missions s
   + MissionManager.interrupted_missions s
   <= Z.of_nat (length (MissionManager.mission_history self)))%Z /\
  0 <= MissionManager.success_rate s <= 100 /\
  MissionManager.success_rate
    (MissionManager.get_mission_stats MissionManager.init) = 0.
Proof.
  cbv zeta. unfold MissionManager.get_mission_stats.
  cbn [MissionManager.total_missions MissionManager.stats_active_missions
       MissionManager.completed_missions MissionManager.failed_missions
       MissionManager.interrupted_missions MissionManager.success_rate].
  pose proof (status_counts_le self (MissionManager.mission_history self))
    as Hsum.
  pose proof (filter_length_le
                (MissionManager.has_status self MissionTypes.COMPLETED)
                (MissionManager.mission_history self)) as Hc.
  split; [reflexivity |].
  split; [lia |]. split; [lia |]. split; [lia |]. split; [lia |].
  split.
  - apply rate_bounds; lia.
  - simpl. unfold Rdiv. rewrite Rmult_0_l. apply Rmult_0_l.
Qed.

(** ** Target lock evaluator: invariants *)

Section LockInvariants.
Import TargetLockSystem.

Lemma decay_step_frame (s : t) :
  lock_zone (decay_step s) = lock_zone s /\
  tracked_uavs (decay_step s) = tracked_uavs s /\
  uav_counter (decay_step s) = uav_counter s /\
  lock_hysteresis (decay_step s) = Z.max (lock_hysteresis s - 1) (-3).
Proof.
  unfold decay_step. simpl.
  destruct (Z.max (lock_hysteresis s - 1) (-3) <=? -3)%Z; simpl; auto.
Qed.

(** A decay that stays above the floor moves the counter only. *)
Lemma decay_step_above (s : t) :
  (-3 < lock_hysteresis s - 1)%Z ->
  decay_step s = with_hysteresis s (lock_hysteresis s - 1).
Proof.
  intros H. unfold decay_step. simpl.
  replace (Z.max (lock_hysteresis s - 1) (-3)) with (lock_hysteresis s - 1)%Z
    by lia.
  destruct (Z.leb_spec (lock_hysteresis s - 1) (-3)); [lia | reflexivity].
Qed.

Lemma decay_step_floor (s : t) :
  (lock_hysteresis s - 1 <= -3)%Z ->
  decay_step s = reset_lock (with_hysteresis s (-3)).
Proof.
  intros H. unfold decay_step. simpl.
  replace (Z.max (lock_hysteresis s - 1) (-3)) with (-3)%Z by lia.
  reflexivity.
Qed.

Lemma lock_step_frame (s : t) (id : Z) (ts tn : R) :
  lock_zone (lock_step s id ts tn) = lock_zone s /\
  dom (tracked_uavs (lock_step s id ts tn)) = dom (tracked_uavs s) /\
  uav_counter (lock_step s id ts tn) = uav_counter s /\
  lock_hysteresis (lock_step s id ts tn) = Z.min (lock_hysteresis s + 1) 5.
Proof.
  unfold lock_step. simpl.
  destruct (2 <=? Z.min (lock_hysteresis s + 1) 5)%Z; [| simpl; auto].
  destruct (negb (Py.truthy_float (lock_start_time s))); simpl;
    match goal with
    | |- context [if ?b then _ else _] => destruct b
    end; simpl; rewrite ?dom_alter_L; auto.
Qed.

Lemma observe_uav_frame (s : t) (id : Z) (clock : R) :
  lock_zone (observe_uav s id clock) = lock_zone s /\
  is_locked (observe_uav s id clock) = is_locked s /\
  current_target_id (observe_uav s id clock) = current_target_id s /\
  lock_duration (observe_uav s id clock) = lock_duration s /\
  lock_duration_elapsed (observe_uav s id clock) = lock_duration_elapsed s /\
  window_start_time (observe_uav s id clock) = window_start_time s /\
  last_locked_target (observe_uav s id clock) = last_locked_target s.
Proof. rewrite observe_uav_with_uavs. simpl. auto 10. Qed.

Lemma step_lock_zone (s : t) (f : frame) : lock_zone (step s f) = lock_zone s.
Proof.
  unfold step, update. destruct (tracks f) as [| [id obj] rest]; simpl.
  - apply decay_step_frame.
  - destruct (is_point_in_lock_zone _ _).
    + rewrite (proj1 (lock_step_frame _ _ _ _)). apply observe_uav_frame.
    + rewrite (proj1 (decay_step_frame _)). apply observe_uav_frame.
Qed.

Lemma run_lock_zone (s : t) (frames : list frame) :
  lock_zone (run s frames) = lock_zone s.
Proof.
  revert s. induction frames as [| f l IH]; intros s; [reflexivity |].
  unfold run in *. simpl. rewrite IH. apply step_lock_zone.
Qed.

Lemma in_zone_frame_zone (s s' : t) (f : frame) :
  lock_zone s' = lock_zone s -> in_zone_frame s' f = in_zone_frame s f.
Proof.
  intros H. unfold in_zone_frame, is_point_in_lock_zone. rewrite H.
  reflexivity.
Qed.

(** A frame whose first object is outside the lock zone, or an empty
    one, is a decay after identity assignment. *)
Lemma step_miss (s : t) (f : frame) :
  in_zone_frame s f = false ->
  step s f
  = decay_step match tracks f with
               | [] => s
               | (id, _) :: _ => observe_uav s id (t_seen f)
               end.
Proof.
  unfold in_zone_frame, step, update.
  destruct (tracks f) as [| [id obj] rest]; [reflexivity |].
  intros Hz. simpl. rewrite is_point_in_lock_zone_observe, Hz. reflexivity.
Qed.

Lemma size_observe_uav (s : t) (id : Z) (clock : R) :
  uav_counter s = Z.of_nat (size (tracked_uavs s)) ->
  uav_counter (observe_uav s id clock)
  = Z.of_nat (size (tracked_uavs (observe_uav s id clock))).
Proof.
  intros H. unfold observe_uav.
  destruct (tracked_uavs s !! id) as [u |] eqn:E; simpl.
  - rewrite <- (size_dom (D := gset Z)), dom_alter_L, size_dom. exact H.
  - rewrite <- (size_dom (D := gset Z)), dom_alter_L, size_dom.
    rewrite map_size_insert_None by exact E. rewrite H. lia.
Qed.

Lemma decay_step_consistent (s : t) : consistent s -> consistent (decay_step s).
Proof.
  intros (Hh & Hd & Hw & Hl & Hst & Hlk & Hfl & Hc & Hcur).
  destruct (Z_le_gt_dec (lock_hysteresis s - 1) (-3)) as [Hle | Hgt].
  - rewrite decay_step_floor by exact Hle.
    unfold consistent. simpl.
    split; [lia |]. split; [reflexivity |]. split; [reflexivity |].
    split; [exact Hl |].
    split; [split; intros [x Hx]; discriminate |].
    split; [discriminate |]. split; [auto |]. split; [exact Hc |].
    discriminate.
  - rewrite decay_step_above by lia.
    unfold consistent. simpl.
    split; [lia |]. split; [exact Hd |]. split; [exact Hw |].
    split; [exact Hl |]. split; [exact Hst |]. split; [exact Hlk |].
    split; [lia |]. split; [exact Hc | exact Hcur].
Qed.

Lemma observe_uav_consistent (s : t) (id : Z) (clock : R) :
  consistent s -> consistent (observe_uav s id clock).
Proof.
  intros (Hh & Hd & Hw & Hl & Hst & Hlk & Hfl & Hc & Hcur).
  pose proof (size_observe_uav s id clock Hc) as Hc'.
  assert (Hdom : forall i, is_Some (tracked_uavs s !! i) ->
                   is_Some (tracked_uavs (observe_uav s id clock) !! i)).
  { intros i Hi. rewrite <- !elem_of_dom in *. unfold observe_uav.
    destruct (tracked_uavs s !! id); simpl; rewrite dom_alter_L; [exact Hi |].
    rewrite dom_insert_L. set_solver. }
  rewrite observe_uav_with_uavs in *. unfold consistent. simpl in *.
  auto 12.
Qed.

Lemma lock_step_consistent (s : t) (id : Z) (ts tn : R) :
  consistent s -> is_Some (tracked_uavs s !! id) ->
  consistent (lock_step s id ts tn).
Proof.
  intros (Hh & Hd & Hw & Hl & Hst & Hlk & Hfl & Hc & Hcur) Hid.
  unfold lock_step. simpl.
  destruct (Z.leb_spec 2 (Z.min (lock_hysteresis s + 1) 5)) as [H2 | H2].
  - assert (Hkeep : forall (f : uav_info -> uav_info) i,
              is_Some (tracked_uavs s !! i) ->
              is_Some (alter f id (tracked_uavs s) !! i)).
    { intros f i Hi. rewrite <- !elem_of_dom in *. rewrite dom_alter_L.
      exact Hi. }
    assert (Hsize : forall f : uav_info -> uav_info,
              uav_counter s = Z.of_nat (size (alter f id (tracked_uavs s)))).
    { intros f. rewrite <- (size_dom (D := gset Z)), dom_alter_L, size_dom.
      exact Hc. }
    destruct (Py.truthy_float (lock_start_time s)) eqn:Et; simpl.
    + assert (Hs : is_Some (lock_start_time s)).
      { destruct (lock_start_time s); [eauto | discriminate]. }
      match goal with
      | |- context [if ?b then _ else _] => destruct b
      end; unfold consistent; simpl;
        (split; [lia |]); (split; [reflexivity |]); (split; [exact Hw |]);
        (split; [exact Hl |]); (split; [exact Hst |]);
        (split; [intros _; exact Hs |]); (split; [lia |]).
      * split; [apply Hsize |]. intros i Hi. apply Hkeep, Hcur, Hi.
      * split; [exact Hc | exact Hcur].
    + match goal with
      | |- context [if ?b then _ else _] => destruct b
      end; unfold consistent; simpl;
        (split; [lia |]); (split; [reflexivity |]); (split; [exact Hw |]);
        (split; [exact Hl |]); (split; [split; eauto |]);
        (split; [eauto |]); (split; [lia |]).
      * split; [apply Hsize |]. intros i Hi. injection Hi as <-.
        apply Hkeep, Hid.
      * split; [exact Hc |]. intros i Hi. injection Hi as <-. exact Hid.
  - unfold consistent. simpl.
    split; [lia |]. split; [exact Hd |]. split; [exact Hw |].
    split; [exact Hl |]. split; [exact Hst |]. split; [exact Hlk |].
    split; [lia |]. split; [exact Hc | exact Hcur].
Qed.

Lemma step_consistent (s : t) (f : frame) : consistent s -> consistent (step s f).
Proof.
  intros Hs. unfold step, update.
  destruct (tracks f) as [| [id obj] rest]; simpl.
  - apply decay_step_consistent, Hs.
  - destruct (is_point_in_lock_zone _ _).
    + apply lock_step_consistent;
        [apply observe_uav_consistent, Hs | apply observe_uav_known].
    + apply decay_step_consistent, observe_uav_consistent, Hs.
Qed.

Lemma init_consistent (w h : Z) (rlt tlw cov : R) :
  consistent (init w h rlt tlw cov).
Proof.
  unfold consistent. simpl.
  split; [lia |]. split; [reflexivity |]. split; [reflexivity |].
  split; [reflexivity |].
  split; [split; intros [x Hx]; discriminate |].
  split; [discriminate |]. split; [discriminate |].
  split; [reflexivity | discriminate].
Qed.

End LockInvariants.

(** X17. Whatever frames a newly constructed lock evaluator is fed, the
    state it reaches satisfies: the hysteresis counter lies in [-3, 5];
    the reported lock duration equals the internal one; the window start
    and the last locked target are never set; a lock start is recorded
    exactly when a current target is; a raised lock flag comes with a
    recorded lock start; at the floor -3 no lock start is recorded and the
    flag is down; the UAV counter equals the number of identities in the
    mapping; and the current target always has an identity. *)
Theorem X17_lock_invariants :
  forall (w h : Z) (rlt tlw cov : R) (frames : list TargetLockSystem.frame),
    TargetLockSystem.consistent
      (TargetLockSystem.run (TargetLockSystem.init w h rlt tlw cov) frames).
Proof.
  intros w h rlt tlw cov frames.
  induction frames as [| f l IH] using rev_ind.
  - apply init_consistent.
  - unfold TargetLockSystem.run in *. rewrite fold_left_app. simpl.
    apply step_consistent, IH.
Qed.

(** ** Target lock evaluator: zones, identities and missed frames *)

Section LockZones.
Import TargetLockSystem.

Lemma quot_bounds (w d : Z) :
  (0 <= w)%Z -> (0 < d)%Z ->
  (0 <= Py.int_frac w d /\ d * Py.int_frac w d <= w)%Z.
Proof.
  intros Hw Hd. unfold Py.int_frac.
  rewrite Z.quot_div_nonneg by lia.
  split; [apply Z.div_pos; lia | apply Z.mul_div_le; lia].
Qed.

Lemma is_point_in_target_area_spec (s : t) (x y : R) :
  is_point_in_target_area s (x, y) = true <->
  IZR (x1 (target_hit_area s)) - IZR (frame_width s) * (1 / 100) <= x
    <= IZR (x2 (target_hit_area s)) + IZR (frame_width s) * (1 / 100) /\
  IZR (y1 (target_hit_area s)) - IZR (frame_height s) * (1 / 100) <= y
    <= IZR (y2 (target_hit_area s)) + IZR (frame_height s) * (1 / 100).
Proof.
  unfold is_point_in_target_area.
  rewrite !andb_true_iff, !Rleb_spec. tauto.
Qed.

Lemma is_target_in_area_spec (s : t) (bbox : Track.BBox) :
  is_target_in_area s bbox = true <->
  IZR (x1 (target_hit_area s)) - IZR (frame_width s) * lock_tolerance s
    <= Track.b2 bbox /\
  Track.b0 bbox
    <= IZR (x2 (target_hit_area s)) + IZR (frame_width s) * lock_tolerance s /\
  IZR (y1 (target_hit_area s)) - IZR (frame_height s) * lock_tolerance s
    <= Track.b3 bbox /\
  Track.b1 bbox
    <= IZR (y2 (target_hit_area s)) + IZR (frame_height s) * lock_tolerance s.
Proof.
  unfold is_target_in_area.
  rewrite negb_true_iff, !orb_false_iff.
  unfold Py.Rltb.
  repeat match goal with
         | |- context [Rlt_dec ?a ?b] => destruct (Rlt_dec a b)
         end; split; intros H; try lra; try (repeat split; (reflexivity || lra));
    destruct H as [[[? ?] ?] ?]; discriminate.
Qed.

(** The nesting of the three zones in integer terms. *)
Lemma zones_nested_Z (w h : Z) :
  (0 < w)%Z -> (0 < h)%Z ->
  let hit := setup_target_hit_area w h in
  let lock := setup_lock_zone w h in
  (0 <= x1 hit <= x1 lock /\ x1 lock < x2 lock /\ x2 lock <= x2 hit <= w)%Z /\
  (0 <= y1 hit <= y1 lock /\ y1 lock < y2 lock /\ y2 lock <= y2 hit <= h)%Z /\
  (2 * x1 lock < w /\ w < 2 * x2 lock)%Z /\
  (2 * y1 lock < h /\ h < 2 * y2 lock)%Z.
Proof.
  intros Hw Hh. unfold setup_lock_zone, setup_target_hit_area. simpl.
  pose proof (quot_bounds w 4 ltac:(lia) ltac:(lia)) as [? ?].
  pose proof (quot_bounds w 20 ltac:(lia) ltac:(lia)) as [? ?].
  pose proof (quot_bounds h 10 ltac:(lia) ltac:(lia)) as [? ?].
  pose proof (quot_bounds h 20 ltac:(lia) ltac:(lia)) as [? ?].
  lia.
Qed.

Lemma Rleb_false_inv (x y : R) : Py.Rleb x y = false -> y < x.
Proof.
  unfold Py.Rleb. destruct (Rle_dec x y); [discriminate | intros _; lra].
Qed.

Lemma overlap_spec (bbox : Track.BBox) (box : rect) (a : R) :
  overlap bbox box = Some a ->
  0 < a /\ a <= bbox_area bbox /\ a <= rect_area box /\
  0 < bbox_area bbox /\ 0 < rect_area box.
Proof.
  unfold overlap, bbox_area, rect_area.
  pose proof (Rmax_l (Track.b0 bbox) (IZR (x1 box))).
  pose proof (Rmax_r (Track.b0 bbox) (IZR (x1 box))).
  pose proof (Rmax_l (Track.b1 bbox) (IZR (y1 box))).
  pose proof (Rmax_r (Track.b1 bbox) (IZR (y1 box))).
  pose proof (Rmin_l (Track.b2 bbox) (IZR (x2 box))).
  pose proof (Rmin_r (Track.b2 bbox) (IZR (x2 box))).
  pose proof (Rmin_l (Track.b3 bbox) (IZR (y2 box))).
  pose proof (Rmin_r (Track.b3 bbox) (IZR (y2 box))).
  set (X1 := Rmax (Track.b0 bbox) (IZR (x1 box))) in *.
  set (Y1 := Rmax (Track.b1 bbox) (IZR (y1 box))) in *.
  set (X2 := Rmin (Track.b2 bbox) (IZR (x2 box))) in *.
  set (Y2 := Rmin (Track.b3 bbox) (IZR (y2 box))) in *.
  destruct (Py.Rleb X2 X1) eqn:Ex; [discriminate |].
  destruct (Py.Rleb Y2 Y1) eqn:Ey; [discriminate |].
  apply Rleb_false_inv in Ex, Ey. simpl. intros Ha. injection Ha as <-.
  assert (Hx : 0 < X2 - X1) by lra.
  assert (Hy : 0 < Y2 - Y1) by lra.
  split; [apply Rmult_lt_0_compat; assumption |].
  split; [apply Rmult_le_compat; lra |].
  split; [apply Rmult_le_compat; lra |].
  split; apply Rmult_lt_0_compat; lra.
Qed.

Lemma overlap_inside (bbox : Track.BBox) (box : rect) :
  IZR (x1 box) <= Track.b0 bbox -> Track.b2 bbox <= IZR (x2 box) ->
  IZR (y1 box) <= Track.b1 bbox -> Track.b3 bbox <= IZR (y2 box) ->
  Track.b0 bbox < Track.b2 bbox -> Track.b1 bbox < Track.b3 bbox ->
  overlap bbox box = Some (bbox_area bbox).
Proof.
  intros H1 H2 H3 H4 H5 H6. unfold overlap, bbox_area.
  rewrite (Rmax_left _ _ H1), (Rmax_left _ _ H3).
  rewrite (Rmin_left _ _ H2), (Rmin_left _ _ H4).
  rewrite !Rleb_false by lra. reflexivity.
Qed.

End LockZones.

(** X18. For every positive frame size the constructor nests the three
    zones: the target hit area lies inside the frame, the lock zone lies
    inside the hit area and is not empty, and the frame centre is inside
    the lock zone.  So a point the evaluator finds in the lock zone is
    also in the target hit area, and every bounding box containing that
    point passes the tolerant test [is_target_in_area]. *)
Theorem X18_zones_nested :
  forall (w h : Z) (rlt tlw cov : R),
    (0 < w)%Z -> (0 < h)%Z ->
    let s := TargetLockSystem.init w h rlt tlw cov in
    let view := TargetLockSystem.camera_view s in
    let hit := TargetLockSystem.target_hit_area s in
    let lock := TargetLockSystem.lock_zone s in
    (TargetLockSystem.x1 view <= TargetLockSystem.x1 hit
       <= TargetLockSystem.x1 lock /\
     TargetLockSystem.x1 lock < TargetLockSystem.x2 lock /\
     TargetLockSystem.x2 lock <= TargetLockSystem.x2 hit
       <= TargetLockSystem.x2 view)%Z /\
    (TargetLockSystem.y1 view <= TargetLockSystem.y1 hit
       <= TargetLockSystem.y1 lock /\
     TargetLockSystem.y1 lock < TargetLockSystem.y2 lock /\
     TargetLockSystem.y2 lock <= TargetLockSystem.y2 hit
       <= TargetLockSystem.y2 view)%Z /\
    TargetLockSystem.is_point_in_lock_zone s (IZR w / 2, IZR h / 2) = true /\
    (forall p : R * R,
       TargetLockSystem.is_point_in_lock_zone s p = true ->
       TargetLockSystem.is_point_in_target_area s p = true /\
       forall bbox : Track.BBox,
         Track.b0 bbox <= fst p <= Track.b2 bbox ->
         Track.b1 bbox <= snd p <= Track.b3 bbox ->
         TargetLockSystem.is_target_in_area s bbox = true).
Proof.
  intros w h rlt tlw cov Hw Hh s view hit lock.
  pose proof (zones_nested_Z w h Hw Hh) as (Hx & Hy & Hcx & Hcy).
  cbv zeta in Hx, Hy, Hcx, Hcy.
  change (TargetLockSystem.setup_target_hit_area w h) with hit in *.
  change (TargetLockSystem.setup_lock_zone w h) with lock in *.
  assert (HW : 0 < IZR w) by (apply IZR_lt; exact Hw).
  assert (HH : 0 < IZR h) by (apply IZR_lt; exact Hh).
  split; [exact Hx |]. split; [exact Hy |].
  split.
  - apply is_point_in_lock_zone_spec.
    change (TargetLockSystem.lock_zone s) with lock.
    destruct Hcx as [Hc1 Hc2], Hcy as [Hc3 Hc4].
    apply IZR_lt in Hc1, Hc2, Hc3, Hc4.
    rewrite mult_IZR in Hc1, Hc2, Hc3, Hc4. lra.
  - intros [x y] Hp.
    apply is_point_in_lock_zone_spec in Hp.
    change (TargetLockSystem.lock_zone s) with lock in Hp.
    destruct Hx as ((_ & Hx1) & _ & (Hx2 & _)).
    destruct Hy as ((_ & Hy1) & _ & (Hy2 & _)).
    apply IZR_le in Hx1, Hx2, Hy1, Hy2.
    split.
    + apply is_point_in_target_area_spec.
      change (TargetLockSystem.target_hit_area s) with hit.
      change (TargetLockSystem.frame_width s) with w.
      change (TargetLockSystem.frame_height s) with h.
      lra.
    + intros bbox Hbx Hby. simpl in Hbx, Hby.
      apply is_target_in_area_spec.
      change (TargetLockSystem.target_hit_area s) with hit.
      change (TargetLockSystem.frame_width s) with w.
      change (TargetLockSystem.frame_height s) with h.
      change (TargetLockSystem.lock_tolerance s) with (20 / 100).
      lra.
Qed.

Lemma X18_witness :
  (0 < 1280)%Z /\ (0 < 720)%Z /\
  TargetLockSystem.is_point_in_lock_zone TargetLockSystem.default
    (IZR 1280 / 2, IZR 720 / 2) = true.
Proof.
  split; [lia |]. split; [lia |].
  apply (X18_zones_nested 1280 720 5 5 (70 / 100)); lia.
Defined.

Section LockIdentities.
Import TargetLockSystem.

(** Identity assignment for a track that is already known. *)
Lemma observe_uav_old (s : t) (id : Z) (clock : R) (u : uav_info) :
  tracked_uavs s !! id = Some u ->
  tracked_uavs (observe_uav s id clock) !! id
  = Some (mk_uav (uav_id u) (first_seen u) (total_tracked_frames u + 1)
            (total_lock_time u)) /\
  uav_counter (observe_uav s id clock) = uav_counter s.
Proof.
  intros Hu. unfold observe_uav. rewrite Hu. simpl.
  rewrite lookup_alter_eq, Hu. auto.
Qed.

(** Identity assignment for a track seen for the first time. *)
Lemma observe_uav_new (s : t) (id : Z) (clock : R) :
  tracked_uavs s !! id = None ->
  tracked_uavs (observe_uav s id clock) !! id
  = Some (mk_uav ("UAV_" +:+ format_03d (uav_counter s + 1)) clock 1 0) /\
  uav_counter (observe_uav s id clock) = (uav_counter s + 1)%Z.
Proof.
  intros Hu. unfold observe_uav. rewrite Hu. simpl.
  rewrite lookup_alter_eq, lookup_insert_eq. auto.
Qed.

Lemma observe_uav_other (s : t) (id i : Z) (clock : R) :
  i <> id ->
  tracked_uavs (observe_uav s id clock) !! i = tracked_uavs s !! i.
Proof.
  intros Hne. unfold observe_uav.
  destruct (tracked_uavs s !! id); simpl.
  - rewrite lookup_alter_ne by congruence. reflexivity.
  - rewrite lookup_alter_ne, lookup_insert_ne by congruence. reflexivity.
Qed.

(** The lock branches leave label, first sighting and frame count of
    every identity alone. *)
Lemma lock_step_identity (s : t) (id i : Z) (ts tn : R) (u : uav_info) :
  tracked_uavs s !! i = Some u ->
  exists u',
    tracked_uavs (lock_step s id ts tn) !! i = Some u' /\
    uav_id u' = uav_id u /\ first_seen u' = first_seen u /\
    total_tracked_frames u' = total_tracked_frames u.
Proof.
  intros Hu. unfold lock_step. simpl.
  destruct (2 <=? Z.min (lock_hysteresis s + 1) 5)%Z; [| simpl; eauto].
  destruct (negb (Py.truthy_float (lock_start_time s))); simpl;
    match goal with
    | |- context [if ?b then _ else _] => destruct b
    end; simpl; eauto;
    (destruct (decide (i = id)) as [-> | Hne];
     [rewrite lookup_alter_eq, Hu; simpl; eauto
     | rewrite lookup_alter_ne by congruence; eauto]).
Qed.

Lemma lock_step_other (s : t) (id i : Z) (ts tn : R) :
  i <> id ->
  tracked_uavs (lock_step s id ts tn) !! i = tracked_uavs s !! i.
Proof.
  intros Hne. unfold lock_step. simpl.
  destruct (2 <=? Z.min (lock_hysteresis s + 1) 5)%Z; [| reflexivity].
  destruct (negb (Py.truthy_float (lock_start_time s))); simpl;
    match goal with
    | |- context [if ?b then _ else _] => destruct b
    end; simpl; rewrite ?lookup_alter_ne by congruence; reflexivity.
Qed.

Lemma step_identity (s : t) (f : frame) (i : Z) (u : uav_info) :
  tracked_uavs s !! i = Some u ->
  exists u',
    tracked_uavs (step s f) !! i = Some u' /\
    uav_id u' = uav_id u /\ first_seen u' = first_seen u /\
    total_tracked_frames u'
    = (total_tracked_frames u + if first_track_is i f then 1 else 0)%Z.
Proof.
  intros Hu. unfold step, update, first_track_is.
  destruct (tracks f) as [| [id obj] rest]; simpl.
  - rewrite (proj1 (proj2 (decay_step_frame s))).
    exists u. repeat split; [exact Hu | lia].
  - assert (Hseen : exists u1,
              tracked_uavs (observe_uav s id (t_seen f)) !! i = Some u1 /\
              uav_id u1 = uav_id u /\ first_seen u1 = first_seen u /\
              total_tracked_frames u1
              = (total_tracked_frames u
                 + if bool_decide (id = i) then 1 else 0)%Z).
    { destruct (decide (id = i)) as [-> | Hne].
      - rewrite bool_decide_true by reflexivity.
        destruct (observe_uav_old s i (t_seen f) u Hu) as [H _].
        eexists. split; [exact H |]. simpl. auto.
      - rewrite bool_decide_false by exact Hne.
        rewrite observe_uav_other by congruence.
        exists u. repeat split; [exact Hu | lia]. }
    destruct Hseen as (u1 & Hu1 & Hid & Hfs & Hn).
    destruct (is_point_in_lock_zone _ _).
    + destruct (lock_step_identity _ id i (t_start f) (t_now f) u1 Hu1)
        as (u' & Hu' & Hid' & Hfs' & Hn').
      exists u'. split; [exact Hu' |]. repeat split; congruence.
    + rewrite (proj1 (proj2 (decay_step_frame _))).
      exists u1. auto.
Qed.

Lemma run_identity (frames : list frame) :
  forall (s : t) (i : Z) (u : uav_info),
    tracked_uavs s !! i = Some u ->
    exists u',
      tracked_uavs (run s frames) !! i = Some u' /\
      uav_id u' = uav_id u /\ first_seen u' = first_seen u /\
      total_tracked_frames u'
      = (total_tracked_frames u
         + Z.of_nat (length (List.filter (first_track_is i) frames)))%Z.
Proof.
  induction frames as [| f l IH]; intros s i u Hu.
  - exists u. simpl. repeat split; [exact Hu | lia].
  - destruct (step_identity s f i u Hu) as (u1 & Hu1 & Hid1 & Hfs1 & Hn1).
    destruct (IH (step s f) i u1 Hu1) as (u' & Hu' & Hid' & Hfs' & Hn').
    exists u'. split; [exact Hu' |].
    split; [congruence |]. split; [congruence |].
    rewrite Hn', Hn1. simpl.
    destruct (first_track_is i f); simpl; lia.
Qed.

(** A run of frames none of which has its first object in the lock
    zone. *)
Lemma run_misses (frames : list frame) :
  forall s : t,
    (-3 <= lock_hysteresis s)%Z ->
    Forall (fun f => in_zone_frame s f = false) frames ->
    let s' := run s frames in
    let n := Z.of_nat (length frames) in
    lock_hysteresis s' = Z.max (lock_hysteresis s - n) (-3) /\
    ((-3 < lock_hysteresis s - n)%Z ->
     is_locked s' = is_locked s /\
     lock_start_time s' = lock_start_time s /\
     current_target_id s' = current_target_id s /\
     lock_duration s' = lock_duration s) /\
    ((lock_hysteresis s - n <= -3)%Z -> frames <> [] ->
     is_locked s' = false /\
     lock_start_time s' = None /\
     current_target_id s' = None /\
     lock_duration s' = 0).
Proof.
  induction frames as [| f l IH] using rev_ind; intros s Hh Hall.
  - simpl. split; [lia |]. split; [auto |]. intros _ H. contradiction H.
    reflexivity.
  - apply Forall_app in Hall as [Hall Hf]. apply Forall_inv in Hf.
    specialize (IH s Hh Hall). cbv zeta in IH.
    destruct IH as (IHh & IHkeep & IHreset).
    cbv zeta. unfold run in *. rewrite fold_left_app. simpl.
    rewrite length_app. simpl.
    set (sl := fold_left step l s) in *.
    assert (Hmiss : in_zone_frame sl f = false).
    { rewrite (in_zone_frame_zone s sl f); [exact Hf |].
      apply (run_lock_zone s l). }
    rewrite (step_miss sl f Hmiss).
    set (seen := match tracks f with
                 | [] => sl
                 | (id, _) :: _ => observe_uav sl id (t_seen f)
                 end).
    assert (Hseen : lock_hysteresis seen = lock_hysteresis sl /\
                    is_locked seen = is_locked sl /\
                    lock_start_time seen = lock_start_time sl /\
                    current_target_id seen = current_target_id sl /\
                    lock_duration seen = lock_duration sl).
    { unfold seen. destruct (tracks f) as [| [id obj] rest]; [auto |].
      rewrite observe_uav_with_uavs. simpl. auto. }
    destruct Hseen as (Sh & Sl & Ss & Sc & Sd).
    destruct (Z_le_gt_dec (lock_hysteresis seen - 1) (-3)) as [Hle | Hgt].
    + rewrite decay_step_floor by exact Hle. simpl.
      split; [lia |]. split; [lia |]. auto.
    + rewrite decay_step_above by lia. simpl.
      split; [lia |].
      split; [| lia].
      intros Habove.
      destruct IHkeep as (K1 & K2 & K3 & K4); [lia |].
      repeat split; congruence.
Qed.

End LockIdentities.

(** X19. UAV identities are append-only.  Once a track id has an
    identity, every later state still has one for it with the same label
    and the same first sighting, and its frame count has grown by exactly
    the number of frames in which that track was the first tracked
    object.  A track id seen for the first time takes the label built from
    the incremented counter and starts with frame count 1, and a frame
    never touches the identity of a track id other than its first
    one. *)
Theorem X19_uav_identities :
  (forall (s : TargetLockSystem.t) (frames : list TargetLockSystem.frame)
          (id : Z) (u : TargetLockSystem.uav_info),
      TargetLockSystem.tracked_uavs s !! id = Some u ->
      exists u',
        TargetLockSystem.tracked_uavs (TargetLockSystem.run s frames) !! id
          = Some u' /\
        TargetLockSystem.uav_id u' = TargetLockSystem.uav_id u /\
        TargetLockSystem.first_seen u' = TargetLockSystem.first_seen u /\
        TargetLockSystem.total_tracked_frames u'
        = (TargetLockSystem.total_tracked_frames u
           + Z.of_nat (length (List.filter
                                 (TargetLockSystem.first_track_is id)
                                 frames)))%Z) /\
  (forall (s : TargetLockSystem.t) (f : TargetLockSystem.frame)
          (id : Z) (obj : Track.tracked_object)
          (rest : Track.tracked_objects),
      TargetLockSystem.tracks f = (id, obj) :: rest ->
      (TargetLockSystem.tracked_uavs s !! id = None ->
       exists u',
         TargetLockSystem.tracked_uavs (TargetLockSystem.step s f) !! id
           = Some u' /\
         TargetLockSystem.uav_id u'
         = "UAV_" +:+ TargetLockSystem.format_03d
                        (TargetLockSystem.uav_counter s + 1) /\
         TargetLockSystem.first_seen u' = TargetLockSystem.t_seen f /\
         TargetLockSystem.total_tracked_frames u' = 1%Z /\
         TargetLockSystem.uav_counter (TargetLockSystem.step s f)
         = (TargetLockSystem.uav_counter s + 1)%Z) /\
      (forall i : Z,
         i <> id ->
         TargetLockSystem.tracked_uavs (TargetLockSystem.step s f) !! i
         = TargetLockSystem.tracked_uavs s !! i)).
Proof.
  split.
  - intros s frames id u Hu. apply run_identity. exact Hu.
  - intros s f id obj rest Hf.
    assert (Hstep : TargetLockSystem.step s f
                    = (if TargetLockSystem.is_point_in_lock_zone s
                            (Track.centroid obj)
                       then TargetLockSystem.lock_step
                              (TargetLockSystem.observe_uav s id
                                 (TargetLockSystem.t_seen f))
                              id (TargetLockSystem.t_start f)
                              (TargetLockSystem.t_now f)
                       else TargetLockSystem.decay_step
                              (TargetLockSystem.observe_uav s id
                                 (TargetLockSystem.t_seen f)))).
    { unfold TargetLockSystem.step, TargetLockSystem.update. rewrite Hf.
      simpl. rewrite is_point_in_lock_zone_observe. reflexivity. }
    split.
    + intros Hnew.
      destruct (observe_uav_new s id (TargetLockSystem.t_seen f) Hnew)
        as [Hu Hc].
      rewrite Hstep.
      destruct (TargetLockSystem.is_point_in_lock_zone s (Track.centroid obj)).
      * destruct (lock_step_identity _ id id (TargetLockSystem.t_start f)
                    (TargetLockSystem.t_now f) _ Hu)
          as (u' & Hu' & Hid & Hfs & Hn).
        exists u'. split; [exact Hu' |].
        rewrite (proj1 (proj2 (proj2 (lock_step_frame _ _ _ _)))).
        simpl in Hid, Hfs, Hn. auto.
      * destruct (decay_step_frame
                    (TargetLockSystem.observe_uav s id
                       (TargetLockSystem.t_seen f))) as (_ & Hm & Hk & _).
        rewrite Hm, Hk. eexists. split; [exact Hu |]. simpl. auto.
    + intros i Hne. rewrite Hstep.
      destruct (TargetLockSystem.is_point_in_lock_zone s (Track.centroid obj)).
      * rewrite lock_step_other by exact Hne.
        apply observe_uav_other. exact Hne.
      * rewrite (proj1 (proj2 (decay_step_frame _))).
        apply observe_uav_other. exact Hne.
Qed.

Lemma X19_witness :
  exists u',
    TargetLockSystem.tracked_uavs
      (TargetLockSystem.step TargetLockSystem.default
         (TargetLockSystem.centre_frame 7 100)) !! 7%Z = Some u' /\
    TargetLockSystem.uav_id u' = "UAV_001".
Proof.
  destruct X19_uav_identities as [_ H].
  destruct (H TargetLockSystem.default (TargetLockSystem.centre_frame 7 100)
              7%Z _ _ eq_refl) as [Hnew _].
  destruct (Hnew eq_refl) as (u' & Hu' & Hid & _).
  exists u'. split; [exact Hu' | exact Hid].
Defined.

(** X20. Missed frames and the lock.  Feed an evaluator whose counter is
    at least -3 with [n] frames that are empty or whose first object is
    outside the lock zone.  The counter ends at [max (counter - n) (-3)].
    As long as [counter - n] stays above -3, the lock flag, the lock
    start, the current target and the lock duration are exactly as
    before the misses, so a raised lock flag stays raised; once
    [counter - n] reaches -3 they are all cleared. *)
Theorem X20_lock_survives_misses :
  forall (s : TargetLockSystem.t) (frames : list TargetLockSystem.frame),
    (-3 <= TargetLockSystem.lock_hysteresis s)%Z ->
    Forall (fun f => TargetLockSystem.in_zone_frame s f = false) frames ->
    let s' := TargetLockSystem.run s frames in
    let n := Z.of_nat (length frames) in
    TargetLockSystem.lock_hysteresis s'
      = Z.max (TargetLockSystem.lock_hysteresis s - n) (-3) /\
    ((-3 < TargetLockSystem.lock_hysteresis s - n)%Z ->
     TargetLockSystem.is_locked s' = TargetLockSystem.is_locked s /\
     TargetLockSystem.lock_start_time s' = TargetLockSystem.lock_start_time s /\
     TargetLockSystem.current_target_id s'
       = TargetLockSystem.current_target_id s /\
     TargetLockSystem.lock_duration s' = TargetLockSystem.lock_duration s) /\
    ((TargetLockSystem.lock_hysteresis s - n <= -3)%Z -> frames <> [] ->
     TargetLockSystem.is_locked s' = false /\
     TargetLockSystem.lock_start_time s' = None /\
     TargetLockSystem.current_target_id s' = None /\
     TargetLockSystem.lock_duration s' = 0).
Proof.
  intros s frames Hh Hall. apply run_misses; assumption.
Qed.

Lemma X20_witness :
  let s := TargetLockSystem.with_hysteresis TargetLockSystem.default 5 in
  let frames := [TargetLockSystem.mk_frame [] 1 1 1;
                 TargetLockSystem.mk_frame [] 2 2 2] in
  (-3 <= TargetLockSystem.lock_hysteresis s)%Z /\
  TargetLockSystem.lock_hysteresis (TargetLockSystem.run s frames)
    = Z.max (TargetLockSystem.lock_hysteresis s - 2) (-3).
Proof.
  intros s frames.
  assert (Hh : (-3 <= TargetLockSystem.lock_hysteresis s)%Z)
    by (simpl; lia).
  split; [exact Hh |].
  apply (X20_lock_survives_misses s frames Hh).
  repeat constructor.
Defined.

(** X21. The two overlap ratios of the lock evaluator.  The coverage of
    [_calculate_coverage] always lies in [0, 1]; it is positive exactly
    when the bounding box and the lock box overlap in a region of positive
    width and height, and it is 1 for a box of positive area that lies
    inside the lock box.  Whenever the code reaches its divisions the
    divisors are positive: [is_bbox_in_target_area] never divides by
    zero, the test [target_area > 0] of [_calculate_coverage] never
    fails, and a box of positive area inside the target hit area is
    accepted. *)
Theorem X21_overlap_ratios :
  forall (self : TargetLockSystem.t) (bbox : Track.BBox)
         (box : TargetLockSystem.rect),
    0 <= TargetLockSystem._calculate_coverage bbox box <= 1 /\
    (0 < TargetLockSystem._calculate_coverage bbox box
     <-> is_Some (TargetLockSystem.overlap bbox box)) /\
    (is_Some (TargetLockSystem.overlap bbox box) ->
     0 < TargetLockSystem.bbox_area bbox /\
     0 < TargetLockSystem.rect_area box) /\
    (IZR (TargetLockSystem.x1 box) <= Track.b0 bbox ->
     Track.b2 bbox <= IZR (TargetLockSystem.x2 box) ->
     IZR (TargetLockSystem.y1 box) <= Track.b1 bbox ->
     Track.b3 bbox <= IZR (TargetLockSystem.y2 box) ->
     Track.b0 bbox < Track.b2 bbox -> Track.b1 bbox < Track.b3 bbox ->
     TargetLockSystem._calculate_coverage bbox box = 1 /\
     (box = TargetLockSystem.target_hit_area self ->
      TargetLockSystem.is_bbox_in_target_area self bbox = Some true)) /\
    is_Some (TargetLockSystem.is_bbox_in_target_area self bbox) /\
    (TargetLockSystem.is_bbox_in_target_area self bbox = Some true ->
     is_Some (TargetLockSystem.overlap bbox
                (TargetLockSystem.target_hit_area self))).
Proof.
  intros self bbox box.
  assert (Hcov : forall a,
            TargetLockSystem.overlap bbox box = Some a ->
            TargetLockSystem._calculate_coverage bbox box
            = a / TargetLockSystem.bbox_area bbox).
  { intros a Ha. unfold TargetLockSystem._calculate_coverage. rewrite Ha.
    destruct (overlap_spec bbox box a Ha) as (_ & _ & _ & Hb & _).
    rewrite Rltb_true by exact Hb. reflexivity. }
  assert (Hratio : forall a b, 0 < a -> a <= b -> 0 < a / b <= 1).
  { intros a b Ha Hab.
    assert (Hb : 0 < b) by lra.
    assert (Hinv : 0 < / b) by (apply Rinv_0_lt_compat; exact Hb).
    assert (Hone : b * / b = 1) by (apply Rinv_r; lra).
    unfold Rdiv. split; [apply Rmult_lt_0_compat; assumption |].
    rewrite <- Hone. apply Rmult_le_compat_r; lra. }
  split; [| split; [| split; [| split; [| split]]]].
  - destruct (TargetLockSystem.overlap bbox box) as [a |] eqn:Ha.
    + rewrite (Hcov a eq_refl).
      destruct (overlap_spec bbox box a Ha) as (H0 & Hle & _).
      pose proof (Hratio _ _ H0 Hle). lra.
    + unfold TargetLockSystem._calculate_coverage. rewrite Ha. lra.
  - destruct (TargetLockSystem.overlap bbox box) as [a |] eqn:Ha.
    + rewrite (Hcov a eq_refl).
      destruct (overlap_spec bbox box a Ha) as (H0 & Hle & _).
      pose proof (Hratio _ _ H0 Hle). split; [eauto | lra].
    + unfold TargetLockSystem._calculate_coverage. rewrite Ha.
      split; [lra | intros [x Hx]; discriminate].
  - intros [a Ha].
    destruct (overlap_spec bbox box a Ha) as (_ & _ & _ & Hb & Hr). auto.
  - intros H1 H2 H3 H4 H5 H6.
    pose proof (overlap_inside bbox box H1 H2 H3 H4 H5 H6) as Ho.
    destruct (overlap_spec bbox box _ Ho) as (Hb & _ & Hle & _ & Hr).
    split.
    + rewrite (Hcov _ Ho). unfold Rdiv. apply Rinv_r. lra.
    + intros ->. unfold TargetLockSystem.is_bbox_in_target_area.
      rewrite Ho.
      unfold Py.Reqb.
      destruct (Req_dec_T (TargetLockSystem.bbox_area bbox) 0); [lra |].
      destruct (Req_dec_T
                  (TargetLockSystem.rect_area
                     (TargetLockSystem.target_hit_area self)) 0); [lra |].
      f_equal. apply orb_true_iff. left. apply Rleb_true.
      replace (TargetLockSystem.bbox_area bbox
               / TargetLockSystem.bbox_area bbox) with 1; [lra |].
      unfold Rdiv. symmetry. apply Rinv_r. lra.
  - unfold TargetLockSystem.is_bbox_in_target_area.
    destruct (TargetLockSystem.overlap bbox
                (TargetLockSystem.target_hit_area self)) as [a |] eqn:Ha;
      [| eauto].
    destruct (overlap_spec _ _ a Ha) as (_ & _ & _ & Hb & Hr).
    unfold Py.Reqb.
    destruct (Req_dec_T (TargetLockSystem.bbox_area bbox) 0); [lra |].
    destruct (Req_dec_T
                (TargetLockSystem.rect_area
                   (TargetLockSystem.target_hit_area self)) 0); [lra |].
    eauto.
  - unfold TargetLockSystem.is_bbox_in_target_area.
    destruct (TargetLockSystem.overlap bbox
                (TargetLockSystem.target_hit_area self)) as [a |];
      [eauto | discriminate].
Qed.

Lemma X21_witness :
  TargetLockSystem._calculate_coverage (Track.mk_bbox 600 320 680 400)
    (TargetLockSystem.lock_zone TargetLockSystem.default) = 1.
Proof.
  apply (X21_overlap_ratios TargetLockSystem.default
           (Track.mk_bbox 600 320 680 400)
           (TargetLockSystem.lock_zone TargetLockSystem.default));
    rewrite ?default_lock_zone;
    cbv [Track.b0 Track.b1 Track.b2 Track.b3
         TargetLockSystem.x1 TargetLockSystem.x2
         TargetLockSystem.y1 TargetLockSystem.y2]; lra.
Defined.

(** ** Kalman tracker: frames without detections *)

Section PruneFacts.
Import KalmanTracker.
Context {KF : Type}.
Variable kf0 : KF.
Variable predict : KF -> KF * (R * R).
Variable associate :
  @t KF -> list Track.tracked_object -> @t KF * Track.tracked_objects.

Lemma PyDict_get_app_fresh {V : Type} (d1 d2 : PyDict.t Z V) (k : Z) :
  k ∉ PyDict.keys d1 -> PyDict.get (d1 ++ d2) k = PyDict.get d2 k.
Proof.
  induction d1 as [| [k' v'] d1 IH]; intros Hk; simpl; [reflexivity |].
  simpl in Hk. apply not_elem_of_cons in Hk as [Hne Hk].
  rewrite decide_False by congruence. auto.
Qed.

Lemma PyDict_set_app_fresh {V : Type} (d1 d2 : PyDict.t Z V) (k : Z) (v : V) :
  k ∉ PyDict.keys d1 ->
  PyDict.set (d1 ++ d2) k v = d1 ++ PyDict.set d2 k v.
Proof.
  induction d1 as [| [k' v'] d1 IH]; intros Hk; simpl; [reflexivity |].
  simpl in Hk. apply not_elem_of_cons in Hk as [Hne Hk].
  rewrite decide_False by congruence. rewrite IH by exact Hk. reflexivity.
Qed.

Lemma PyDict_del_app_fresh {V : Type} (d1 d2 : PyDict.t Z V) (k : Z) :
  k ∉ PyDict.keys d1 ->
  PyDict.del (d1 ++ d2) k = d1 ++ PyDict.del d2 k.
Proof.
  induction d1 as [| [k' v'] d1 IH]; intros Hk; simpl; [reflexivity |].
  simpl in Hk. apply not_elem_of_cons in Hk as [Hne Hk].
  rewrite decide_False by congruence. rewrite IH by exact Hk. reflexivity.
Qed.

(** The loop over the recorded ids, started in the middle: the ids
    before the current position are done, the others are still to age. *)
Lemma sweep (todo : PyDict.t Z Z) :
  forall (otodo : PyDict.t Z ((R * R) * KF)) (self : @t KF)
         (pre : PyDict.t Z Z) (opre : PyDict.t Z ((R * R) * KF)),
    disappeared self = pre ++ todo ->
    objects self = opre ++ otodo ->
    PyDict.keys opre = PyDict.keys pre ->
    PyDict.keys otodo = PyDict.keys todo ->
    NoDup (PyDict.keys (pre ++ todo)) ->
    let self1 := fold_left mark_disappeared (PyDict.keys todo) self in
    disappeared self1 = pre ++ aged (max_disappeared self) todo /\
    objects self1 = opre ++ kept (max_disappeared self) todo otodo /\
    next_object_id self1 = next_object_id self /\
    max_disappeared self1 = max_disappeared self /\
    max_distance self1 = max_distance self /\
    min_confidence self1 = min_confidence self.
Proof.
  induction todo as [| [k c] todo IH];
    intros otodo self pre opre Hd Ho Hkpre Hktodo Hnd.
  - destruct otodo; [| discriminate]. simpl. rewrite Hd, Ho. auto 10.
  - destruct otodo as [| [k' v] otodo]; [discriminate |].
    simpl in Hktodo. injection Hktodo as -> Hktodo.
    assert (Hfresh : k ∉ PyDict.keys pre).
    { rewrite keys_app in Hnd. apply NoDup_app in Hnd as (_ & Hdis & _).
      intros Hin. apply (Hdis k Hin). simpl. left. }
    assert (Hfresh' : k ∉ PyDict.keys opre) by (rewrite Hkpre; exact Hfresh).
    cbn [PyDict.keys map fst fold_left].
    change (map fst todo) with (PyDict.keys todo).
    assert (Hget : PyDict.get (disappeared self) k = Some c).
    { rewrite Hd, PyDict_get_app_fresh by exact Hfresh. simpl.
      rewrite decide_True by reflexivity. reflexivity. }
    assert (Hset : PyDict.set (disappeared self) k (c + 1)%Z
                   = pre ++ (k, (c + 1)%Z) :: todo).
    { rewrite Hd, PyDict_set_app_fresh by exact Hfresh. simpl.
      rewrite decide_True by reflexivity. reflexivity. }
    assert (Hmark :
              mark_disappeared self k
              = let self1 :=
                  mk (next_object_id self) (objects self)
                     (pre ++ (k, (c + 1)%Z) :: todo)
                     (max_disappeared self) (max_distance self)
                     (min_confidence self) in
                if (max_disappeared self <? c + 1)%Z
                then deregister self1 k else self1).
    { unfold mark_disappeared. rewrite Hget.
      change (default 0%Z (Some c)) with c. rewrite Hset. reflexivity. }
    rewrite Hmark. cbv zeta.
    unfold aged. cbn [map List.filter fst snd kept].
    fold (aged (max_disappeared self) todo).
    rewrite (Z.leb_antisym (max_disappeared self) (c + 1)).
    destruct (max_disappeared self <? c + 1)%Z eqn:Elt; cbn [negb].
    + (* the track is dropped *)
      edestruct (IH otodo
                   (deregister
                      (mk (next_object_id self) (objects self)
                         (pre ++ (k, (c + 1)%Z) :: todo)
                         (max_disappeared self) (max_distance self)
                         (min_confidence self)) k) pre opre)
        as (H1 & H2 & H3 & H4 & H5 & H6).
      * simpl. rewrite PyDict_del_app_fresh by exact Hfresh. simpl.
        rewrite decide_True by reflexivity. reflexivity.
      * simpl. rewrite Ho, PyDict_del_app_fresh by exact Hfresh'. simpl.
        rewrite decide_True by reflexivity. reflexivity.
      * exact Hkpre.
      * exact Hktodo.
      * rewrite keys_app in *. simpl in Hnd.
        apply NoDup_app in Hnd as (N1 & N2 & N3).
        apply NoDup_cons in N3 as [N3 N4].
        apply NoDup_app. split; [exact N1 |]. split; [| exact N4].
        intros x Hx Hx'. apply (N2 x Hx). right. exact Hx'.
      * simpl in H1, H2, H3, H4, H5, H6. auto 10.
    + (* the track stays with its count incremented *)
      edestruct (IH otodo
                   (mk (next_object_id self) (objects self)
                      (pre ++ (k, (c + 1)%Z) :: todo)
                      (max_disappeared self) (max_distance self)
                      (min_confidence self))
                   (pre ++ [(k, (c + 1)%Z)]) (opre ++ [(k, v)]))
        as (H1 & H2 & H3 & H4 & H5 & H6).
      * simpl. rewrite <- app_assoc. reflexivity.
      * simpl. rewrite Ho, <- app_assoc. reflexivity.
      * rewrite !keys_app, Hkpre. reflexivity.
      * exact Hktodo.
      * rewrite <- app_assoc. simpl. rewrite keys_app in *. exact Hnd.
      * simpl in H1, H2, H3, H4, H5, H6.
        rewrite <- !app_assoc in H1, H2. simpl in H1, H2. auto 10.
Qed.

Lemma keys_kept {V : Type} (max : Z) (d : PyDict.t Z Z) :
  forall objs : PyDict.t Z V,
    PyDict.keys objs = PyDict.keys d ->
    PyDict.keys (kept max d objs) = PyDict.keys (aged max d).
Proof.
  induction d as [| [k c] d IH]; intros [| [k' v] objs] H; try discriminate;
    [reflexivity |].
  simpl in H. injection H as -> H.
  unfold aged. cbn [kept map List.filter fst snd]. fold (aged max d).
  rewrite (Z.leb_antisym max (c + 1)).
  destruct (max <? c + 1)%Z; cbn [negb]; simpl; rewrite IH by exact H;
    reflexivity.
Qed.

Lemma kept_sub {V : Type} (max : Z) (d : PyDict.t Z Z) :
  forall (objs : PyDict.t Z V) (p : Z * V),
    p ∈ kept max d objs -> p ∈ objs.
Proof.
  induction d as [| [k c] d IH]; intros [| o objs] p Hp;
    try (simpl in Hp; inversion Hp; fail).
  cbn [kept] in Hp. destruct (max <? c + 1)%Z.
  - right. apply (IH objs p Hp).
  - apply elem_of_cons in Hp as [-> | Hp]; [left | right; apply (IH objs p Hp)].
Qed.

Lemma aged_keys_sub (max : Z) (d : PyDict.t Z Z) (k : Z) :
  k ∈ PyDict.keys (aged max d) -> k ∈ PyDict.keys d.
Proof.
  induction d as [| [k' c] d IH]; [intros H; exact H |].
  unfold aged. cbn [map List.filter fst snd]. fold (aged max d).
  destruct (c + 1 <=? max)%Z; simpl.
  - intros H. apply elem_of_cons in H as [-> | H]; [left | right; auto].
  - intros H. right. auto.
Qed.

Lemma aged_NoDup (max : Z) (d : PyDict.t Z Z) :
  NoDup (PyDict.keys d) -> NoDup (PyDict.keys (aged max d)).
Proof.
  induction d as [| [k c] d IH]; intros Hnd; [exact Hnd |].
  simpl in Hnd. apply NoDup_cons in Hnd as [Hk Hnd].
  unfold aged. cbn [map List.filter fst snd]. fold (aged max d).
  destruct (c + 1 <=? max)%Z; simpl; [| auto].
  apply NoDup_cons. split; [| auto].
  intros Hin. apply Hk, (aged_keys_sub max d k Hin).
Qed.

(** After aging, every count is one more than some count before it and
    does not exceed [max]. *)
Lemma aged_values (max lo : Z) (d : PyDict.t Z Z) :
  Forall (fun c => (lo <= c)%Z) (PyDict.values d) ->
  Forall (fun c => (lo + 1 <= c <= max)%Z) (PyDict.values (aged max d)).
Proof.
  induction d as [| [k c] d IH]; intros H; [constructor |].
  simpl in H. apply Forall_cons in H as [Hc H].
  unfold aged. cbn [map List.filter fst snd]. fold (aged max d).
  destruct (Z.leb_spec (c + 1) max); simpl; [| auto].
  constructor; [lia | auto].
Qed.

Lemma aged_get (max : Z) (d : PyDict.t Z Z) (k : Z) :
  NoDup (PyDict.keys d) ->
  PyDict.get (aged max d) k
  = match PyDict.get d k with
    | Some c => if (max <? c + 1)%Z then None else Some (c + 1)%Z
    | None => None
    end.
Proof.
  induction d as [| [k' c] d IH]; intros Hnd; [reflexivity |].
  simpl in Hnd. apply NoDup_cons in Hnd as [Hk Hnd].
  unfold aged. cbn [map List.filter fst snd]. fold (aged max d).
  rewrite (Z.leb_antisym max (c + 1)). simpl.
  destruct (decide (k' = k)) as [-> | Hne].
  - destruct (max <? c + 1)%Z; simpl.
    + rewrite IH by exact Hnd.
      destruct (PyDict.get d k) as [c' |] eqn:E; [| reflexivity].
      exfalso. apply Hk. clear -E.
      induction d as [| [k1 c1] d IHd]; [discriminate |].
      simpl in E. destruct (decide (k1 = k)) as [-> | ?]; [left | right; auto].
    + rewrite decide_True by reflexivity. reflexivity.
  - destruct (max <? c + 1)%Z; simpl.
    + apply IH, Hnd.
    + rewrite decide_False by exact Hne. apply IH, Hnd.
Qed.

(** The prediction loop keeps ids and centroids and reports one
    predicted entry per id. *)
Lemma predict_all_spec (objs : PyDict.t Z ((R * R) * KF)) :
  PyDict.keys (fst (predict_all predict objs)) = PyDict.keys objs /\
  PyDict.keys (snd (predict_all predict objs)) = PyDict.keys objs /\
  (forall k c kf,
     (k, (c, kf)) ∈ fst (predict_all predict objs) ->
     exists kf', (k, (c, kf')) ∈ objs) /\
  (forall k o,
     (k, o) ∈ snd (predict_all predict objs) ->
     Track.confidence o = 1 / 2 /\
     Track.bbox o
     = Track.mk_bbox (fst (Track.centroid o) - 50) (snd (Track.centroid o) - 50)
         (fst (Track.centroid o) + 50) (snd (Track.centroid o) + 50)).
Proof.
  induction objs as [| [k [c kf]] objs (IH1 & IH2 & IH3 & IH4)].
  - simpl. repeat split; intros; try reflexivity;
      match goal with H : _ ∈ [] |- _ => inversion H end.
  - simpl. destruct (predict kf) as [kf' pc].
    destruct (predict_all predict objs) as [rest' tracked]. simpl in *.
    split; [f_equal; exact IH1 |]. split; [f_equal; exact IH2 |].
    split.
    + intros k0 c0 kf0' H. apply elem_of_cons in H as [H | H].
      * injection H as -> -> ->. exists kf. left.
      * destruct (IH3 k0 c0 kf0' H) as [kf1 H1]. exists kf1. right. exact H1.
    + intros k0 o H. apply elem_of_cons in H as [H | H].
      * injection H as -> ->. simpl. auto.
      * apply (IH4 k0 o H).
Qed.

Lemma values_nil {V : Type} (d : PyDict.t Z V) :
  PyDict.keys d = [] -> d = [].
Proof. destruct d; [reflexivity | discriminate]. Qed.

(** One update without detections. *)
Lemma update_empty_spec (self : @t KF) :
  well_formed self ->
  let r := update kf0 predict associate self [] in
  disappeared (fst r) = aged (max_disappeared self) (disappeared self) /\
  PyDict.keys (objects (fst r)) = PyDict.keys (disappeared (fst r)) /\
  PyDict.keys (snd r) = PyDict.keys (objects (fst r)) /\
  next_object_id (fst r) = next_object_id self /\
  max_disappeared (fst r) = max_disappeared self /\
  (forall k c kf, (k, (c, kf)) ∈ objects (fst r) ->
                  exists kf', (k, (c, kf')) ∈ objects self) /\
  (forall k o,
     (k, o) ∈ snd r ->
     Track.confidence o = 1 / 2 /\
     Track.bbox o
     = Track.mk_bbox (fst (Track.centroid o) - 50) (snd (Track.centroid o) - 50)
         (fst (Track.centroid o) + 50) (snd (Track.centroid o) + 50)).
Proof.
  intros (Hk & Hnd & Hpos). cbv zeta. unfold update. cbn [map].
  destruct (sweep (disappeared self) (objects self) self [] []
              eq_refl eq_refl eq_refl Hk Hnd)
    as (H1 & H2 & H3 & H4 & H5 & H6).
  cbv zeta in H1, H2, H3, H4, H5, H6. simpl in H1, H2.
  set (self1 := fold_left mark_disappeared
                  (PyDict.keys (disappeared self)) self) in *.
  pose proof (predict_all_spec (objects self1)) as (P1 & P2 & P3 & P4).
  destruct (predict_all predict (objects self1)) as [objects' tracked].
  simpl in *.
  split; [exact H1 |].
  split; [rewrite P1, H2, H1; apply keys_kept, Hk |].
  split; [rewrite P1, P2; reflexivity |].
  split; [exact H3 |]. split; [exact H4 |].
  split; [| exact P4].
  intros k c kf Hin. destruct (P3 k c kf Hin) as [kf' Hin'].
  exists kf'. rewrite H2 in Hin'. eapply kept_sub. exact Hin'.
Qed.

Lemma update_empty_well_formed (self : @t KF) (lo : Z) :
  well_formed self ->
  Forall (fun c => (lo <= c)%Z) (PyDict.values (disappeared self)) ->
  let self' := fst (update kf0 predict associate self []) in
  well_formed self' /\
  Forall (fun c => (lo + 1 <= c <= max_disappeared self)%Z)
    (PyDict.values (disappeared self')).
Proof.
  intros Hwf Hlo. pose proof Hwf as (Hk & Hnd & Hpos).
  destruct (update_empty_spec self Hwf) as (H1 & H2 & _).
  cbv zeta in *.
  split; [| rewrite H1; apply aged_values; exact Hlo].
  unfold well_formed.
  split; [exact H2 |]. rewrite H1. split; [apply aged_NoDup, Hnd |].
  eapply Forall_impl; [apply (aged_values _ 0), Hpos |].
  simpl. intros c Hc. lia.
Qed.

Lemma updates_empty_counts (n : nat) :
  forall (self : @t KF) (lo : Z),
    well_formed self ->
    Forall (fun c => (lo <= c)%Z) (PyDict.values (disappeared self)) ->
    let self' := updates_empty kf0 predict associate n self in
    well_formed self' /\
    max_disappeared self' = max_disappeared self /\
    Forall (fun c => (lo + Z.of_nat n <= c)%Z)
      (PyDict.values (disappeared self')) /\
    ((0 < n)%nat ->
     Forall (fun c => (c <= max_disappeared self)%Z)
       (PyDict.values (disappeared self'))).
Proof.
  induction n as [| n IH]; intros self lo Hwf Hlo.
  - simpl. split; [exact Hwf |]. split; [reflexivity |].
    split; [| lia].
    eapply Forall_impl; [exact Hlo |]. simpl. intros c Hc. lia.
  - cbn [updates_empty].
    destruct (update_empty_well_formed self lo Hwf Hlo) as (Hwf' & Hlo').
    destruct (update_empty_spec self Hwf) as (_ & _ & _ & _ & Hmax & _).
    cbv zeta in Hwf', Hlo', Hmax.
    set (self1 := fst (update kf0 predict associate self [])) in *.
    assert (Hlo1 : Forall (fun c => (lo + 1 <= c)%Z)
                     (PyDict.values (disappeared self1))).
    { eapply Forall_impl; [exact Hlo' |]. simpl. intros c Hc. lia. }
    destruct (IH self1 (lo + 1)%Z Hwf' Hlo1) as (I1 & I2 & I3 & I4).
    cbv zeta in I1, I2, I3, I4. cbv zeta.
    split; [exact I1 |]. split; [congruence |].
    split.
    + eapply Forall_impl; [exact I3 |]. simpl. intros c Hc. lia.
    + intros _. destruct n as [| n'].
      * simpl. eapply Forall_impl; [exact Hlo' |]. simpl. intros c Hc. lia.
      * rewrite <- Hmax. apply I4. lia.
Qed.

End PruneFacts.

Section PruneRuns.
Import KalmanTracker.
Context {KF : Type}.
Variable kf0 : KF.
Variable predict : KF -> KF * (R * R).
Variable associate :
  @t KF -> list Track.tracked_object -> @t KF * Track.tracked_objects.

Lemma update_empty_get (self : @t KF) (k : Z) :
  well_formed self ->
  PyDict.get (disappeared (fst (update kf0 predict associate self []))) k
  = match PyDict.get (disappeared self) k with
    | Some c =>
        if (max_disappeared self <? c + 1)%Z then None else Some (c + 1)%Z
    | None => None
    end.
Proof.
  intros Hwf. pose proof Hwf as (_ & Hnd & _).
  destruct (update_empty_spec kf0 predict associate self Hwf) as (H1 & _).
  cbv zeta in H1. rewrite H1. apply aged_get, Hnd.
Qed.

Lemma update_empty_keeps_well_formed (self : @t KF) :
  well_formed self ->
  well_formed (fst (update kf0 predict associate self [])) /\
  max_disappeared (fst (update kf0 predict associate self []))
  = max_disappeared self.
Proof.
  intros Hwf. pose proof Hwf as (_ & _ & Hpos).
  split.
  - apply (update_empty_well_formed kf0 predict associate self 0 Hwf Hpos).
  - apply (update_empty_spec kf0 predict associate self Hwf).
Qed.

Lemma updates_empty_get_none (n : nat) :
  forall (self : @t KF) (k : Z),
    well_formed self ->
    PyDict.get (disappeared self) k = None ->
    PyDict.get
      (disappeared (updates_empty kf0 predict associate n self)) k = None.
Proof.
  induction n as [| n IH]; intros self k Hwf Hget; [exact Hget |].
  cbn [updates_empty]. apply IH.
  - apply update_empty_keeps_well_formed, Hwf.
  - rewrite update_empty_get, Hget by exact Hwf. reflexivity.
Qed.

Lemma updates_empty_get (n : nat) :
  forall (self : @t KF) (k c : Z),
    well_formed self ->
    PyDict.get (disappeared self) k = Some c ->
    PyDict.get
      (disappeared (updates_empty kf0 predict associate (S n) self)) k
    = if (max_disappeared self <? c + Z.of_nat (S n))%Z then None
      else Some (c + Z.of_nat (S n))%Z.
Proof.
  induction n as [| n IH]; intros self k c Hwf Hget.
  - cbn [updates_empty]. rewrite update_empty_get, Hget by exact Hwf.
    reflexivity.
  - remember (S n) as m eqn:Hm. cbn [updates_empty].
    destruct (update_empty_keeps_well_formed self Hwf) as [Hwf' Hmax].
    pose proof (update_empty_get self k Hwf) as Hone. rewrite Hget in Hone.
    destruct (Z.ltb_spec (max_disappeared self) (c + 1)) as [Hlt | Hge].
    + rewrite updates_empty_get_none by assumption.
      destruct (Z.ltb_spec (max_disappeared self) (c + Z.of_nat (S m)));
        [reflexivity | lia].
    + subst m. rewrite (IH _ k (c + 1)%Z Hwf' Hone), Hmax.
      replace (c + 1 + Z.of_nat (S n))%Z with (c + Z.of_nat (S (S n)))%Z
        by lia.
      reflexivity.
Qed.

Lemma updates_empty_all_gone (n : nat) (self : @t KF) :
  well_formed self ->
  (0 < n)%nat ->
  (max_disappeared self < Z.of_nat n)%Z ->
  objects (updates_empty kf0 predict associate n self) = [] /\
  disappeared (updates_empty kf0 predict associate n self) = [].
Proof.
  intros Hwf Hpos_n Hn. pose proof Hwf as (_ & _ & Hpos).
  destruct (updates_empty_counts kf0 predict associate n self 0 Hwf Hpos)
    as ((Hk & _) & _ & Hlo & Hhi).
  cbv zeta in Hk, Hlo, Hhi.
  assert (Hd : disappeared (updates_empty kf0 predict associate n self) = []).
  { destruct (disappeared (updates_empty kf0 predict associate n self))
      as [| [k c] d]; [reflexivity |].
    exfalso. simpl in Hlo, Hhi.
    apply Forall_cons in Hlo as [Hlo _].
    specialize (Hhi Hpos_n). apply Forall_cons in Hhi as [Hhi _]. lia. }
  split; [| exact Hd].
  apply values_nil. rewrite Hk, Hd. reflexivity.
Qed.

End PruneRuns.



(** X23. Successive tracker updates without detections.  After [n >= 1]
    of them a track whose count was [c] is still recorded exactly when
    [c + n] does not exceed [max_disappeared], and then with count
    [c + n]; an id without a track never gets one.  So once [n >= 1]
    exceeds [max_disappeared] both dictionaries are empty. *)
Theorem X23_lost_tracks_expire :
  forall (KF : Type) (kf0 : KF) (predict : KF -> KF * (R * R))
         (associate : @KalmanTracker.t KF -> list Track.tracked_object ->
                      @KalmanTracker.t KF * Track.tracked_objects)
         (self : @KalmanTracker.t KF) (n : nat),
    KalmanTracker.well_formed self ->
    let self' := KalmanTracker.updates_empty kf0 predict associate n self in
    (forall k c : Z,
       (0 < n)%nat ->
       PyDict.get (KalmanTracker.disappeared self) k = Some c ->
       PyDict.get (KalmanTracker.disappeared self') k
       = if (KalmanTracker.max_disappeared self <? c + Z.of_nat n)%Z
         then None else Some (c + Z.of_nat n)%Z) /\
    (forall k : Z,
       PyDict.get (KalmanTracker.disappeared self) k = None ->
       PyDict.get (KalmanTracker.disappeared self') k = None) /\
    ((0 < n)%nat ->
     (KalmanTracker.max_disappeared self < Z.of_nat n)%Z ->
     KalmanTracker.objects self' = [] /\
     KalmanTracker.disappeared self' = []).
Proof.
  intros KF kf0 predict associate self n Hwf self'.
  split; [| split].
  - intros k c Hn Hget. destruct n as [| n]; [lia |].
    apply updates_empty_get; assumption.
  - intros k Hget. apply updates_empty_get_none; assumption.
  - intros Hpos Hn. apply updates_empty_all_gone; assumption.
Qed.

Lemma X23_witness :
  KalmanTracker.well_formed KalmanTracker.one_track /\
  (KalmanTracker.max_disappeared KalmanTracker.one_track < Z.of_nat 3)%Z /\
  KalmanTracker.objects
    (KalmanTracker.updates_empty tt KalmanTracker.unit_predict
       KalmanTracker.no_associate 3 KalmanTracker.one_track) = [].
Proof.
  assert (Hwf : KalmanTracker.well_formed KalmanTracker.one_track).
  { split; [reflexivity |]. split; repeat constructor.
    - intros H. inversion H.
    - simpl. lia. }
  assert (Hn : (KalmanTracker.max_disappeared KalmanTracker.one_track
                < Z.of_nat 3)%Z) by (simpl; lia).
  split; [exact Hwf |]. split; [exact Hn |].
  apply (X23_lost_tracks_expire unit tt KalmanTracker.unit_predict
           KalmanTracker.no_associate KalmanTracker.one_track 3 Hwf);
    [lia | exact Hn].
Defined.

(** ** No-fly zones: avoidance vector, violated zones, activation *)

Section AvoidanceFacts.
Import NoFlyZoneController.

Lemma norm_nonneg (v : Vec3.t) : 0 <= Vec3.norm v.
Proof. apply sqrt_pos. Qed.

Lemma norm_sqr (v : Vec3.t) :
  Vec3.norm v * Vec3.norm v
  = Vec3.x v * Vec3.x v + Vec3.y v * Vec3.y v + Vec3.z v * Vec3.z v.
Proof. unfold Vec3.norm. apply sqrt_sqrt. nra. Qed.

(** Dividing a vector by its positive length gives a vector of length 1. *)
Lemma norm_div_unit (v : Vec3.t) :
  0 < Vec3.norm v -> Vec3.norm (Vec3.div v (Vec3.norm v)) = 1.
Proof.
  intros Hpos. pose proof (norm_sqr v) as Hsq.
  set (m := Vec3.norm v) in *.
  unfold Vec3.norm at 1. unfold Vec3.div. simpl.
  replace (Vec3.x v / m * (Vec3.x v / m) + Vec3.y v / m * (Vec3.y v / m)
           + Vec3.z v / m * (Vec3.z v / m))
    with ((Vec3.x v * Vec3.x v + Vec3.y v * Vec3.y v + Vec3.z v * Vec3.z v)
          / (m * m)) by (field; lra).
  rewrite <- Hsq.
  replace (m * m / (m * m)) with 1 by (field; lra).
  apply sqrt_1.
Qed.

(** A vector whose length is not positive is the zero vector. *)
Lemma norm_not_positive (v : Vec3.t) :
  ~ 0 < Vec3.norm v -> v = Vec3.zeros.
Proof.
  intros Hn. pose proof (norm_nonneg v) as H0. pose proof (norm_sqr v) as Hsq.
  assert (Hz : Vec3.norm v = 0) by lra. rewrite Hz in Hsq.
  destruct v as [a b c]. simpl in Hsq. unfold Vec3.zeros.
  assert (a = 0) by nra. assert (b = 0) by nra. assert (c = 0) by nra.
  subst. reflexivity.
Qed.

(** The repulsion loop never leaves the horizontal plane. *)
Lemma repulsion_z (margin : R) (pos : Vec3.t)
    (zs : PyDict.t string NoFlyZone) :
  forall (av : Vec3.t) (ti : R) (vz : list string),
    Vec3.z (fst (fst (repulsion margin pos zs (av, ti, vz)))) = Vec3.z av.
Proof.
  induction zs as [| [id zone] rest IH]; intros av ti vz; simpl;
    [reflexivity |].
  destruct (negb (is_active zone)); [apply IH |].
  destruct (Py.Rleb _ _); [| apply IH].
  destruct (Py.Rltb 0 _); rewrite IH; simpl; [ring | reflexivity].
Qed.

(** The distance of the avoidance loop is the one of the zone check. *)
Lemma avoidance_distance (pos : Vec3.t) (zone : NoFlyZone) :
  Vec3.norm_xy (Vec3.set_z (Vec3.sub (center zone) pos) 0)
  = distance_to pos zone.
Proof.
  unfold Vec3.norm_xy, distance_to. simpl. f_equal. ring.
Qed.

(** Whether [update] counts a zone as violated. *)
Lemma check_zone_violated (pos : Vec3.t) (now : R) (zone : NoFlyZone) :
  snd (check_zone pos now zone) = is_active zone && is_point_in_zone pos zone.
Proof.
  unfold check_zone. destruct (is_active zone); simpl; [| reflexivity].
  destruct (is_point_in_zone pos zone); [| reflexivity].
  destruct (last_violation_check zone); reflexivity.
Qed.

Lemma repulsion_violated (margin : R) (pos : Vec3.t)
    (zs : PyDict.t string NoFlyZone) :
  0 <= margin ->
  forall (av : Vec3.t) (ti : R) (vz : list string),
    snd (repulsion margin pos zs (av, ti, vz))
    = vz ++ map fst (List.filter
                       (fun kv => is_active (snd kv)
                                  && is_point_in_zone pos (snd kv)) zs).
Proof.
  intros Hm. induction zs as [| [id zone] rest IH]; intros av ti vz; simpl.
  - rewrite app_nil_r. reflexivity.
  - destruct (is_active zone); simpl; [| apply IH].
    rewrite avoidance_distance. unfold is_point_in_zone at 1.
    destruct (Py.Rleb (distance_to pos zone) (radius zone + margin)) eqn:Hext.
    + destruct (Py.Rltb 0 (distance_to pos zone));
        destruct (Py.Rleb (distance_to pos zone) (radius zone));
        rewrite IH; simpl; rewrite <- ?app_assoc; reflexivity.
    + apply Rleb_false_inv in Hext.
      rewrite Rleb_false by lra. apply IH.
Qed.

Lemma check_zones_violations (rate : R) (pos : Vec3.t) (now : R)
    (zs : PyDict.t string NoFlyZone) :
  forall (pen : R) (viol : gset string),
    snd (check_zones rate pos now zs pen viol)
    = viol ∪ list_to_set
               (map fst (List.filter
                           (fun kv => is_active (snd kv)
                                      && is_point_in_zone pos (snd kv)) zs)).
Proof.
  induction zs as [| [id z] rest IH]; intros pen viol; simpl.
  - set_solver.
  - pose proof (check_zone_violated pos now z) as Hv.
    destruct (check_zone pos now z) as [[z' added] violated]. simpl in Hv.
    match goal with
    | |- context [check_zones rate pos now rest ?p ?v] =>
        specialize (IH p v); destruct (check_zones rate pos now rest p v)
          as [[rest' pen'] viol']
    end.
    simpl in *. rewrite IH, <- Hv.
    destruct violated; simpl; set_solver.
Qed.

End AvoidanceFacts.

(** X24. The avoidance vector of [calculate_avoidance_vector] always lies
    in the horizontal plane (its third component is 0) and is either the
    zero vector or a vector of length 1, with or without a target
    position. *)
Theorem X24_avoidance_vector_shape :
  forall (self : NoFlyZoneController.t) (current_pos current_vel : Vec3.t)
         (target_pos : option Vec3.t),
    let v := fst (NoFlyZoneController.calculate_avoidance_vector self
                    current_pos current_vel target_pos) in
    Vec3.z v = 0 /\ (v = Vec3.zeros \/ Vec3.norm v = 1).
Proof.
  intros self pos vel tgt. cbv zeta.
  unfold NoFlyZoneController.calculate_avoidance_vector.
  pose proof (repulsion_z (NoFlyZoneController.safety_margin self) pos
                (NoFlyZoneController.zones self) Vec3.zeros 0 []) as Hz.
  destruct (NoFlyZoneController.repulsion _ _ _ _) as [[av ti] vz].
  simpl in Hz.
  set (v1 := if Py.Rltb 0 ti then Vec3.div av ti else av).
  assert (Hz1 : Vec3.z v1 = 0).
  { unfold v1. destruct (Py.Rltb 0 ti); simpl; rewrite Hz;
      [unfold Rdiv; ring | reflexivity]. }
  set (v2 := match tgt with
             | Some target_pos =>
                 if Vec3.any v1 then
                   if Py.Rltb 0
                        (Vec3.norm_xy
                           (Vec3.set_z (Vec3.sub target_pos pos) 0))
                   then
                     Vec3.add (Vec3.scale (1 / 2) v1)
                       (Vec3.scale (1 / 2)
                          (Vec3.div (Vec3.set_z (Vec3.sub target_pos pos) 0)
                             (Vec3.norm
                                (Vec3.set_z (Vec3.sub target_pos pos) 0))))
                   else v1
                 else v1
             | None => v1
             end).
  assert (Hz2 : Vec3.z v2 = 0).
  { unfold v2. destruct tgt as [tp |]; [| exact Hz1].
    destruct (Vec3.any v1); [| exact Hz1].
    destruct (Py.Rltb 0 (Vec3.norm_xy _)); [| exact Hz1].
    simpl. rewrite Hz1. unfold Rdiv. ring. }
  simpl. fold v1. fold v2.
  destruct (Py.Rltb 0 (Vec3.norm v2)) eqn:Hm.
  - apply Rltb_spec in Hm. split.
    + simpl. rewrite Hz2. unfold Rdiv. ring.
    + right. apply norm_div_unit. exact Hm.
  - split; [exact Hz2 |]. left. apply norm_not_positive.
    intros Hpos. apply Rltb_true in Hpos. congruence.
Qed.

(** X25. The zones reported as violated.  [update] reports, and stores
    as current violations, exactly the ids of the active zones that
    contain the position, and [in_violation] says whether there is one.
    With a safety margin that is not negative,
    [calculate_avoidance_vector] lists the same ids, in dictionary
    order. *)
Theorem X25_violated_zones :
  forall (self : NoFlyZoneController.t) (pos vel : Vec3.t)
         (target_pos : option Vec3.t) (clock : R),
    let ids :=
      map fst (List.filter
                 (fun kv =>
                    NoFlyZoneController.is_active (snd kv)
                    && NoFlyZoneController.is_point_in_zone pos (snd kv))
                 (NoFlyZoneController.zones self)) in
    let r := NoFlyZoneController.update self pos clock in
    NoFlyZoneController.violated_zones (snd r) = list_to_set ids /\
    NoFlyZoneController.current_violations (fst r) = list_to_set ids /\
    (NoFlyZoneController.in_violation (snd r) = true <-> ids <> []) /\
    (0 <= NoFlyZoneController.safety_margin self ->
     snd (NoFlyZoneController.calculate_avoidance_vector self pos vel
            target_pos) = ids).
Proof.
  intros self pos vel tgt clock ids r.
  assert (Hv : NoFlyZoneController.violated_zones (snd r) = list_to_set ids
               /\ NoFlyZoneController.current_violations (fst r)
                  = list_to_set ids
               /\ NoFlyZoneController.in_violation (snd r)
                  = bool_decide (list_to_set ids <> (∅ : gset string))).
  { unfold r, NoFlyZoneController.update.
    pose proof (check_zones_violations
                  (NoFlyZoneController.penalty_points_per_second self)
                  pos clock (NoFlyZoneController.zones self)
                  (NoFlyZoneController.total_penalty_points self) ∅) as Hc.
    destruct (NoFlyZoneController.check_zones _ _ _ _ _ _)
      as [[zones' pen] viol].
    simpl in *. fold ids in Hc.
    assert (Hviol : viol = list_to_set ids) by (rewrite Hc; set_solver).
    rewrite Hviol. auto. }
  destruct Hv as (H1 & H2 & H3).
  split; [exact H1 |]. split; [exact H2 |]. split.
  - rewrite H3, bool_decide_eq_true. split.
    + intros Hne Hnil. apply Hne. rewrite Hnil. reflexivity.
    + intros Hne Hempty. destruct ids as [| i ids']; [contradiction |].
      simpl in Hempty. set_solver.
  - intros Hm. unfold NoFlyZoneController.calculate_avoidance_vector.
    pose proof (repulsion_violated (NoFlyZoneController.safety_margin self)
                  pos (NoFlyZoneController.zones self) Hm Vec3.zeros 0 [])
      as Hr.
    destruct (NoFlyZoneController.repulsion _ _ _ _) as [[av ti] vz].
    simpl in *. exact Hr.
Qed.

Lemma X25_witness :
  0 <= NoFlyZoneController.safety_margin
         NoFlyZoneController.with_active_zone /\
  snd (NoFlyZoneController.calculate_avoidance_vector
         NoFlyZoneController.with_active_zone
         NoFlyZoneController.ten_inside Vec3.zeros None)
  = map fst (List.filter
               (fun kv =>
                  NoFlyZoneController.is_active (snd kv)
                  && NoFlyZoneController.is_point_in_zone
                       NoFlyZoneController.ten_inside (snd kv))
               (NoFlyZoneController.zones
                  NoFlyZoneController.with_active_zone)).
Proof.
  assert (Hm : 0 <= NoFlyZoneController.safety_margin
                      NoFlyZoneController.with_active_zone)
    by (simpl; lra).
  split; [exact Hm |].
  apply (X25_violated_zones NoFlyZoneController.with_active_zone
           NoFlyZoneController.ten_inside Vec3.zeros None 0).
  exact Hm.
Defined.

(** X26. Activation of zones.  [add_zone] stores an inactive zone with no
    violation time and leaves the other zones alone.  [activate_zone] and
    [deactivate_zone] do nothing for an unknown id and otherwise switch
    the zone, keeping its violation total and its last-check stamp.  So
    for a zone that is deactivated while its stamp [t0] is set, left
    untouched by an update, reactivated and then checked at [t3] with the
    position inside, the whole time since [t0] is added to the violation
    total, the inactive time included. *)
Theorem X26_zone_activation :
  (forall (c : NoFlyZoneController.t) (id : string)
          (ty : NoFlyZoneController.ZoneType) (centre : Vec3.t)
          (radius clock : R),
      let c' := NoFlyZoneController.add_zone c id ty centre radius clock in
      PyDict.get (NoFlyZoneController.zones c') id
        = Some (NoFlyZoneController.mk_zone id ty centre radius clock
                  false 0 None) /\
      (forall id', id <> id' ->
         PyDict.get (NoFlyZoneController.zones c') id'
         = PyDict.get (NoFlyZoneController.zones c) id')) /\
  (forall (c : NoFlyZoneController.t) (id : string) (clock : R),
      PyDict.get (NoFlyZoneController.zones c) id = None ->
      NoFlyZoneController.activate_zone c id clock = c /\
      NoFlyZoneController.deactivate_zone c id = c) /\
  (forall (c : NoFlyZoneController.t) (id : string)
          (z : NoFlyZoneController.NoFlyZone) (clock : R),
      PyDict.get (NoFlyZoneController.zones c) id = Some z ->
      PyDict.get (NoFlyZoneController.zones
                    (NoFlyZoneController.activate_zone c id clock)) id
        = Some (NoFlyZoneController.set_active z true clock) /\
      PyDict.get (NoFlyZoneController.zones
                    (NoFlyZoneController.deactivate_zone c id)) id
        = Some (NoFlyZoneController.set_active z false
                  (NoFlyZoneController.activation_time z))) /\
  (forall (c : NoFlyZoneController.t) (id : string)
          (z : NoFlyZoneController.NoFlyZone) (pos1 pos : Vec3.t)
          (t0 t1 t2 t3 : R),
      PyDict.get (NoFlyZoneController.zones c) id = Some z ->
      NoFlyZoneController.last_violation_check z = Some t0 ->
      NoFlyZoneController.is_point_in_zone pos z = true ->
      let c1 := NoFlyZoneController.deactivate_zone c id in
      let c2 := fst (NoFlyZoneController.update c1 pos1 t1) in
      let c3 := NoFlyZoneController.activate_zone c2 id t2 in
      let c4 := fst (NoFlyZoneController.update c3 pos t3) in
      exists z4,
        PyDict.get (NoFlyZoneController.zones c4) id = Some z4 /\
        NoFlyZoneController.total_violation_time z4
        = NoFlyZoneController.total_violation_time z + (t3 - t0) /\
        NoFlyZoneController.last_violation_check z4 = Some t3).
Proof.
  split; [| split; [| split]].
  - intros c id ty centre radius clock c'. unfold c'.
    unfold NoFlyZoneController.add_zone. simpl.
    split; [apply PyDict_get_set_eq |].
    intros id' Hne. apply PyDict_get_set_ne. exact Hne.
  - intros c id clock Hn.
    unfold NoFlyZoneController.activate_zone,
      NoFlyZoneController.deactivate_zone. rewrite Hn. auto.
  - intros c id z clock Hz.
    unfold NoFlyZoneController.activate_zone,
      NoFlyZoneController.deactivate_zone. rewrite Hz. simpl.
    split; apply PyDict_get_set_eq.
  - intros c id z pos1 pos t0 t1 t2 t3 Hz Hl Hin c1 c2 c3 c4.
    set (zoff := NoFlyZoneController.set_active z false
                   (NoFlyZoneController.activation_time z)).
    set (zon := NoFlyZoneController.set_active zoff true t2).
    assert (H1 : PyDict.get (NoFlyZoneController.zones c1) id = Some zoff).
    { unfold c1, NoFlyZoneController.deactivate_zone. rewrite Hz. simpl.
      apply PyDict_get_set_eq. }
    assert (H2 : PyDict.get (NoFlyZoneController.zones c2) id = Some zoff).
    { unfold c2. rewrite update_zone, H1. simpl.
      rewrite checked_inactive by reflexivity. reflexivity. }
    assert (H3 : PyDict.get (NoFlyZoneController.zones c3) id = Some zon).
    { unfold c3, NoFlyZoneController.activate_zone. rewrite H2. simpl.
      apply PyDict_get_set_eq. }
    exists (NoFlyZoneController.checked pos t3 zon).
    split; [unfold c4; rewrite update_zone, H3; reflexivity |].
    destruct (checked_inside pos t3 zon eq_refl) as [Hl4 Ht4];
      [exact Hin |].
    split; [| exact Hl4].
    rewrite Ht4. simpl. rewrite Hl. reflexivity.
Qed.

Lemma X26_witness :
  PyDict.get (NoFlyZoneController.zones NoFlyZoneController.default) "AD1"
    = None /\
  NoFlyZoneController.activate_zone NoFlyZoneController.default "AD1" 1
    = NoFlyZoneController.default.
Proof.
  split; [reflexivity |].
  destruct X26_zone_activation as (_ & H & _).
  apply (H NoFlyZoneController.default "AD1"%string 1). reflexivity.
Defined.

(** ** Escape and kamikaze maneuvers *)

Section ManeuverFacts.

Lemma norm_scale (k : R) (v : Vec3.t) :
  Vec3.norm (Vec3.scale k v) = Rabs k * Vec3.norm v.
Proof.
  unfold Vec3.norm, Vec3.scale. simpl.
  replace (k * Vec3.x v * (k * Vec3.x v) + k * Vec3.y v * (k * Vec3.y v)
           + k * Vec3.z v * (k * Vec3.z v))
    with (k * k * (Vec3.x v * Vec3.x v + Vec3.y v * Vec3.y v
                   + Vec3.z v * Vec3.z v)) by ring.
  rewrite sqrt_mult_alt by nra.
  f_equal. apply (sqrt_Rsqr_abs k).
Qed.

Lemma div_unguarded_norm (v : Vec3.t) :
  0 < Vec3.norm v ->
  Vec3.div_unguarded v (Vec3.norm v) = Some (Vec3.div v (Vec3.norm v)).
Proof.
  intros H. unfold Vec3.div_unguarded.
  destruct (Req_dec_T (Vec3.norm v) 0); [lra | reflexivity].
Qed.

Lemma div_unguarded_some (v w : Vec3.t) :
  Vec3.div_unguarded v (Vec3.norm v) = Some w ->
  0 < Vec3.norm v /\ w = Vec3.div v (Vec3.norm v).
Proof.
  unfold Vec3.div_unguarded. pose proof (norm_nonneg v).
  destruct (Req_dec_T (Vec3.norm v) 0); [discriminate |].
  intros Hw. injection Hw as <-. split; [lra | reflexivity].
Qed.

(** A vector with a nonzero third component has positive length. *)
Lemma norm_pos_z (v : Vec3.t) : Vec3.z v <> 0 -> 0 < Vec3.norm v.
Proof.
  intros Hz. unfold Vec3.norm. apply sqrt_lt_R0.
  assert (0 < Vec3.z v * Vec3.z v) by nra. nra.
Qed.

(** The escape vector for distinct positions: the speed times a
    direction whose vertical component follows the altitude rule. *)
Lemma escape_vector_cases (self : EscapeController.t)
    (our enemy : Vec3.t) (r1 r2 clock : R) :
  0 < Vec3.norm (Vec3.sub our enemy) ->
  let r := EscapeController.calculate_escape_vector self our enemy r1 r2 clock in
  exists d : Vec3.t,
    snd r
    = option_map
        (Vec3.scale (EscapeController.escape_speed self * (15 / 10)))
        (Vec3.div_unguarded d (Vec3.norm d)) /\
    Vec3.z d
    = (if Py.Rltb (Vec3.z our) (EscapeController.min_altitude self)
       then 4 / 10
       else if Py.Rltb (EscapeController.max_altitude self) (Vec3.z our)
            then - (4 / 10)
            else 2 / 10 * sin (clock * 2)) /\
    EscapeController.with_last_perp (fst r)
      (match EscapeController.last_perp (fst r) with
       | Some p => p
       | None => 0
       end) = fst r /\
    EscapeController.with_last_perp self 0
    = EscapeController.with_last_perp (fst r) 0 /\
    (exists p,
       EscapeController.last_perp (fst r) = Some p /\
       (((p = 1 \/ p = -1) /\
         (EscapeController.last_perp self = None \/ r1 < 1 / 10)) \/
        (EscapeController.last_perp self = Some p /\ ~ r1 < 1 / 10))).
Proof.
  intros Hpos. cbv zeta.
  unfold EscapeController.calculate_escape_vector.
  rewrite Rltb_true by exact Hpos.
  set (self1 := match EscapeController.last_perp self with
                | Some _ => _
                | None => _
                end).
  assert (Hself1 : EscapeController.with_last_perp self 0
                   = EscapeController.with_last_perp self1 0 /\
                   EscapeController.with_last_perp self1
                     (match EscapeController.last_perp self1 with
                      | Some p => p
                      | None => 0
                      end) = self1 /\
                   exists p,
                     EscapeController.last_perp self1 = Some p /\
                     (((p = 1 \/ p = -1) /\
                       (EscapeController.last_perp self = None
                        \/ r1 < 1 / 10)) \/
                      (EscapeController.last_perp self = Some p
                       /\ ~ r1 < 1 / 10))).
  { unfold self1. destruct self as [a b c d e f g lp]. simpl.
    destruct lp as [p |].
    - destruct (Py.Rltb r1 (1 / 10)) eqn:E1.
      + apply Rltb_spec in E1. simpl.
        split; [reflexivity |]. split; [reflexivity |].
        destruct (Py.Rltb r2 (1 / 2)); eexists; (split; [reflexivity |]);
          left; auto.
      + simpl. split; [reflexivity |]. split; [reflexivity |].
        exists p. split; [reflexivity |]. right. split; [reflexivity |].
        intros H. apply Rltb_true in H. congruence.
    - simpl. split; [reflexivity |]. split; [reflexivity |].
      destruct (Py.Rltb r2 (1 / 2)); eexists; (split; [reflexivity |]);
        left; auto. }
  destruct Hself1 as (Hsame & Hfix & Hperp).
  assert (Hfields : EscapeController.escape_speed self1
                    = EscapeController.escape_speed self /\
                    EscapeController.min_altitude self1
                    = EscapeController.min_altitude self /\
                    EscapeController.max_altitude self1
                    = EscapeController.max_altitude self).
  { pose proof (f_equal EscapeController.escape_speed Hsame) as H1.
    pose proof (f_equal EscapeController.min_altitude Hsame) as H2.
    pose proof (f_equal EscapeController.max_altitude Hsame) as H3.
    simpl in H1, H2, H3. auto. }
  destruct Hfields as (Hs & Hmin & Hmax). rewrite Hs, Hmin, Hmax.
  match goal with
  | |- context [Vec3.div_unguarded ?d (Vec3.norm ?d)] => exists d
  end.
  match goal with
  | |- context [Vec3.div_unguarded ?d (Vec3.norm ?d)] =>
      destruct (Vec3.div_unguarded d (Vec3.norm d)) as [w |]
  end; simpl.
  - split; [reflexivity |].
    split; [| split; [exact Hfix | split; [exact Hsame | exact Hperp]]].
    destruct (Py.Rltb (Vec3.z our) (EscapeController.min_altitude self));
      [reflexivity |].
    destruct (Py.Rltb (EscapeController.max_altitude self) (Vec3.z our));
      reflexivity.
  - split; [reflexivity |].
    split; [| split; [exact Hfix | split; [exact Hsame | exact Hperp]]].
    destruct (Py.Rltb (Vec3.z our) (EscapeController.min_altitude self));
      [reflexivity |].
    destruct (Py.Rltb (EscapeController.max_altitude self) (Vec3.z our));
      reflexivity.
Qed.

End ManeuverFacts.

(** X27. The escape vector for distinct own and enemy positions.
    Whenever a vector is returned its length is the escape speed times
    1.5, in absolute value.  Below the minimum altitude the vertical
    component is set to 0.4 before normalization, so a vector is always
    returned and, for a positive escape speed, it climbs; above the
    maximum altitude it descends.  The side of the evasive turn is 1 or
    -1 once drawn, and it is redrawn only when there was none or the
    first random draw is below 0.1; nothing else of the controller
    changes. *)
Theorem X27_escape_vector :
  forall (self : EscapeController.t) (our enemy : Vec3.t) (r1 r2 clock : R),
    0 < Vec3.norm (Vec3.sub our enemy) ->
    let r :=
      EscapeController.calculate_escape_vector self our enemy r1 r2 clock in
    (forall v, snd r = Some v ->
       Vec3.norm v = Rabs (EscapeController.escape_speed self * (15 / 10))) /\
    (0 < EscapeController.escape_speed self ->
     Vec3.z our < EscapeController.min_altitude self ->
     exists v, snd r = Some v /\ 0 < Vec3.z v) /\
    (0 < EscapeController.escape_speed self ->
     ~ Vec3.z our < EscapeController.min_altitude self ->
     EscapeController.max_altitude self < Vec3.z our ->
     exists v, snd r = Some v /\ Vec3.z v < 0) /\
    (exists p,
       EscapeController.last_perp (fst r) = Some p /\
       (((p = 1 \/ p = -1) /\
         (EscapeController.last_perp self = None \/ r1 < 1 / 10)) \/
        (EscapeController.last_perp self = Some p /\ ~ r1 < 1 / 10))) /\
    EscapeController.with_last_perp self 0
    = EscapeController.with_last_perp (fst r) 0.
Proof.
  intros self our enemy r1 r2 clock Hpos r.
  destruct (escape_vector_cases self our enemy r1 r2 clock Hpos)
    as (d & Hv & Hz & _ & Hsame & Hperp).
  fold r in Hv, Hsame, Hperp.
  assert (Hclimb : forall zd : R,
            Vec3.z d = zd -> zd <> 0 ->
            0 < EscapeController.escape_speed self ->
            exists v, snd r = Some v /\
                      Vec3.z v
                      = EscapeController.escape_speed self * (15 / 10)
                        * (zd / Vec3.norm d) /\
                      0 < Vec3.norm d).
  { intros zd Hzd Hne Hs.
    assert (Hn : 0 < Vec3.norm d) by (apply norm_pos_z; congruence).
    rewrite Hv, div_unguarded_norm by exact Hn. simpl.
    eexists. split; [reflexivity |]. simpl. rewrite Hzd. auto. }
  split; [| split; [| split; [| split]]].
  - intros v Hsome. rewrite Hv in Hsome.
    destruct (Vec3.div_unguarded d (Vec3.norm d)) as [w |] eqn:Hw;
      [| discriminate].
    simpl in Hsome. injection Hsome as <-.
    apply div_unguarded_some in Hw as [Hn ->].
    rewrite norm_scale, norm_div_unit by exact Hn. ring.
  - intros Hs Hlow. rewrite Rltb_true in Hz by exact Hlow.
    destruct (Hclimb (4 / 10) Hz ltac:(lra) Hs) as (v & Hsome & Hzv & Hn).
    exists v. split; [exact Hsome |]. rewrite Hzv.
    apply Rmult_lt_0_compat; [lra |].
    apply Rdiv_lt_0_compat; lra.
  - intros Hs Hnlow Hhigh.
    rewrite Rltb_false in Hz by exact Hnlow.
    rewrite Rltb_true in Hz by exact Hhigh.
    destruct (Hclimb (- (4 / 10)) Hz ltac:(lra) Hs) as (v & Hsome & Hzv & Hn).
    exists v. split; [exact Hsome |]. rewrite Hzv.
    assert (0 < 4 / 10 / Vec3.norm d) by (apply Rdiv_lt_0_compat; lra).
    replace (- (4 / 10) / Vec3.norm d) with (- (4 / 10 / Vec3.norm d))
      by (unfold Rdiv; ring).
    nra.
  - exact Hperp.
  - exact Hsame.
Qed.

Lemma X27_witness :
  0 < Vec3.norm (Vec3.sub (Vec3.mk 3 4 10) Vec3.zeros) /\
  exists p,
    EscapeController.last_perp
      (fst (EscapeController.calculate_escape_vector
              EscapeController.default (Vec3.mk 3 4 10) Vec3.zeros
              0 0 0)) = Some p.
Proof.
  assert (H : 0 < Vec3.norm (Vec3.sub (Vec3.mk 3 4 10) Vec3.zeros)).
  { apply norm_pos_z. simpl. lra. }
  split; [exact H |].
  destruct (X27_escape_vector EscapeController.default (Vec3.mk 3 4 10)
              Vec3.zeros 0 0 0 H) as (_ & _ & _ & (p & Hp & _) & _).
  exists p. exact Hp.
Defined.

Section DiveFacts.
Import KamikazeController.

(** The vector [calculate_dive_path] normalizes last. *)
Lemma dive_path_positive (self : t) (our target : Vec3.t) :
  0 < Vec3.norm (Vec3.sub target our) ->
  calculate_dive_path self our target
  = Vec3.div_unguarded
      (Vec3.mk (Vec3.x (Vec3.sub target our) / Vec3.norm (Vec3.sub target our))
         (Vec3.y (Vec3.sub target our) / Vec3.norm (Vec3.sub target our))
         (- sin (radians (dive_angle self))))
      (Vec3.norm
         (Vec3.mk
            (Vec3.x (Vec3.sub target our) / Vec3.norm (Vec3.sub target our))
            (Vec3.y (Vec3.sub target our) / Vec3.norm (Vec3.sub target our))
            (- sin (radians (dive_angle self))))).
Proof.
  intros Hpos. unfold calculate_dive_path. rewrite Rltb_true by exact Hpos.
  reflexivity.
Qed.

Lemma div_unguarded_none (v : Vec3.t) :
  Vec3.div_unguarded v (Vec3.norm v) = None <-> v = Vec3.zeros.
Proof.
  unfold Vec3.div_unguarded.
  destruct (Req_dec_T (Vec3.norm v) 0) as [Hz | Hnz]; split.
  - intros _. apply norm_not_positive. lra.
  - reflexivity.
  - discriminate.
  - intros ->. contradiction Hnz. apply norm_zeros.
Qed.

Lemma quotient_zero (a d : R) : 0 < d -> (a / d = 0 <-> a = 0).
Proof.
  intros Hd. split.
  - intros H. apply (Rmult_eq_compat_r d) in H.
    unfold Rdiv in H. rewrite Rmult_assoc, Rinv_l, Rmult_1_r, Rmult_0_l in H
      by lra. exact H.
  - intros ->. unfold Rdiv. ring.
Qed.

(** For distinct positions the final normalization divides by zero
    exactly when the target is straight above or below and the sine of
    the dive angle is 0. *)
Lemma dive_path_undefined (self : t) (our target : Vec3.t) :
  0 < Vec3.norm (Vec3.sub target our) ->
  (calculate_dive_path self our target = None <->
   Vec3.x (Vec3.sub target our) = 0 /\
   Vec3.y (Vec3.sub target our) = 0 /\
   sin (radians (dive_angle self)) = 0).
Proof.
  intros Hpos. rewrite (dive_path_positive self our target Hpos).
  rewrite div_unguarded_none.
  set (d := Vec3.norm (Vec3.sub target our)) in *.
  split.
  - intros H. injection H as Hx Hy Hz.
    apply (proj1 (quotient_zero _ d Hpos)) in Hx.
    apply (proj1 (quotient_zero _ d Hpos)) in Hy.
    repeat split; [exact Hx | exact Hy | lra].
  - intros (Hx & Hy & Hz). unfold Vec3.zeros.
    rewrite Hx, Hy, Hz. f_equal; unfold Rdiv; ring.
Qed.

Lemma sin_radians_positive (a : R) : 0 < a < 180 -> 0 < sin (radians a).
Proof.
  intros [Ha1 Ha2]. pose proof PI_RGT_0 as Hpi. unfold radians.
  apply sin_gt_0.
  - apply Rdiv_lt_0_compat; [nra | lra].
  - apply (Rmult_lt_reg_r 180); [lra |].
    unfold Rdiv. rewrite Rmult_assoc, Rinv_l by lra. nra.
Qed.

Lemma level_straight_above :
  0 < Vec3.norm (Vec3.sub Vec3.zeros (Vec3.mk 0 0 100)) /\
  Vec3.x (Vec3.sub Vec3.zeros (Vec3.mk 0 0 100)) = 0 /\
  Vec3.y (Vec3.sub Vec3.zeros (Vec3.mk 0 0 100)) = 0 /\
  sin (radians (dive_angle level)) = 0.
Proof.
  split; [apply norm_pos_z; simpl; lra |].
  split; [simpl; ring |]. split; [simpl; ring |].
  unfold radians, level. simpl.
  replace (0 * PI / 180) with 0 by (unfold Rdiv; ring). apply sin_0.
Qed.

End DiveFacts.

(** C7 (the code departs from the claim).  Each generator guards its
    first normalization: with own position equal to the threat or target
    position the zero vector is returned.  The final normalization of the
    dive path is not guarded.  For a controller with a dive angle of 0
    degrees, at (0, 0, 100) with the target at the origin, the first
    vector has length 100, the vector normalized last is
    (0, 0, -sin 0), of length zero, and the code divides by that length:
    the result is not the zero vector, it is no finite vector at all. *)
Theorem C7_final_normalization_divides_by_zero :
  (forall (self : EscapeController.t) (p : Vec3.t) (r1 r2 clock : R),
      EscapeController.calculate_escape_vector self p p r1 r2 clock
      = (self, Some Vec3.zeros)) /\
  (forall (self : KamikazeController.t) (p : Vec3.t),
      KamikazeController.calculate_dive_path self p p = Some Vec3.zeros) /\
  (let self := KamikazeController.level in
   let our := Vec3.mk 0 0 100 in
   let target := Vec3.zeros in
   let direction :=
     Vec3.div (Vec3.sub target our) (Vec3.norm (Vec3.sub target our)) in
   let movement_vector :=
     Vec3.mk (Vec3.x direction) (Vec3.y direction)
       (- sin (KamikazeController.radians
                 (KamikazeController.dive_angle self))) in
   Vec3.norm (Vec3.sub target our) = 100 /\
   movement_vector = Vec3.zeros /\
   Vec3.norm movement_vector = 0 /\
   KamikazeController.calculate_dive_path self our target
   = Vec3.div_unguarded movement_vector (Vec3.norm movement_vector) /\
   KamikazeController.calculate_dive_path self our target = None /\
   KamikazeController.calculate_dive_path self our target
   <> Some Vec3.zeros).
Proof.
  split; [apply guarded_normalizations_return_zeros |].
  split; [apply guarded_normalizations_return_zeros |].
  cbv zeta.
  destruct level_straight_above as (Hpos & Hx & Hy & Hsin).
  assert (Hnone : KamikazeController.calculate_dive_path
                    KamikazeController.level (Vec3.mk 0 0 100) Vec3.zeros
                  = None)
    by (apply dive_path_undefined; auto).
  assert (Hmv :
            Vec3.mk
              (Vec3.x (Vec3.div (Vec3.sub Vec3.zeros (Vec3.mk 0 0 100))
                         (Vec3.norm (Vec3.sub Vec3.zeros (Vec3.mk 0 0 100)))))
              (Vec3.y (Vec3.div (Vec3.sub Vec3.zeros (Vec3.mk 0 0 100))
                         (Vec3.norm (Vec3.sub Vec3.zeros (Vec3.mk 0 0 100)))))
              (- sin (KamikazeController.radians
                        (KamikazeController.dive_angle
                           KamikazeController.level)))
            = Vec3.zeros).
  { rewrite Hsin. cbn [Vec3.div Vec3.x Vec3.y].
    rewrite Hx, Hy. unfold Vec3.zeros at 3. f_equal; unfold Rdiv; ring. }
  split.
  { unfold Vec3.norm, Vec3.sub, Vec3.zeros. simpl.
    replace ((0 - 0) * (0 - 0) + (0 - 0) * (0 - 0) + (0 - 100) * (0 - 100))
      with (100 * 100) by ring.
    apply sqrt_square. lra. }
  split; [exact Hmv |].
  split; [rewrite Hmv; apply norm_zeros |].
  split; [apply (dive_path_positive _ _ _ Hpos) |].
  split; [exact Hnone |].
  rewrite Hnone. discriminate.
Qed.

(** X28. The dive path.  For equal positions it is the zero vector.  For
    distinct positions the final normalization divides by zero, leaving
    no finite vector, exactly when the target is straight above or below
    and the sine of the dive angle is 0; in every other case the result
    has length 1, its horizontal part is a positive multiple of the
    horizontal offset of the target, and its vertical part is the
    negated sine of the dive angle under the same scaling, whatever the
    altitudes.  So for a dive angle strictly between 0 and 180 degrees a
    vector is always returned and it descends. *)
Theorem X28_dive_path :
  forall (self : KamikazeController.t) (our target : Vec3.t),
    let r := KamikazeController.calculate_dive_path self our target in
    let d := Vec3.sub target our in
    let s := sin (KamikazeController.radians
                    (KamikazeController.dive_angle self)) in
    (~ 0 < Vec3.norm d -> r = Some Vec3.zeros) /\
    (0 < Vec3.norm d ->
     (r = None <-> Vec3.x d = 0 /\ Vec3.y d = 0 /\ s = 0) /\
     (forall v, r = Some v ->
        Vec3.norm v = 1 /\
        exists k, 0 < k /\
                  Vec3.x v = k * Vec3.x d /\
                  Vec3.y v = k * Vec3.y d /\
                  Vec3.z v = - (k * Vec3.norm d * s)) /\
     (0 < KamikazeController.dive_angle self < 180 ->
      exists v, r = Some v /\ Vec3.z v < 0)).
Proof.
  intros self our target r d s.
  split.
  - intros Hn. unfold r, KamikazeController.calculate_dive_path. fold d.
    rewrite Rltb_false by exact Hn. reflexivity.
  - intros Hpos.
    pose proof (dive_path_positive self our target Hpos) as Hr.
    fold d s r in Hr.
    set (mv := Vec3.mk (Vec3.x d / Vec3.norm d) (Vec3.y d / Vec3.norm d) (- s))
      in Hr.
    assert (Hsome : forall v, r = Some v ->
              0 < Vec3.norm mv /\ v = Vec3.div mv (Vec3.norm mv)).
    { intros v Hv. rewrite Hr in Hv. apply div_unguarded_some. exact Hv. }
    split; [apply (dive_path_undefined self our target Hpos) |].
    split.
    + intros v Hv. destruct (Hsome v Hv) as [Hn ->].
      split; [apply norm_div_unit; exact Hn |].
      exists (/ (Vec3.norm d * Vec3.norm mv)).
      split; [apply Rinv_0_lt_compat, Rmult_lt_0_compat; assumption |].
      simpl. repeat split; field; split; lra.
    + intros Hangle.
      pose proof (sin_radians_positive _ Hangle) as Hs. fold s in Hs.
      assert (Hn : 0 < Vec3.norm mv) by (apply norm_pos_z; simpl; lra).
      exists (Vec3.div mv (Vec3.norm mv)).
      split; [rewrite Hr; apply div_unguarded_norm; exact Hn |].
      simpl.
      assert (0 < s / Vec3.norm mv) by (apply Rdiv_lt_0_compat; assumption).
      unfold Rdiv in *. lra.
Qed.

Lemma X28_witness :
  0 < Vec3.norm (Vec3.sub Vec3.zeros (Vec3.mk 0 0 100)) /\
  exists v,
    KamikazeController.calculate_dive_path KamikazeController.default
      (Vec3.mk 0 0 100) Vec3.zeros = Some v /\
    Vec3.z v < 0.
Proof.
  assert (H : 0 < Vec3.norm (Vec3.sub Vec3.zeros (Vec3.mk 0 0 100)))
    by apply level_straight_above.
  split; [exact H |].
  destruct (X28_dive_path KamikazeController.default (Vec3.mk 0 0 100)
              Vec3.zeros) as [_ Hd].
  destruct (Hd H) as (_ & _ & Hv).
  apply Hv. simpl. lra.
Defined.

(** X29. The kamikaze [update].  The command always has [attack] set and
    reports the distance to the target, which the update also stores in
    the attribute [_last_distance].  Besides that attribute only the flag
    [qr_read_successful] can change, and it is never lowered.  Without a
    frame nothing is read.  With a frame and the target closer than 20
    the read succeeds whatever the detector says.  Once the flag is up
    the dive is over: below the minimum altitude the vehicle climbs
    straight up at the approach speed, at or above it the command is the
    zero vector.  [reset] lowers the flag but keeps the stored distance,
    so a later [read_qr_code] still succeeds when that distance is below
    20. *)
Theorem X29_kamikaze_update :
  forall (self : KamikazeController.t) (target our vel : Vec3.t)
         (frame : option KamikazeController.detection),
    let r := KamikazeController.update self target our vel frame in
    let dist := Vec3.norm (Vec3.sub target our) in
    KamikazeController.attack (snd r) = true /\
    KamikazeController.distance (snd r) = dist /\
    KamikazeController._last_distance (fst r) = Some dist /\
    fst r = KamikazeController.with_qr_read
              (KamikazeController.with_last_distance self dist)
              (KamikazeController.qr_read_successful (fst r)) /\
    (KamikazeController.qr_read_successful self = true ->
     KamikazeController.qr_read_successful (fst r) = true) /\
    (frame = None ->
     fst r = KamikazeController.with_last_distance self dist /\
     KamikazeController.qr_data (snd r) = None) /\
    (frame <> None ->
     dist < 20 ->
     KamikazeController.qr_read_successful (fst r) = true /\
     KamikazeController.qr_data (snd r) = Some "SIMULATED_QR_CODE"%string) /\
    (KamikazeController.qr_read_successful (fst r) = true ->
     (Vec3.z our < KamikazeController.min_altitude self ->
      KamikazeController.vector (snd r)
        = Some (Vec3.mk 0 0 (KamikazeController.approach_speed self)) /\
      KamikazeController.message (snd r) = "Ascending after QR read"%string) /\
     (KamikazeController.min_altitude self <= Vec3.z our ->
      KamikazeController.vector (snd r) = Some Vec3.zeros /\
      KamikazeController.message (snd r) = "Reached safe altitude"%string)) /\
    (dist < 20 ->
     forall f : KamikazeController.detection,
       KamikazeController.read_qr_code
         (KamikazeController.reset (fst r)) f
       = (KamikazeController.with_qr_read (fst r) true,
          Some "SIMULATED_QR_CODE"%string)).
Proof.
  intros self target our vel frame r dist.
  unfold r, KamikazeController.update. fold dist.
  set (self0 := KamikazeController.with_last_distance self dist).
  assert (Hread : exists (b : bool) (q : option string),
            match frame with
            | Some f => KamikazeController.read_qr_code self0 f
            | None => (self0, None)
            end
            = (KamikazeController.with_qr_read self0 b, q) /\
            (KamikazeController.qr_read_successful self = true -> b = true) /\
            (frame = None ->
             b = KamikazeController.qr_read_successful self /\ q = None) /\
            (frame <> None -> dist < 20 ->
             b = true /\ q = Some "SIMULATED_QR_CODE"%string)).
  { unfold self0. destruct self as [ma da sp qs flag ld].
    destruct frame as [f |].
    - unfold KamikazeController.read_qr_code.
      cbn [KamikazeController._last_distance
           KamikazeController.with_last_distance].
      destruct (Py.Rltb dist 20) eqn:Ed.
      + exists true, (Some "SIMULATED_QR_CODE"%string).
        split; [reflexivity |]. split; [auto |].
        split; [discriminate | auto].
      + assert (Hfar : ~ dist < 20)
          by (intros H; apply Rltb_true in H; congruence).
        destruct f as [data pts |].
        * destruct (negb (String.eqb data "") && pts).
          -- exists true, (Some data). split; [reflexivity |].
             split; [auto |]. split; [discriminate | ].
             intros _ H. contradiction.
          -- exists flag, None. split; [reflexivity |].
             split; [auto |]. split; [discriminate | ].
             intros _ H. contradiction.
        * exists flag, None. split; [reflexivity |].
          split; [auto |]. split; [discriminate | ].
          intros _ H. contradiction.
    - exists flag, None. split; [reflexivity |]. split; [auto |].
      split; [auto |]. intros H. contradiction H. reflexivity. }
  destruct Hread as (b & q & Heq & Hkeep & Hnone & Hclose).
  rewrite Heq.
  assert (Hself : KamikazeController.with_qr_read self0
                    (KamikazeController.qr_read_successful self) = self0)
    by (unfold self0; destruct self; reflexivity).
  assert (Hreset : dist < 20 ->
            forall (b' : bool) (f : KamikazeController.detection),
              KamikazeController.read_qr_code
                (KamikazeController.reset
                   (KamikazeController.with_qr_read self0 b')) f
              = (KamikazeController.with_qr_read
                   (KamikazeController.with_qr_read self0 b') true,
                 Some "SIMULATED_QR_CODE"%string)).
  { intros Hd b' f. unfold KamikazeController.read_qr_code, self0.
    cbn [KamikazeController.reset KamikazeController.with_qr_read
         KamikazeController._last_distance
         KamikazeController.with_last_distance].
    rewrite Rltb_true by exact Hd. reflexivity. }
  assert (Hld : forall b', KamikazeController._last_distance
                             (KamikazeController.with_qr_read self0 b')
                           = Some dist) by reflexivity.
  destruct b; cbn [KamikazeController.qr_read_successful
                   KamikazeController.with_qr_read
                   KamikazeController.min_altitude
                   KamikazeController.approach_speed
                   KamikazeController.with_last_distance self0].
  - destruct (Py.Rleb (KamikazeController.min_altitude self) (Vec3.z our))
      eqn:Ealt; cbn [fst snd KamikazeController.attack
                     KamikazeController.distance KamikazeController.qr_data
                     KamikazeController.vector KamikazeController.message
                     KamikazeController.qr_read_successful
                     KamikazeController._last_distance
                     KamikazeController.with_qr_read option_map].
    + apply Rleb_spec in Ealt.
      split; [reflexivity |]. split; [reflexivity |].
      split; [reflexivity |]. split; [reflexivity |].
      split; [reflexivity |].
      split.
      { intros Hf. destruct (Hnone Hf) as [Hb ->].
        split; [rewrite Hb; exact Hself | reflexivity]. }
      split; [intros Hf Hd; destruct (Hclose Hf Hd) as [_ ->]; auto |].
      split.
      { intros _. split; [intros Hlow; lra |].
        intros _. split; [| reflexivity].
        unfold Vec3.scale, Vec3.zeros. simpl. do 2 f_equal; ring. }
      intros Hd f. apply (Hreset Hd true f).
    + apply Rleb_false_inv in Ealt.
      split; [reflexivity |]. split; [reflexivity |].
      split; [reflexivity |]. split; [reflexivity |].
      split; [reflexivity |].
      split.
      { intros Hf. destruct (Hnone Hf) as [Hb ->].
        split; [rewrite Hb; exact Hself | reflexivity]. }
      split; [intros Hf Hd; destruct (Hclose Hf Hd) as [_ ->]; auto |].
      split.
      { intros _. split; [| intros Hhigh; lra].
        intros _. split; [| reflexivity].
        unfold Vec3.scale, KamikazeController.calculate_ascent_vector. simpl.
        do 2 f_equal; ring. }
      intros Hd f. apply (Hreset Hd true f).
  - assert (Hflag : KamikazeController.qr_read_successful self = false).
    { destruct (KamikazeController.qr_read_successful self);
        [specialize (Hkeep eq_refl); discriminate | reflexivity]. }
    destruct (Py.Rleb (Vec3.z our) 0);
      cbn [fst snd KamikazeController.attack
           KamikazeController.distance KamikazeController.qr_data
           KamikazeController.vector KamikazeController.message
           KamikazeController.qr_read_successful
           KamikazeController._last_distance
           KamikazeController.with_qr_read option_map];
      (split; [reflexivity |]); (split; [reflexivity |]);
      (split; [reflexivity |]); (split; [reflexivity |]);
      (split; [congruence |]);
      (split;
       [intros Hf; destruct (Hnone Hf) as [_ ->];
        split; [rewrite <- Hflag; exact Hself | reflexivity] |]);
      (split; [intros Hf Hd; destruct (Hclose Hf Hd); discriminate |]);
      (split; [discriminate |]);
      intros Hd f; apply (Hreset Hd false f).
Qed.

Lemma X29_witness :
  KamikazeController.qr_read_successful
    (KamikazeController.with_qr_read KamikazeController.default true) = true /\
  KamikazeController.qr_read_successful
    (fst (KamikazeController.update
            (KamikazeController.with_qr_read KamikazeController.default true)
            Vec3.zeros (Vec3.mk 0 0 100) Vec3.zeros None)) = true.
Proof.
  split; [reflexivity |].
  destruct (X29_kamikaze_update
              (KamikazeController.with_qr_read KamikazeController.default
                 true)
              Vec3.zeros (Vec3.mk 0 0 100) Vec3.zeros None)
    as (_ & _ & _ & _ & Hkeep & _).
  apply Hkeep. reflexivity.
Defined.

Section EscapeFacts.
Import EscapeController.

(** The escape vector computation touches the side of the turn only. *)
Lemma escape_vector_frame (self : t) (our enemy : Vec3.t) (r1 r2 clock : R) :
  with_last_perp self 0
  = with_last_perp
      (fst (calculate_escape_vector self our enemy r1 r2 clock)) 0.
Proof.
  destruct (Py.Rltb 0 (Vec3.norm (Vec3.sub our enemy))) eqn:E.
  - apply Rltb_spec in E.
    destruct (escape_vector_cases self our enemy r1 r2 clock E)
      as (_ & _ & _ & _ & H & _).
    exact H.
  - unfold calculate_escape_vector. rewrite E. reflexivity.
Qed.

Lemma escape_vector_state (self : t) (our enemy : Vec3.t) (r1 r2 clock : R) :
  let self' := fst (calculate_escape_vector self our enemy r1 r2 clock) in
  is_escaping self' = is_escaping self /\
  escape_start_time self' = escape_start_time self /\
  escape_trajectory self' = escape_trajectory self.
Proof.
  pose proof (escape_vector_frame self our enemy r1 r2 clock) as H.
  pose proof (f_equal is_escaping H) as H1.
  pose proof (f_equal escape_start_time H) as H2.
  pose proof (f_equal escape_trajectory H) as H3.
  simpl in H1, H2, H3. auto.
Qed.

(** One [update] under an enemy lock. *)
Lemma update_locked (self : t) (data : enemy_data) (our vel : Vec3.t)
    (t_start r1 r2 clock : R) :
  detect_enemy_lock self data = true ->
  let r := update self data our vel t_start r1 r2 clock in
  let tr := (if is_escaping self then escape_trajectory self else [])
            ++ [(Py.to_int (Vec3.x our), Py.to_int (Vec3.y our))] in
  is_escaping (fst r) = true /\
  escape_start_time (fst r)
  = (if is_escaping self then escape_start_time self else Some t_start) /\
  escape_trajectory (fst r)
  = (if (50 <? length tr)%nat then tl tr else tr) /\
  escape (snd r) = true /\
  message (snd r) = "Executing escape maneuver"%string.
Proof.
  intros Hlock. cbv zeta. unfold update. rewrite Hlock.
  set (self1 := if negb (is_escaping self) then _ else self).
  pose proof (escape_vector_state self1 our (get_vector data "position")
                r1 r2 clock) as (H1 & H2 & H3).
  cbv zeta in H1, H2, H3.
  destruct (calculate_escape_vector self1 our (get_vector data "position")
              r1 r2 clock) as [self2 ev].
  simpl in H1, H2, H3. simpl. rewrite H1, H2, H3.
  unfold self1. destruct (is_escaping self) eqn:E; simpl; rewrite ?E; auto.
Qed.

Lemma update_safe (self : t) (data : enemy_data) (our vel : Vec3.t)
    (t_start r1 r2 clock : R) :
  detect_enemy_lock self data = false ->
  update self data our vel t_start r1 r2 clock
  = (with_escape self false None [],
     mk_commands false (Some Vec3.zeros) "Monitoring").
Proof. intros H. unfold update. rewrite H. reflexivity. Qed.

Lemma step_bounded (self : t) (i : step_input) :
  (length (escape_trajectory self) <= 50)%nat ->
  (is_escaping self = false ->
   escape_start_time self = None /\ escape_trajectory self = []) ->
  (is_escaping self = true -> is_Some (escape_start_time self)) ->
  (length (escape_trajectory (step self i)) <= 50)%nat /\
  (is_escaping (step self i) = false ->
   escape_start_time (step self i) = None /\
   escape_trajectory (step self i) = []) /\
  (is_escaping (step self i) = true ->
   is_Some (escape_start_time (step self i))).
Proof.
  intros Hlen Hoff Hon. unfold step.
  destruct (detect_enemy_lock self (in_enemy i)) eqn:Hlock.
  - destruct (update_locked self (in_enemy i) (in_position i)
                (in_velocity i) (in_t_start i) (in_r1 i) (in_r2 i)
                (in_clock i) Hlock) as (H1 & H2 & H3 & _).
    cbv zeta in H1, H2, H3. rewrite H1, H2, H3.
    split; [| split; [discriminate |]].
    + set (tr := _ ++ _).
      assert (Htr : (length tr <= 51)%nat).
      { unfold tr. rewrite length_app. simpl.
        destruct (is_escaping self); simpl; lia. }
      destruct (Nat.ltb_spec 50 (length tr)); [| lia].
      destruct tr; simpl in *; lia.
    + intros _. destruct (is_escaping self); [auto | eauto].
  - rewrite update_safe by exact Hlock. simpl.
    split; [lia |]. split; [auto | discriminate].
Qed.

End EscapeFacts.

(** X30. The escape [update].  Lock detection answers no on empty enemy
    data, yes only when the enemy is closer than twice the safe distance,
    and, when no enemy direction is given, exactly when it is that
    close.  Without a lock the escape state is cleared and the command is
    the zero vector.  Under a lock the controller is escaping, the start
    time is taken at the first locked update and kept afterwards, and the
    truncated own position is appended to the trajectory, which drops its
    oldest point beyond 50.  So from a new controller the trajectory
    never exceeds 50 points, and a start time is recorded exactly while
    escaping. *)
Theorem X30_escape_update :
  (forall self : EscapeController.t,
      EscapeController.detect_enemy_lock self [] = false) /\
  (forall (self : EscapeController.t) (data : EscapeController.enemy_data),
      EscapeController.detect_enemy_lock self data = true ->
      Vec3.norm (Vec3.sub (EscapeController.get_vector data "position")
                   (EscapeController.get_vector data "our_position"))
      < EscapeController.safe_distance self * 2) /\
  (forall (self : EscapeController.t) (data : EscapeController.enemy_data),
      data <> [] ->
      PyDict.get data "direction" = None ->
      EscapeController.detect_enemy_lock self data
      = Py.Rltb
          (Vec3.norm (Vec3.sub (EscapeController.get_vector data "position")
                        (EscapeController.get_vector data "our_position")))
          (EscapeController.safe_distance self * 2)) /\
  (forall (self : EscapeController.t) (data : EscapeController.enemy_data)
          (our vel : Vec3.t) (t_start r1 r2 clock : R),
      let r := EscapeController.update self data our vel t_start r1 r2 clock in
      (EscapeController.detect_enemy_lock self data = false ->
       r = (EscapeController.with_escape self false None [],
            EscapeController.mk_commands false (Some Vec3.zeros)
              "Monitoring")) /\
      (EscapeController.detect_enemy_lock self data = true ->
       let tr :=
         (if EscapeController.is_escaping self
          then EscapeController.escape_trajectory self else [])
         ++ [(Py.to_int (Vec3.x our), Py.to_int (Vec3.y our))] in
       EscapeController.is_escaping (fst r) = true /\
       EscapeController.escape_start_time (fst r)
       = (if EscapeController.is_escaping self
          then EscapeController.escape_start_time self else Some t_start) /\
       EscapeController.escape_trajectory (fst r)
       = (if (50 <? length tr)%nat then tl tr else tr) /\
       EscapeController.escape (snd r) = true)) /\
  (forall (a b c d : R) (inputs : list EscapeController.step_input),
      let s := EscapeController.run (EscapeController.init a b c d) inputs in
      (length (EscapeController.escape_trajectory s) <= 50)%nat /\
      (EscapeController.is_escaping s = false ->
       EscapeController.escape_start_time s = None /\
       EscapeController.escape_trajectory s = []) /\
      (EscapeController.is_escaping s = true ->
       is_Some (EscapeController.escape_start_time s))).
Proof.
  split; [reflexivity |]. split; [| split; [| split]].
  - intros self data. unfold EscapeController.detect_enemy_lock.
    destruct data as [| e data]; [discriminate |].
    set (inr := Py.Rltb _ (EscapeController.safe_distance self * 2)).
    intros H. apply Rltb_spec. fold inr.
    destruct inr; [reflexivity |]. simpl in H. discriminate.
  - intros self data Hne Hdir. unfold EscapeController.detect_enemy_lock.
    destruct data as [| e data]; [contradiction |].
    rewrite Hdir.
    destruct (Py.Rltb _ (EscapeController.safe_distance self * 2)); simpl;
      [apply orb_true_r | reflexivity].
  - intros self data our vel t_start r1 r2 clock r. split.
    + intros H. apply update_safe. exact H.
    + intros H.
      destruct (update_locked self data our vel t_start r1 r2 clock H)
        as (H1 & H2 & H3 & H4 & _).
      auto.
  - intros a b c d inputs.
    induction inputs as [| i l IH] using rev_ind.
    + simpl. split; [lia |]. split; [auto | discriminate].
    + cbv zeta in *. unfold EscapeController.run in *.
      rewrite fold_left_app. simpl.
      destruct IH as (I1 & I2 & I3). apply step_bounded; assumption.
Qed.

Lemma X30_witness :
  EscapeController.detect_enemy_lock EscapeController.default
    [("note"%string, Vec3.zeros)] = true /\
  Vec3.norm (Vec3.sub
               (EscapeController.get_vector [("note"%string, Vec3.zeros)]
                  "position")
               (EscapeController.get_vector [("note"%string, Vec3.zeros)]
                  "our_position"))
  < EscapeController.safe_distance EscapeController.default * 2.
Proof.
  assert (H : EscapeController.detect_enemy_lock EscapeController.default
                [("note"%string, Vec3.zeros)] = true).
  { unfold EscapeController.detect_enemy_lock. simpl.
    unfold EscapeController.get_vector. simpl.
    rewrite sub_self, norm_zeros.
    rewrite (Rltb_true 0 (30 * 2)) by lra. rewrite Rltb_false by lra.
    reflexivity. }
  split; [exact H |].
  destruct X30_escape_update as (_ & Hr & _).
  apply (Hr EscapeController.default [("note"%string, Vec3.zeros)] H).
Defined.
